(** * Mini-Shell: the command-tree evaluator of [src/cmd.c]

    A shallow embedding of [shell_cd], [shell_exit], [parse_simple],
    [run_in_parallel], [run_on_pipe] and [parse_command], written in a
    state monad over the part of a POSIX process the code touches
    (environment, working directory, descriptor table), together with the
    properties the specification states about them.

    The embedding follows ONE process.  Whatever the operating system
    decides on its own (does [fork] succeed and on which side of it are
    we, what does [waitpid] report, can the file be opened, does the
    directory exist, can the program image be loaded) is read from a
    script of answers carried by the world, so that every theorem
    quantifies over all behaviours of the system.  A forked child is the
    same code continuing with the answer 0 to [fork]; what its parent
    learns of it is the status word [waitpid] stores.

    C [int]s are [Z]: the code does no arithmetic on them beyond [&] on two
    statuses and [level + 1], which a tree that fits in memory cannot
    overflow.  C [bool] is [bool], with the conversions written out. *)

From Stdlib Require Import ZArith String List Bool Lia.
From stdpp Require Import gmap strings list fin_maps.

Open Scope Z_scope.
Set Warnings "-register-all,-clear-no-such-hyp".

(** ** The parsed tree (the types of the absent parser header, as the code uses them) *)

(** [word_t]: a chain of parts ([next_part]) and, for parameters, a chain of
    words ([next_word]).  [string] is a C pointer: [shell_cd] tests it
    against NULL, hence the option. *)
Inductive word : Type := Word {
  word_string : option string;
  word_expand : bool;
  next_part : option word;
  next_word : option word
}.

(** [simple_command_t]; the fields [in], [out], [err] are nullable words. *)
Record simple_command : Type := Simple {
  verb : option word;
  params : option word;
  s_in : option word;
  s_out : option word;
  s_err : option word;
  io_flags : Z
}.

(** [operator_t].  [OP_UNKNOWN] stands for every value of the field that
    is none of the six the evaluator names. *)
Inductive operator : Type :=
| OP_NONE | OP_SEQUENTIAL | OP_PARALLEL
| OP_CONDITIONAL_NZERO | OP_CONDITIONAL_ZERO | OP_PIPE
| OP_UNKNOWN.

(** [command_t]: all four fields exist side by side in the C struct and
    every pointer may be NULL. *)
Inductive command : Type := Command {
  op : operator;
  scmd : option simple_command;
  cmd1 : option command;
  cmd2 : option command
}.

(** ** Constants of the system headers (Linux values) *)

Definition STDIN_FILENO : Z := 0.
Definition STDOUT_FILENO : Z := 1.
Definition STDERR_FILENO : Z := 2.
Definition EXIT_SUCCESS : Z := 0.
Definition EXIT_FAILURE : Z := 1.
Definition O_RDONLY : Z := 0.
Definition O_WRONLY : Z := 1.
Definition O_CREAT : Z := 64.
Definition O_TRUNC : Z := 512.
Definition O_APPEND : Z := 1024.

(** The status word of [waitpid], as [<sys/wait.h>] reads it on Linux. *)
Definition WTERMSIG (status : Z) : Z := Z.land status 127.
Definition WIFEXITED (status : Z) : bool := WTERMSIG status =? 0.
Definition WEXITSTATUS (status : Z) : Z := Z.shiftr (Z.land status 65280) 8.
Definition W_EXITCODE (ret sig : Z) : Z := Z.lor (Z.shiftl ret 8) sig.

(** How a child can end, and the status word its parent is handed. *)
Inductive termination : Type :=
| Exits (code : Z)                  (* exit(code), or return from main *)
| Killed (sig : Z) (core : bool).   (* death by signal [sig], 1 <= sig < 128 *)

Definition wait_status (t : termination) : Z :=
  match t with
  | Exits code => W_EXITCODE (Z.land code 255) 0
  | Killed sig core => Z.lor sig (if core then 128 else 0)
  end.

(** ** The world of one process *)

(** What an open file description refers to. *)
Inductive target : Type :=
| File (path : string)
| Pipe_read
| Pipe_write
| Terminal.

(** An open file description; [ofd_serial] tells two openings of one path
    apart (each has a file offset of its own). *)
Record ofd : Type := Ofd {
  ofd_serial : nat;
  ofd_target : target;
  ofd_flags : Z
}.

(** One answer of the operating system. *)
Inductive answer : Type :=
| Forked (r : Z)              (* fork: -1, 0 in the child, the child's pid in the parent *)
| Waited (r : Z) (status : Z) (* waitpid: its result and the status word it stores *)
| Exec_failed                 (* execvp came back with -1 *)
| Exec_done                   (* the image was replaced *)
| Piped (ok : bool)           (* pipe *)
| Opened (ok : bool)          (* open of a non-NULL path *)
| Chdired (ok : bool).        (* chdir to a non-NULL path *)

(** The system calls the process has made, oldest first. *)
Inductive event : Type :=
| EOpen (path : option string) (flags mode : Z) (r : Z)
| EClose (fd : Z) (r : Z)
| EDup2 (oldfd newfd : Z) (r : Z)
| EChdir (path : option string) (r : Z)
| EFork (r : Z)
| EWaitpid (pid : Z) (r : Z) (status : Z)
| EExecvp (file : string) (argv : list string) (failed : bool)
| EPipe (r : Z) (rd wr : Z)
| EWrite (fd : Z) (dest : option ofd) (text : string).

Record world : Type := World {
  w_env : gmap string string;   (* environ *)
  w_cwd : string;               (* working directory *)
  w_fds : gmap Z ofd;           (* descriptor table *)
  w_serial : nat;               (* open file descriptions created so far *)
  w_oracle : list answer;       (* what the system will answer, in order *)
  w_trace : list event          (* calls made so far *)
}.

(** How a call can fail to return to its caller. *)
Inductive halt : Type :=
| Exit (code : Z)                          (* exit(code) *)
| Exec (file : string) (argv : list string) (* execvp succeeded *)
| Segv                                     (* a NULL pointer was dereferenced *)
| Unscripted.                              (* the script has no answer for the call *)

Inductive outcome (A : Type) : Type :=
| Returned (a : A) (w : world)
| Halted (h : halt) (w : world).
Arguments Returned {A} a w.
Arguments Halted {A} h w.

Definition world_of {A} (o : outcome A) : world :=
  match o with Returned _ w => w | Halted _ w => w end.

Definition M (A : Type) : Type := world -> outcome A.

Definition ret {A} (a : A) : M A := fun w => Returned a w.

Definition bind {A B} (m : M A) (k : A -> M B) : M B :=
  fun w => match m w with
           | Returned a w' => k a w'
           | Halted h w' => Halted h w'
           end.

Declare Scope shell_scope.
Delimit Scope shell_scope with shell.
Notation "'let*' x ':=' m 'in' k" := (bind m (fun x => k))
  (at level 10, x name, m at level 100, k at level 200) : shell_scope.
Notation "m ';;;' k" := (bind m (fun _ => k))
  (at level 100, k at level 200, right associativity) : shell_scope.
Open Scope shell_scope.

(** ** Primitive calls *)

Definition set_trace (w : world) (e : event) : world :=
  World (w_env w) (w_cwd w) (w_fds w) (w_serial w) (w_oracle w) (w_trace w ++ [e]).

Definition set_answered (w : world) (rest : list answer) (e : event) : world :=
  World (w_env w) (w_cwd w) (w_fds w) (w_serial w) rest (w_trace w ++ [e]).

Definition set_fds (w : world) (fds : gmap Z ofd) : world :=
  World (w_env w) (w_cwd w) fds (w_serial w) (w_oracle w) (w_trace w).

Definition set_env (w : world) (env : gmap string string) : world :=
  World env (w_cwd w) (w_fds w) (w_serial w) (w_oracle w) (w_trace w).

Definition set_cwd (w : world) (cwd : string) : world :=
  World (w_env w) cwd (w_fds w) (w_serial w) (w_oracle w) (w_trace w).

Definition set_serial (w : world) (n : nat) : world :=
  World (w_env w) (w_cwd w) (w_fds w) n (w_oracle w) (w_trace w).

(** The world after some answers were consumed and some calls made, when
    nothing else changed. *)
Definition after (w : world) (rest : list answer) (evs : list event) : world :=
  World (w_env w) (w_cwd w) (w_fds w) (w_serial w) rest (w_trace w ++ evs).



(** A computation that leaves one component of the world as it found it,
    however it ends. *)
Definition keeps {X A : Type} (f : world -> X) (m : world -> outcome A) : Prop :=
  forall w, f (world_of (m w)) = f w.

(** A computation that only adds calls to the trace. *)
Definition grows {A : Type} (m : world -> outcome A) : Prop :=
  forall w, exists evs, w_trace (world_of (m w)) = w_trace w ++ evs.

(** The calls a builtin may make. *)
Definition local_call (e : event) : bool :=
  match e with
  | EOpen _ _ _ _ | EClose _ _ | EDup2 _ _ _ | EChdir _ _ => true
  | _ => false
  end.

(** A computation whose new calls all satisfy [P]. *)
Definition only {A : Type} (P : event -> bool) (m : world -> outcome A) : Prop :=
  forall w, exists evs,
    w_trace (world_of (m w)) = w_trace w ++ evs /\ forallb P evs = true.


(** A property of the world that a computation never loses. *)
Definition stays {A : Type} (I : world -> Prop) (m : world -> outcome A) : Prop :=
  forall w, I w -> I (world_of (m w)).

(** The descriptor numbers in use are exactly [D]. *)
Definition open_set (D : gset Z) (w : world) : Prop := dom (w_fds w) = D.


(** An outcome of the program itself: the script of answers did not run
    out before the program was done with it. *)
Definition scripted {A : Type} (o : outcome A) : Prop :=
  match o with Halted Unscripted _ => False | _ => True end.

(** No [fork] still to come fails. *)
Definition forks_succeed (w : world) : Prop :=
  Forall (fun a => a <> Forked (-1)) (w_oracle w).

(** The descriptor numbers in use are exactly [X], and no [fork] still to
    come fails. *)
Definition tidy (X : gset Z) (w : world) : Prop := open_set X w /\ forks_succeed w.

(** From a world in [P], the computation returns into [Q] or ends the
    process in [E]. *)
Definition hoare {A : Type} (P : world -> Prop) (m : world -> outcome A)
    (Q : A -> world -> Prop) (E : world -> Prop) : Prop :=
  forall w, P w ->
    match m w with
    | Returned a w' => Q a w'
    | Halted Unscripted _ => True
    | Halted _ w' => E w'
    end.


(** The same process image with another script of answers: what a process
    and the child it forks have in common. *)
Definition with_answers (w : world) (answers : list answer) : world :=
  World (w_env w) (w_cwd w) (w_fds w) (w_serial w) answers (w_trace w).



(** Dereferencing a C pointer. *)
Definition deref {A} (p : option A) : M A :=
  fun w => match p with Some a => Returned a w | None => Halted Segv w end.

(** [exit]: the process ends here. *)
Definition exit {A} (code : Z) : M A := fun w => Halted (Exit code) w.

(** The lowest descriptor number that is not in use. *)
Fixpoint lowest_from (fds : gmap Z ofd) (n : Z) (fuel : nat) : Z :=
  match fuel with
  | O => n
  | S fuel' => match fds !! n with
               | None => n
               | Some _ => lowest_from fds (n + 1) fuel'
               end
  end.

Definition lowest_free (fds : gmap Z ofd) : Z := lowest_from fds 0 (size fds).

(** The two descriptors a successful [pipe] hands out in world [w]. *)
Definition pipe_read_end (w : world) : Z := lowest_free (w_fds w).

Definition pipe_write_end (w : world) : Z :=
  lowest_free (<[pipe_read_end w := Ofd (w_serial w) Pipe_read O_RDONLY]> (w_fds w)).

Definition getenv (name : string) : M (option string) :=
  fun w => Returned (w_env w !! name) w.

(** [setenv] refuses an empty name and a name with '=' in it. *)
Definition has_equals (s : string) : bool :=
  match String.index 0 "=" s with Some _ => true | None => false end.

Definition setenv (name value : string) (overwrite : Z) : M Z :=
  fun w =>
    if String.eqb name "" || has_equals name then Returned (-1) w
    else match w_env w !! name with
         | Some _ => if overwrite =? 0 then Returned 0 w
                     else Returned 0 (set_env w (<[name := value]> (w_env w)))
         | None => Returned 0 (set_env w (<[name := value]> (w_env w)))
         end.

(** The directory a successful [chdir] leaves the process in. *)
Definition enter (cwd path : string) : string :=
  if String.prefix "/" path then path else (cwd ++ "/" ++ path)%string.

Definition chdir (path : option string) : M Z :=
  fun w =>
    match path with
    | None => Returned (-1) (set_trace w (EChdir None (-1)))
    | Some p =>
        match w_oracle w with
        | Chdired true :: rest =>
            Returned 0 (set_cwd (set_answered w rest (EChdir path 0)) (enter (w_cwd w) p))
        | Chdired false :: rest =>
            Returned (-1) (set_answered w rest (EChdir path (-1)))
        | _ => Halted Unscripted w
        end
    end.

Definition open (path : option string) (flags mode : Z) : M Z :=
  fun w =>
    match path with
    | None => Returned (-1) (set_trace w (EOpen None flags mode (-1)))
    | Some p =>
        match w_oracle w with
        | Opened true :: rest =>
            let fd := lowest_free (w_fds w) in
            Returned fd
              (set_serial
                 (set_fds (set_answered w rest (EOpen path flags mode fd))
                          (<[fd := Ofd (w_serial w) (File p) flags]> (w_fds w)))
                 (S (w_serial w)))
        | Opened false :: rest =>
            Returned (-1) (set_answered w rest (EOpen path flags mode (-1)))
        | _ => Halted Unscripted w
        end
    end.

(** The description behind a descriptor; a negative number is none. *)
Definition description (fds : gmap Z ofd) (fd : Z) : option ofd :=
  if fd <? 0 then None else fds !! fd.

Definition close (fd : Z) : M Z :=
  fun w =>
    match description (w_fds w) fd with
    | Some _ => Returned 0 (set_fds (set_trace w (EClose fd 0)) (delete fd (w_fds w)))
    | None => Returned (-1) (set_trace w (EClose fd (-1)))
    end.

Definition dup2 (oldfd newfd : Z) : M Z :=
  fun w =>
    match description (w_fds w) oldfd with
    | Some d =>
        if newfd <? 0 then Returned (-1) (set_trace w (EDup2 oldfd newfd (-1)))
        else Returned newfd
               (set_fds (set_trace w (EDup2 oldfd newfd newfd)) (<[newfd := d]> (w_fds w)))
    | None => Returned (-1) (set_trace w (EDup2 oldfd newfd (-1)))
    end.

Definition fork : M Z :=
  fun w =>
    match w_oracle w with
    | Forked r :: rest => Returned r (set_answered w rest (EFork r))
    | _ => Halted Unscripted w
    end.

(** [waitpid (pid, &status, 0)]: the result and the status word. *)
Definition waitpid (pid : Z) : M (Z * Z) :=
  fun w =>
    match w_oracle w with
    | Waited r status :: rest =>
        Returned (r, status) (set_answered w rest (EWaitpid pid r status))
    | _ => Halted Unscripted w
    end.

(** [execvp] comes back only when it failed. *)
Definition execvp (file : string) (argv : list string) : M Z :=
  fun w =>
    match w_oracle w with
    | Exec_failed :: rest => Returned (-1) (set_answered w rest (EExecvp file argv true))
    | Exec_done :: rest => Halted (Exec file argv) (set_answered w rest (EExecvp file argv false))
    | _ => Halted Unscripted w
    end.

(** [pipe (fd)]: the result and the two descriptors, read end first. *)
Definition pipe : M (Z * (Z * Z)) :=
  fun w =>
    match w_oracle w with
    | Piped true :: rest =>
        let rd := lowest_free (w_fds w) in
        let fds1 := <[rd := Ofd (w_serial w) Pipe_read O_RDONLY]> (w_fds w) in
        let wr := lowest_free fds1 in
        let fds2 := <[wr := Ofd (S (w_serial w)) Pipe_write O_WRONLY]> fds1 in
        Returned (0, (rd, wr))
          (set_serial (set_fds (set_answered w rest (EPipe 0 rd wr)) fds2)
                      (S (S (w_serial w))))
    | Piped false :: rest =>
        Returned (-1, (0, 0)) (set_answered w rest (EPipe (-1) 0 0))
    | _ => Halted Unscripted w
    end.

(** [fprintf (stderr, ...)]: [stderr] is unbuffered, the text goes to
    whatever descriptor 2 is bound to at that moment. *)
Definition fprintf_stderr (text : string) : M unit :=
  fun w => Returned tt (set_trace w (EWrite STDERR_FILENO (w_fds w !! STDERR_FILENO) text)).

(** ** The word resolver *)

(** Modelled from the spec: [get_word] and [get_argv] live in the absent
    [utils.c].  A word is an ordered sequence of fragments, each a literal
    or a variable reference; the resolver expands the references against
    the environment (an unset variable gives nothing) and concatenates;
    the argument vector is the verb followed by all parameters, resolved. *)
Fixpoint resolve (env : gmap string string) (w : word) : string :=
  match w with
  | Word s expand part _ =>
      let text := default ""%string s in
      let here := if expand then default ""%string (env !! text) else text in
      match part with
      | None => here
      | Some p => (here ++ resolve env p)%string
      end
  end.

(** Modelled from the spec: [get_word] of the absent [utils.c], the
    resolution of one word to its final string; no word, no text. *)
Definition get_word (w : option word) : M string :=
  fun st => Returned (from_option (resolve (w_env st)) ""%string w) st.

(** Modelled from the spec: the parameters of a leaf, each resolved, in
    order ([next_word] links them). *)
Fixpoint resolve_words (env : gmap string string) (w : word) : list string :=
  match w with
  | Word _ _ _ next =>
      resolve env w :: match next with
                       | None => []
                       | Some n => resolve_words env n
                       end
  end.

(** Modelled from the spec: the argument vector [get_argv] of the absent
    [utils.c] builds, the verb followed by all parameters, resolved. *)
Definition argv_of (env : gmap string string) (s : simple_command) : list string :=
  from_option (fun v => [resolve env v]) [] (verb s)
  ++ from_option (resolve_words env) [] (params s).

(** Modelled from the spec: [get_argv] of the absent [utils.c]. *)
Definition get_argv (s : simple_command) : M (list string) :=
  fun st => Returned (argv_of (w_env st) s) st.

(** ** Sample trees and worlds, for the concrete runs at the end *)

(** Values for the constants of the absent headers in those runs. *)
Definition sample_SHELL_EXIT : Z := -100.
Definition sample_IO_OUT_APPEND : Z := 1.
Definition sample_IO_ERR_APPEND : Z := 2.

(** A process started from a terminal: descriptors 0, 1, 2 on it. *)
Definition terminal : ofd := Ofd 0 Terminal 2.

Definition std_fds : gmap Z ofd :=
  <[STDERR_FILENO := terminal]> (<[STDOUT_FILENO := terminal]> (<[STDIN_FILENO := terminal]> ∅)).

Definition start (env : gmap string string) (answers : list answer) : world :=
  World env "/start" std_fds 1 answers [].

(** The child's world right after [fork]. *)
Definition forked_child (env : gmap string string) (answers : list answer) : world :=
  World env "/start" std_fds 1 answers [EFork 0].

Definition literal (text : string) : word := Word (Some text) false None None.


(** A leaf [name arg < i > o 2> e] with truncating redirections. *)
Definition plain (name : string) (arg i o e : option word) : simple_command :=
  Simple (Some (literal name)) arg i o e 0.

Definition leaf_of (s : simple_command) : option command :=
  Some (Command OP_NONE (Some s) None None).

Definition node (o : operator) (c1 c2 : option command) : command :=
  Command o None c1 c2.

(** [cat | grep x]. *)
Definition piped : command :=
  node OP_PIPE (leaf_of (plain "cat" None None None None))
               (leaf_of (plain "grep" (Some (literal "x")) None None None)).

(** [make > log 2> log] and [make > log 2> $L] with L=log. *)
Definition make_log_log : simple_command :=
  plain "make" None None (Some (literal "log")) (Some (literal "log")).


(** [cd /tmp < in > out 2> err]. *)
Definition cd_redirected : simple_command :=
  plain "cd" (Some (literal "/tmp")) (Some (literal "in")) (Some (literal "out"))
    (Some (literal "err")).

(** [sort < missing], [make >> log 2>> log] and [X=1]. *)
Definition sort_from_missing : simple_command :=
  plain "sort" None (Some (literal "missing")) None None.

Definition make_append_log_log : simple_command :=
  Simple (Some (literal "make")) None None (Some (literal "log")) (Some (literal "log"))
    (Z.lor sample_IO_OUT_APPEND sample_IO_ERR_APPEND).

Definition assign_X_1 : simple_command :=
  Simple (Some (Word (Some "X"%string) false
                  (Some (Word (Some "="%string) false (Some (literal "1")) None)) None))
    None None None None 0.



(** The second child of [cat | grep x] in a fresh process, wired to the
    pipe and about to evaluate [grep x]. *)
Definition second_child_of_pipe (answers : list answer) : world :=
  World ∅ "/start" (<[STDIN_FILENO := Ofd 1 Pipe_read O_RDONLY]> std_fds) 3 answers
    [EPipe 0 3 4; EFork 10; EClose 4 0; EFork 0; EDup2 3 0 0; EClose 3 0].

(** ** The evaluator *)

Definition newline : string := String (Ascii.ascii_of_nat 10) EmptyString.

(** An [int] read as a [bool]: the operands of [&&], the value a [bool]
    function returns. *)
Definition truth (n : Z) : bool := negb (n =? 0).

Section Evaluator.

(** Constants of the absent headers [cmd.h] and the parser's: the code only
    names them, so the embedding is parametric in their values. *)
Variable SHELL_EXIT : Z.
Variable IO_OUT_APPEND : Z.
Variable IO_ERR_APPEND : Z.

(** The test of line 26. *)
Definition wants_home (dir : option word) : bool :=
  match dir with
  | None => true
  | Some d =>
      match word_string d with
      | None => true
      | Some s => String.eqb s "~" || String.eqb s ""
      end
  end.

(** [shell_cd], lines 23-38.  The three [if]s follow one another: none of
    them ends the function when its [chdir] succeeds. *)
Definition shell_cd (dir : option word) : M bool :=
  let to_literal : M bool :=                       (* lines 34-37 *)
    let* d := deref dir in
    let* r := chdir (word_string d) in
    if r =? -1 then ret false else ret true in
  let to_oldpwd : M bool :=                        (* lines 30-32 *)
    let* d := deref dir in
    let* s := deref (word_string d) in
    if String.eqb s "-" then
      let* oldpwd := getenv "OLDPWD" in
      let* r := chdir oldpwd in
      if r =? -1 then ret false else to_literal
    else to_literal in
  if wants_home dir then                           (* lines 26-28 *)
    let* home := getenv "HOME" in
    let* r := chdir home in
    if r =? -1 then ret false else to_oldpwd
  else to_oldpwd.

(** [shell_exit], lines 43-49. *)
Definition shell_exit : M Z :=
  (exit EXIT_SUCCESS : M unit) ;;; ret (-1).

(** Lines 66-82: what a [cd] leaf does with its redirection targets. *)
Definition cd_open_in (s : simple_command) : M unit :=
  match s_in s with
  | Some i => let* fd := open (word_string i) O_RDONLY 0 in close fd ;;; ret tt
  | None => ret tt
  end.

Definition cd_open_out (s : simple_command) : M unit :=
  match s_out s with
  | Some o =>
      let* fd := open (word_string o) (Z.lor (Z.lor O_WRONLY O_CREAT) O_TRUNC) 420 in
      close fd ;;; ret tt
  | None => ret tt
  end.

Definition cd_open_err (s : simple_command) : M unit :=
  match s_err s with
  | Some e =>
      let* fd := open (word_string e) (Z.lor (Z.lor O_WRONLY O_CREAT) O_TRUNC) 420 in
      dup2 fd STDERR_FILENO ;;; close fd ;;; ret tt
  | None => ret tt
  end.

Definition cd_redirections (s : simple_command) : M unit :=
  cd_open_in s ;;; cd_open_out s ;;; cd_open_err s.

(** Lines 112-141: the redirections of the forked child, in source order. *)
Definition redirect_in (s : simple_command) : M unit :=
  match s_in s with
  | Some _ =>
      let* path := get_word (s_in s) in
      let* fd := open (Some path) O_RDONLY 0 in
      dup2 fd STDIN_FILENO ;;; close fd ;;; ret tt
  | None => ret tt
  end.

Definition redirect_out (s : simple_command) : M unit :=
  match s_out s with
  | Some _ =>
      let* path := get_word (s_out s) in
      let* fd :=
        if truth (Z.land (io_flags s) IO_OUT_APPEND)
        then open (Some path) (Z.lor (Z.lor O_WRONLY O_CREAT) O_APPEND) 420
        else open (Some path) (Z.lor (Z.lor O_WRONLY O_CREAT) O_TRUNC) 420 in
      dup2 fd STDOUT_FILENO ;;; close fd ;;; ret tt
  | None => ret tt
  end.

Definition redirect_err (s : simple_command) : M unit :=
  match s_err s with
  | Some _ =>
      let* path := get_word (s_err s) in
      let* fd :=
        if truth (Z.land (io_flags s) IO_ERR_APPEND)
        then open (Some path) (Z.lor (Z.lor O_WRONLY O_CREAT) O_APPEND) 420
        else open (Some path) (Z.lor (Z.lor O_WRONLY O_CREAT) O_TRUNC) 420 in
      dup2 fd STDERR_FILENO ;;; close fd ;;; ret tt
  | None => ret tt
  end.

(** The flags lines 119-122 and 128-131 open the two targets with. *)
Definition out_flags (s : simple_command) : Z :=
  if truth (Z.land (io_flags s) IO_OUT_APPEND)
  then Z.lor (Z.lor O_WRONLY O_CREAT) O_APPEND
  else Z.lor (Z.lor O_WRONLY O_CREAT) O_TRUNC.

Definition err_flags (s : simple_command) : Z :=
  if truth (Z.land (io_flags s) IO_ERR_APPEND)
  then Z.lor (Z.lor O_WRONLY O_CREAT) O_APPEND
  else Z.lor (Z.lor O_WRONLY O_CREAT) O_TRUNC.

(** Lines 136-141: the literal strings of the two targets are compared,
    the resolved [out] word is opened. *)
Definition redirect_both (s : simple_command) : M unit :=
  match s_out s, s_err s with
  | Some o, Some e =>
      let* lo := deref (word_string o) in
      let* le := deref (word_string e) in
      if String.eqb lo le then
        let* path := get_word (s_out s) in
        let* fd := open (Some path) (Z.lor (Z.lor O_WRONLY O_CREAT) O_TRUNC) 420 in
        dup2 fd STDOUT_FILENO ;;; dup2 fd STDERR_FILENO ;;; close fd ;;; ret tt
      else ret tt
  | _, _ => ret tt
  end.

Definition child_redirections (s : simple_command) : M unit :=
  redirect_in s ;;; redirect_out s ;;; redirect_err s ;;; redirect_both s.

(** Lines 143-148: load the program, or complain and die. *)
Definition load_program (s : simple_command) (name : string) : M Z :=
  let* argv := get_argv s in
  let* rc := execvp name argv in
  if rc =? -1 then
    fprintf_stderr ("Execution failed for '" ++ name ++ "'" ++ newline) ;;;
    exit EXIT_FAILURE
  else ret rc.

(** Lines 104-157: an external command. *)
Definition run_external (s : simple_command) (name : string) : M Z :=
  let* pid := fork in
  if pid =? -1 then ret (-1)
  else if pid =? 0 then
    child_redirections s ;;; load_program s name
  else
    let* waited := waitpid pid in
    if fst waited =? -1 then ret (-1)
    else if WIFEXITED (snd waited) then ret (snd waited)
    else ret 0.

(** [parse_simple], lines 55-160. *)
Definition parse_simple (s : option simple_command) (level : Z)
    (father : option command) : M Z :=
  match s with
  | None => ret 0
  | Some s =>
      match verb s with
      | None => ret 0
      | Some v =>
          let* name := deref (word_string v) in
          if String.eqb name "cd" then
            cd_redirections s ;;;
            let* ok := shell_cd (params s) in
            ret (Z.b2z (negb ok))
          else if String.eqb name "exit" || String.eqb name "quit" then
            shell_exit
          else
            match next_part v with
            | Some eq =>
                let* sign := deref (word_string eq) in
                if String.eqb sign "=" then
                  let* value := get_word (next_part eq) in
                  setenv name value 1
                else run_external s name
            | None => run_external s name
            end
      end
  end.

(** The name of the program when the leaf is an external command: the verb
    is none of the builtins and no assignment. *)
Definition external (s : simple_command) : option string :=
  match verb s with
  | None => None
  | Some v =>
      match word_string v with
      | None => None
      | Some name =>
          if String.eqb name "cd" then None
          else if String.eqb name "exit" || String.eqb name "quit" then None
          else match next_part v with
               | None => Some name
               | Some eq =>
                   match word_string eq with
                   | None => None
                   | Some sign => if String.eqb sign "=" then None else Some name
                   end
               end
      end
  end.

Section Runners.

(** The evaluator the two runners call back into. *)
Variable parse_command : option command -> Z -> option command -> M Z.

(** [run_in_parallel], lines 165-203. *)
Definition run_in_parallel (cmd1 cmd2 : option command) (level : Z)
    (father : option command) : M bool :=
  let* pid1 := fork in
  if pid1 =? -1 then ret false
  else if pid1 =? 0 then
    let* rc := parse_command cmd1 (level + 1) father in
    exit rc
  else
    let* pid2 := fork in
    if pid2 =? -1 then ret false
    else if pid2 =? 0 then
      let* rc := parse_command cmd2 (level + 1) father in
      exit rc
    else
      let* w1 := waitpid pid1 in
      if fst w1 =? -1 then ret false
      else
        let* w2 := waitpid pid2 in
        if fst w2 =? -1 then ret false
        else ret (truth (snd w1) && truth (snd w2)).

(** [run_on_pipe], lines 208-258.  The function is declared [bool]: the
    [int] it returns at line 253 is converted. *)
Definition run_on_pipe (cmd1 cmd2 : option command) (level : Z)
    (father : option command) : M bool :=
  let* p := pipe in
  let rd := fst (snd p) in
  let wr := snd (snd p) in
  if fst p =? -1 then ret false
  else
    let* pid1 := fork in
    if pid1 =? -1 then ret false
    else if pid1 =? 0 then
      close rd ;;; dup2 wr STDOUT_FILENO ;;; close wr ;;;
      let* rc := parse_command cmd1 (level + 1) father in
      exit rc
    else
      close wr ;;;
      let* pid2 := fork in
      if pid2 =? -1 then ret false
      else if pid2 =? 0 then
        dup2 rd STDIN_FILENO ;;; close rd ;;;
        let* rc := parse_command cmd2 (level + 1) father in
        exit rc
      else
        close rd ;;;
        let* w1 := waitpid pid1 in
        if fst w1 =? -1 then ret false
        else
          let* w2 := waitpid pid2 in
          if fst w2 =? -1 then ret false
          else ret (truth (snd w2)).

End Runners.

(** [parse_command], lines 263-316, on a node that is not NULL. *)
Fixpoint parse_node (c : command) (level : Z) (father : option command)
    {struct c} : M Z :=
  match c with
  | Command o leaf c1 c2 =>
      let sub (x : option command) (l : Z) (f : option command) : M Z :=
        match x with
        | None => ret 0
        | Some x' => parse_node x' l f
        end in
      match o with
      | OP_NONE => parse_simple leaf level father
      | OP_SEQUENTIAL =>
          let* rc := sub c1 (level + 1) (Some c) in
          let* rc2 := sub c2 (level + 1) (Some c) in
          ret (Z.land rc rc2)
      | OP_PARALLEL =>
          let* b := run_in_parallel sub c1 c2 level (Some c) in
          ret (Z.b2z b)
      | OP_CONDITIONAL_NZERO =>
          let* rc := sub c1 (level + 1) (Some c) in
          if negb (rc =? 0) then sub c2 (level + 1) (Some c)
          else ret rc
      | OP_CONDITIONAL_ZERO =>
          let* rc := sub c1 (level + 1) (Some c) in
          if rc =? 0 then sub c2 (level + 1) (Some c)
          else ret rc
      | OP_PIPE =>
          let* b := run_on_pipe sub c1 c2 level (Some c) in
          ret (Z.b2z b)
      | OP_UNKNOWN => ret SHELL_EXIT
      end
  end.

Definition parse_command (c : option command) (level : Z)
    (father : option command) : M Z :=
  match c with
  | None => ret 0
  | Some c' => parse_node c' level father
  end.

(** * Properties *)

(** ** The monad *)

Lemma bind_returned {A B} (m : M A) (k : A -> M B) w a w' :
  m w = Returned a w' -> bind m k w = k a w'.
Proof. intros H. unfold bind. now rewrite H. Qed.

Lemma bind_halted {A B} (m : M A) (k : A -> M B) w h w' :
  m w = Halted h w' -> bind m k w = Halted h w'.
Proof. intros H. unfold bind. now rewrite H. Qed.

(** ** The descriptor table *)

Lemma occupied_prefix_size (m : nat) : forall fds : gmap Z ofd,
  (forall k, 0 <= k < Z.of_nat m -> is_Some (fds !! k)) -> (m <= size fds)%nat.
Proof.
  induction m as [|m IH]; intros fds Hocc; [lia|].
  assert (Hm : is_Some (fds !! Z.of_nat m)) by (apply Hocc; lia).
  assert (Hsz : size (delete (Z.of_nat m) fds) = pred (size fds))
    by now apply map_size_delete_Some.
  assert (Hpos : size fds <> 0%nat).
  { intros Hz. apply map_size_empty_inv in Hz. subst fds.
    rewrite lookup_empty in Hm. now destruct Hm. }
  specialize (IH (delete (Z.of_nat m) fds)).
  assert (m <= size (delete (Z.of_nat m) fds))%nat; [|lia].
  apply IH. intros k Hk. rewrite lookup_delete_ne by lia. apply Hocc. lia.
Qed.

Lemma lowest_from_spec (fds : gmap Z ofd) (fuel : nat) : forall n,
  n <= lowest_from fds n fuel <= n + Z.of_nat fuel
  /\ (forall k, n <= k < lowest_from fds n fuel -> is_Some (fds !! k))
  /\ (fds !! lowest_from fds n fuel = None
      \/ lowest_from fds n fuel = n + Z.of_nat fuel).
Proof.
  induction fuel as [|fuel IH]; intros n; simpl.
  - repeat split; lia.
  - destruct (fds !! n) as [d|] eqn:Hn.
    + destruct (IH (n + 1)) as (Hr & Hocc & Hend).
      repeat split; try lia.
      * intros k Hk. destruct (decide (k = n)) as [->|Hne]; [now rewrite Hn|].
        apply Hocc. lia.
      * destruct Hend as [Hfree|Heq]; [now left|right; lia].
    + repeat split; try lia. now left.
Qed.

(** The descriptor [open] hands out is not in use. *)
Lemma lowest_free_unused (fds : gmap Z ofd) : fds !! lowest_free fds = None.
Proof.
  unfold lowest_free.
  destruct (lowest_from_spec fds (size fds) 0) as (Hr & Hocc & [Hfree|Heq]); [exact Hfree|].
  destruct (fds !! lowest_from fds 0 (size fds)) as [d|] eqn:Hlast; [|reflexivity].
  exfalso.
  assert (S (size fds) <= size fds)%nat; [|lia].
  apply occupied_prefix_size. intros k Hk.
  destruct (decide (k = lowest_from fds 0 (size fds))) as [->|Hne]; [now rewrite Hlast|].
  apply Hocc. lia.
Qed.

Lemma lowest_free_not_open (fds : gmap Z ofd) (fd : Z) :
  is_Some (fds !! fd) -> lowest_free fds <> fd.
Proof.
  intros [d Hd] Heq. rewrite <- Heq, lowest_free_unused in Hd. discriminate.
Qed.

(** ** The operator evaluator, one equation per operator *)

Lemma parse_command_leaf leaf c1 c2 level father :
  parse_command (Some (Command OP_NONE leaf c1 c2)) level father =
  parse_simple leaf level father.
Proof. reflexivity. Qed.

Lemma parse_command_sequential leaf c1 c2 level father :
  parse_command (Some (Command OP_SEQUENTIAL leaf c1 c2)) level father =
  (let* rc := parse_command c1 (level + 1) (Some (Command OP_SEQUENTIAL leaf c1 c2)) in
   let* rc2 := parse_command c2 (level + 1) (Some (Command OP_SEQUENTIAL leaf c1 c2)) in
   ret (Z.land rc rc2)).
Proof. reflexivity. Qed.

Lemma parse_command_nzero leaf c1 c2 level father :
  parse_command (Some (Command OP_CONDITIONAL_NZERO leaf c1 c2)) level father =
  (let* rc := parse_command c1 (level + 1) (Some (Command OP_CONDITIONAL_NZERO leaf c1 c2)) in
   if negb (rc =? 0)
   then parse_command c2 (level + 1) (Some (Command OP_CONDITIONAL_NZERO leaf c1 c2))
   else ret rc).
Proof. reflexivity. Qed.

Lemma parse_command_zero leaf c1 c2 level father :
  parse_command (Some (Command OP_CONDITIONAL_ZERO leaf c1 c2)) level father =
  (let* rc := parse_command c1 (level + 1) (Some (Command OP_CONDITIONAL_ZERO leaf c1 c2)) in
   if rc =? 0
   then parse_command c2 (level + 1) (Some (Command OP_CONDITIONAL_ZERO leaf c1 c2))
   else ret rc).
Proof. reflexivity. Qed.

Lemma parse_command_parallel leaf c1 c2 level father :
  parse_command (Some (Command OP_PARALLEL leaf c1 c2)) level father =
  (let* b := run_in_parallel parse_command c1 c2 level
               (Some (Command OP_PARALLEL leaf c1 c2)) in
   ret (Z.b2z b)).
Proof. reflexivity. Qed.

Lemma parse_command_pipe leaf c1 c2 level father :
  parse_command (Some (Command OP_PIPE leaf c1 c2)) level father =
  (let* b := run_on_pipe parse_command c1 c2 level
               (Some (Command OP_PIPE leaf c1 c2)) in
   ret (Z.b2z b)).
Proof. reflexivity. Qed.

(** A process that ended inside the first subtree never reaches the rest
    of a sequence or of a conditional. *)
Lemma halt_in_first_child o leaf c1 c2 level father w h w1 :
  o = OP_SEQUENTIAL \/ o = OP_CONDITIONAL_NZERO \/ o = OP_CONDITIONAL_ZERO ->
  parse_command c1 (level + 1) (Some (Command o leaf c1 c2)) w = Halted h w1 ->
  parse_command (Some (Command o leaf c1 c2)) level father w = Halted h w1.
Proof.
  intros [->|[->| ->]] H.
  - rewrite parse_command_sequential. now apply bind_halted.
  - rewrite parse_command_nzero. now apply bind_halted.
  - rewrite parse_command_zero. now apply bind_halted.
Qed.

(** ** SEQUENTIAL *)

(** C2: a SEQUENTIAL node evaluates [cmd1], then [cmd2] in the world [cmd1]
    left, whatever status [cmd1] returned, and returns the bitwise AND of
    the two statuses; statuses 2 and 1 give 0. *)
Theorem sequential_runs_both_and_ands_statuses :
  forall leaf c1 c2 level father w rc1 w1,
    parse_command c1 (level + 1) (Some (Command OP_SEQUENTIAL leaf c1 c2)) w
      = Returned rc1 w1 ->
    parse_command (Some (Command OP_SEQUENTIAL leaf c1 c2)) level father w =
      match parse_command c2 (level + 1) (Some (Command OP_SEQUENTIAL leaf c1 c2)) w1 with
      | Returned rc2 w2 => Returned (Z.land rc1 rc2) w2
      | Halted h w2 => Halted h w2
      end
    /\ Z.land 2 1 = 0.
Proof.
  intros leaf c1 c2 level father w rc1 w1 H1. split; [|reflexivity].
  rewrite parse_command_sequential. rewrite (bind_returned _ _ _ _ _ H1).
  unfold bind, ret.
  now destruct (parse_command c2 _ _ w1).
Qed.

(** ** COND_NONZERO and COND_ZERO *)

(** C7: [cmd2] of a COND_NONZERO node runs exactly when [cmd1] returned a
    non-zero status, [cmd2] of a COND_ZERO node exactly when [cmd1] returned
    zero; the node then is whatever [cmd2] is in the world [cmd1] left, and
    otherwise it returns [cmd1]'s status in exactly that world: nothing of
    [cmd2] has happened. *)
Theorem conditional_runs_second_on_its_predicate :
  forall leaf c1 c2 level father w rc1 w1,
    (parse_command c1 (level + 1) (Some (Command OP_CONDITIONAL_NZERO leaf c1 c2)) w
       = Returned rc1 w1 ->
     parse_command (Some (Command OP_CONDITIONAL_NZERO leaf c1 c2)) level father w =
       if rc1 =? 0 then Returned rc1 w1
       else parse_command c2 (level + 1)
              (Some (Command OP_CONDITIONAL_NZERO leaf c1 c2)) w1)
    /\
    (parse_command c1 (level + 1) (Some (Command OP_CONDITIONAL_ZERO leaf c1 c2)) w
       = Returned rc1 w1 ->
     parse_command (Some (Command OP_CONDITIONAL_ZERO leaf c1 c2)) level father w =
       if rc1 =? 0
       then parse_command c2 (level + 1)
              (Some (Command OP_CONDITIONAL_ZERO leaf c1 c2)) w1
       else Returned rc1 w1).
Proof.
  intros leaf c1 c2 level father w rc1 w1. split; intros H1.
  - rewrite parse_command_nzero, (bind_returned _ _ _ _ _ H1).
    now destruct (rc1 =? 0).
  - rewrite parse_command_zero, (bind_returned _ _ _ _ _ H1).
    now destruct (rc1 =? 0).
Qed.

(** ** exit and quit *)

Lemma parse_simple_exit s v level father w :
  verb s = Some v ->
  word_string v = Some "exit"%string \/ word_string v = Some "quit"%string ->
  parse_simple (Some s) level father w = Halted (Exit EXIT_SUCCESS) w.
Proof.
  intros Hv Hname. unfold parse_simple. rewrite Hv.
  destruct Hname as [Hn|Hn]; unfold bind, deref; rewrite Hn; reflexivity.
Qed.

(** C8: a leaf whose verb is [exit] or [quit] ends the process with
    [EXIT_SUCCESS] in the world it was reached in; the call does not
    return, so whatever its caller had left to do (any continuation [k]) is
    not done, and a sequence or conditional that has the leaf as first
    child, directly or below further such nodes, ends the same way without
    touching its second child. *)
Theorem exit_leaf_ends_the_process :
  forall s v level father w,
    verb s = Some v ->
    word_string v = Some "exit"%string \/ word_string v = Some "quit"%string ->
    parse_simple (Some s) level father w = Halted (Exit EXIT_SUCCESS) w
    /\ (forall (B : Type) (k : Z -> M B),
          bind (parse_simple (Some s) level father) k w = Halted (Exit EXIT_SUCCESS) w)
    /\ (forall o leaf l1 l2 c2,
          o = OP_SEQUENTIAL \/ o = OP_CONDITIONAL_NZERO \/ o = OP_CONDITIONAL_ZERO ->
          parse_command
            (Some (Command o leaf (Some (Command OP_NONE (Some s) l1 l2)) c2))
            level father w
          = Halted (Exit EXIT_SUCCESS) w)
    /\ (forall o o' leaf leaf' l1 l2 c2 c2',
          o = OP_SEQUENTIAL \/ o = OP_CONDITIONAL_NZERO \/ o = OP_CONDITIONAL_ZERO ->
          o' = OP_SEQUENTIAL \/ o' = OP_CONDITIONAL_NZERO \/ o' = OP_CONDITIONAL_ZERO ->
          parse_command
            (Some (Command o' leaf'
               (Some (Command o leaf (Some (Command OP_NONE (Some s) l1 l2)) c2)) c2'))
            level father w
          = Halted (Exit EXIT_SUCCESS) w).
Proof.
  intros s v level father w Hv Hname.
  assert (Hleaf : forall l f, parse_simple (Some s) l f w = Halted (Exit EXIT_SUCCESS) w)
    by (intros; now apply parse_simple_exit with v).
  repeat split.
  - apply Hleaf.
  - intros B k. apply bind_halted, Hleaf.
  - intros o leaf l1 l2 c2 Ho. apply halt_in_first_child; [exact Ho|].
    apply Hleaf.
  - intros o o' leaf leaf' l1 l2 c2 c2' Ho Ho'.
    apply halt_in_first_child; [exact Ho'|].
    apply halt_in_first_child; [exact Ho|]. apply Hleaf.
Qed.

(** ** External commands: the parent's side *)

Ltac world w :=
  destruct w as [env cwd fds serial oracle trace];
  cbn [w_env w_cwd w_fds w_serial w_oracle w_trace] in *; subst.

Ltac tests :=
  repeat match goal with
         | H : ?a <> ?b |- context [?a =? ?b] => rewrite (proj2 (Z.eqb_neq a b) H)
         end.

Ltac reduce :=
  repeat (progress (cbn [w_env w_cwd w_fds w_serial w_oracle w_trace fst snd world_of];
                    tests)).

Lemma parse_simple_external s name level father :
  external s = Some name ->
  parse_simple (Some s) level father = run_external s name.
Proof.
  unfold external, parse_simple. intros H.
  destruct (verb s) as [v|]; [|discriminate].
  destruct (word_string v) as [n|] eqn:Hn; [|discriminate].
  unfold bind at 1. unfold deref. 
  destruct (String.eqb n "cd"); [discriminate|].
  destruct (String.eqb n "exit" || String.eqb n "quit"); [discriminate|].
  destruct (next_part v) as [eq|].
  - destruct (word_string eq) as [sign|]; [|discriminate].
    unfold bind. destruct (String.eqb sign "="); [discriminate|].
    now injection H as ->.
  - now injection H as ->.
Qed.

(** What the parent makes of the answer of [waitpid]. *)
Lemma run_external_parent s name w pid r status rest :
  pid <> -1 -> pid <> 0 ->
  w_oracle w = Forked pid :: Waited r status :: rest ->
  run_external s name w =
    Returned (if r =? -1 then -1 else if WIFEXITED status then status else 0)
             (after w rest [EFork pid; EWaitpid pid r status]).
Proof.
  intros Hp1 Hp0 Ho. world w.
  unfold run_external, bind, fork, waitpid, after, set_answered, ret.
  reduce. rewrite <- app_assoc. cbn [app].
  destruct (r =? -1); [reflexivity|]. now destruct (WIFEXITED status).
Qed.

Lemma wait_status_exits code :
  0 <= code < 256 -> wait_status (Exits code) = 256 * code.
Proof.
  intros H. unfold wait_status, W_EXITCODE.
  rewrite Z.lor_0_r, Z.shiftl_mul_pow2 by lia.
  replace 255 with (Z.ones 8) by reflexivity.
  rewrite Z.land_ones, Z.mod_small by lia. change (2 ^ 8) with 256. lia.
Qed.

Lemma WIFEXITED_exits code : WIFEXITED (wait_status (Exits code)) = true.
Proof.
  unfold WIFEXITED, WTERMSIG, wait_status, W_EXITCODE.
  rewrite Z.lor_0_r. apply Z.eqb_eq.
  replace 127 with (Z.ones 7) by reflexivity.
  rewrite Z.land_ones, Z.shiftl_mul_pow2 by lia.
  change (2 ^ 8) with (2 * 2 ^ 7). rewrite Z.mul_assoc. apply Z.mod_mul. lia.
Qed.

Lemma WIFEXITED_killed sig core :
  1 <= sig < 128 -> WIFEXITED (wait_status (Killed sig core)) = false.
Proof.
  intros H. unfold WIFEXITED, WTERMSIG, wait_status. apply Z.eqb_neq.
  replace 127 with (Z.ones 7) by reflexivity.
  rewrite Z.land_ones by lia.
  destruct core.
  - replace (Z.lor sig 128) with (sig + 1 * 2 ^ 7).
    + rewrite Z.mod_add, Z.mod_small by lia. lia.
    + change 128 with (Z.shiftl 1 7). symmetry.
      rewrite Z.lor_comm, <- Z.add_nocarry_lor.
      * rewrite Z.shiftl_mul_pow2 by lia. lia.
      * apply Z.bits_inj'. intros n Hn. rewrite Z.land_spec, Z.bits_0.
        destruct (Z.lt_ge_cases n 7) as [Hlt|Hge].
        -- rewrite Z.shiftl_spec_low by lia. reflexivity.
        -- replace (Z.testbit sig n) with false; [apply andb_false_r|].
           symmetry. apply Z.bits_above_log2; [lia|].
           destruct (Z.eq_dec sig 1) as [->|]; [simpl; lia|].
           assert (Z.log2 sig < 7); [|lia].
           apply Z.log2_lt_pow2; lia.
  - rewrite Z.lor_0_r, Z.mod_small by lia. lia.
Qed.

(** The three outcomes the parent of an external command distinguishes:
    the child exited (the status WORD is returned, 256 times the exit
    code), the child was killed (0), the wait failed (-1). *)
Lemma external_leaf_status s name level father w pid rest :
  external s = Some name -> pid <> -1 -> pid <> 0 ->
  (forall r code, r <> -1 -> 0 <= code < 256 ->
     w_oracle w = Forked pid :: Waited r (wait_status (Exits code)) :: rest ->
     parse_simple (Some s) level father w =
       Returned (256 * code)
         (after w rest [EFork pid; EWaitpid pid r (wait_status (Exits code))]))
  /\ (forall r sig core, r <> -1 -> 1 <= sig < 128 ->
     w_oracle w = Forked pid :: Waited r (wait_status (Killed sig core)) :: rest ->
     parse_simple (Some s) level father w =
       Returned 0
         (after w rest [EFork pid; EWaitpid pid r (wait_status (Killed sig core))]))
  /\ (forall status,
     w_oracle w = Forked pid :: Waited (-1) status :: rest ->
     parse_simple (Some s) level father w =
       Returned (-1) (after w rest [EFork pid; EWaitpid pid (-1) status])).
Proof.
  intros Hext Hp1 Hp0. rewrite (parse_simple_external _ _ _ _ Hext).
  repeat split.
  - intros r code Hr Hc Ho.
    rewrite (run_external_parent _ _ _ _ _ _ _ Hp1 Hp0 Ho).
    rewrite (proj2 (Z.eqb_neq r (-1)) Hr), WIFEXITED_exits, wait_status_exits by lia.
    reflexivity.
  - intros r sig core Hr Hs Ho.
    rewrite (run_external_parent _ _ _ _ _ _ _ Hp1 Hp0 Ho).
    now rewrite (proj2 (Z.eqb_neq r (-1)) Hr), WIFEXITED_killed by lia.
  - intros status Ho.
    now rewrite (run_external_parent _ _ _ _ _ _ _ Hp1 Hp0 Ho).
Qed.

(** ** PARALLEL *)

(** C3: the parallel runner forks a child for [cmd1] and one for [cmd2]
    (each evaluates its subtree and exits with the result), waits for the
    first and then the second, and returns whether both status words are
    non-zero; a failed [fork] or a failed [waitpid] makes it return false. *)
Theorem parallel_forks_waits_and_ands :
  forall cmd1 cmd2 level father w rest,
    (w_oracle w = Forked (-1) :: rest ->
     run_in_parallel parse_command cmd1 cmd2 level father w =
       Returned false (after w rest [EFork (-1)]))
    /\ (w_oracle w = Forked 0 :: rest ->
     run_in_parallel parse_command cmd1 cmd2 level father w =
       (let* rc := parse_command cmd1 (level + 1) father in exit rc)
         (after w rest [EFork 0]))
    /\ (forall pid1, pid1 <> -1 -> pid1 <> 0 ->
     w_oracle w = Forked pid1 :: Forked (-1) :: rest ->
     run_in_parallel parse_command cmd1 cmd2 level father w =
       Returned false (after w rest [EFork pid1; EFork (-1)]))
    /\ (forall pid1, pid1 <> -1 -> pid1 <> 0 ->
     w_oracle w = Forked pid1 :: Forked 0 :: rest ->
     run_in_parallel parse_command cmd1 cmd2 level father w =
       (let* rc := parse_command cmd2 (level + 1) father in exit rc)
         (after w rest [EFork pid1; EFork 0]))
    /\ (forall pid1 pid2 status1, pid1 <> -1 -> pid1 <> 0 -> pid2 <> -1 -> pid2 <> 0 ->
     w_oracle w = Forked pid1 :: Forked pid2 :: Waited (-1) status1 :: rest ->
     run_in_parallel parse_command cmd1 cmd2 level father w =
       Returned false
         (after w rest [EFork pid1; EFork pid2; EWaitpid pid1 (-1) status1]))
    /\ (forall pid1 pid2 r1 status1 status2,
     pid1 <> -1 -> pid1 <> 0 -> pid2 <> -1 -> pid2 <> 0 -> r1 <> -1 ->
     w_oracle w =
       Forked pid1 :: Forked pid2 :: Waited r1 status1 :: Waited (-1) status2 :: rest ->
     run_in_parallel parse_command cmd1 cmd2 level father w =
       Returned false
         (after w rest [EFork pid1; EFork pid2; EWaitpid pid1 r1 status1;
                        EWaitpid pid2 (-1) status2]))
    /\ (forall pid1 pid2 r1 r2 status1 status2,
     pid1 <> -1 -> pid1 <> 0 -> pid2 <> -1 -> pid2 <> 0 -> r1 <> -1 -> r2 <> -1 ->
     w_oracle w =
       Forked pid1 :: Forked pid2 :: Waited r1 status1 :: Waited r2 status2 :: rest ->
     run_in_parallel parse_command cmd1 cmd2 level father w =
       Returned (negb (status1 =? 0) && negb (status2 =? 0))
         (after w rest [EFork pid1; EFork pid2; EWaitpid pid1 r1 status1;
                        EWaitpid pid2 r2 status2])).
Proof.
  intros cmd1 cmd2 level father w rest.
  repeat split; intros; world w;
    unfold run_in_parallel, bind, fork, waitpid, after, set_answered, ret, truth;
    reduce; repeat (rewrite <- app_assoc; cbn [app]); reflexivity.
Qed.

(** ** PIPE *)

Lemma lowest_free_nonneg (fds : gmap Z ofd) : 0 <= lowest_free fds.
Proof. unfold lowest_free. destruct (lowest_from_spec fds (size fds) 0). lia. Qed.

Lemma description_nonneg (fds : gmap Z ofd) fd :
  0 <= fd -> description fds fd = fds !! fd.
Proof.
  intros H. unfold description. now rewrite (proj2 (Z.ltb_ge fd 0) H).
Qed.

Lemma description_negative (fds : gmap Z ofd) fd :
  fd < 0 -> description fds fd = None.
Proof.
  intros H. unfold description. now rewrite (proj2 (Z.ltb_lt fd 0) H).
Qed.

Lemma description_fresh (fds : gmap Z ofd) d :
  description (<[lowest_free fds := d]> fds) (lowest_free fds) = Some d.
Proof.
  rewrite description_nonneg by apply lowest_free_nonneg. apply lookup_insert_eq.
Qed.

(** The parent's side of the pipe runner when nothing fails: both pipe
    ends are closed again, both children are waited for, and the result is
    the second status word read as a [bool]. *)
Lemma run_on_pipe_parent cmd1 cmd2 level father w pid1 pid2 r1 r2 status1 status2 rest :
  pid1 <> -1 -> pid1 <> 0 -> pid2 <> -1 -> pid2 <> 0 -> r1 <> -1 -> r2 <> -1 ->
  w_oracle w = Piped true :: Forked pid1 :: Forked pid2
               :: Waited r1 status1 :: Waited r2 status2 :: rest ->
  run_on_pipe parse_command cmd1 cmd2 level father w =
    Returned (negb (status2 =? 0))
      (World (w_env w) (w_cwd w) (w_fds w) (S (S (w_serial w))) rest
         (w_trace w ++
          [EPipe 0 (lowest_free (w_fds w))
                   (lowest_free (<[lowest_free (w_fds w) :=
                                     Ofd (w_serial w) Pipe_read O_RDONLY]> (w_fds w)));
           EFork pid1;
           EClose (lowest_free (<[lowest_free (w_fds w) :=
                                    Ofd (w_serial w) Pipe_read O_RDONLY]> (w_fds w))) 0;
           EFork pid2;
           EClose (lowest_free (w_fds w)) 0;
           EWaitpid pid1 r1 status1;
           EWaitpid pid2 r2 status2])).
Proof.
  intros Hp1 Hp1' Hp2 Hp2' Hr1 Hr2 Ho. world w.
  set (d1 := Ofd serial Pipe_read O_RDONLY).
  set (rd := lowest_free fds).
  set (fds1 := <[rd := d1]> fds).
  set (d2 := Ofd (S serial) Pipe_write O_WRONLY).
  set (wr := lowest_free fds1).
  assert (Hrd : fds !! rd = None) by apply lowest_free_unused.
  assert (Hwr : fds1 !! wr = None) by apply lowest_free_unused.
  assert (Hne : wr <> rd).
  { apply lowest_free_not_open. unfold fds1. rewrite lookup_insert_eq. eauto. }
  assert (Hclose_wr : delete wr (<[wr := d2]> fds1) = fds1)
    by now apply delete_insert_id.
  assert (Hclose_rd : delete rd fds1 = fds) by now apply delete_insert_id.
  unfold run_on_pipe, bind, pipe. reduce.
  fold d1 rd fds1 d2 wr. change (0 =? -1) with false. cbv iota.
  unfold fork at 1, set_serial, set_fds, set_answered. reduce.
  unfold close at 1. reduce. unfold wr at 1. rewrite description_fresh.
  fold wr. rewrite Hclose_wr.
  unfold fork at 1, set_fds, set_trace, set_answered. reduce.
  unfold close at 1. reduce.
  rewrite description_nonneg by apply lowest_free_nonneg.
  unfold fds1 at 1. fold rd. rewrite lookup_insert_eq. rewrite Hclose_rd.
  unfold waitpid, set_fds, set_trace, set_answered, ret, truth. reduce.
  repeat (rewrite <- app_assoc; cbn [app]). reflexivity.
Qed.

(** The shell's side of a PIPE node: when the pipe, both forks and both
    waits succeed, the node returns 1 if the status word stored for the
    second child is non-zero and 0 if it is zero, the word itself being lost
    in the conversion to [bool]; the first child's status word plays no
    part. *)
Lemma pipe_node_reads_second_status_word :
  forall leaf cmd1 cmd2 level father w pid1 pid2 r1 r2 status1 status2 rest,
    pid1 <> -1 -> pid1 <> 0 -> pid2 <> -1 -> pid2 <> 0 -> r1 <> -1 -> r2 <> -1 ->
    w_oracle w = Piped true :: Forked pid1 :: Forked pid2
                 :: Waited r1 status1 :: Waited r2 status2 :: rest ->
    exists w',
      parse_command (Some (Command OP_PIPE leaf cmd1 cmd2)) level father w =
        Returned (if status2 =? 0 then 0 else 1) w'
      /\ w_oracle w' = rest
      /\ w_fds w' = w_fds w.
Proof.
  intros leaf cmd1 cmd2 level father w pid1 pid2 r1 r2 status1 status2 rest
         Hp1 Hp1' Hp2 Hp2' Hr1 Hr2 Ho.
  rewrite parse_command_pipe. eexists. split.
  - rewrite (bind_returned _ _ _ _ _
               (run_on_pipe_parent _ _ _ _ _ _ _ _ _ _ _ _
                  Hp1 Hp1' Hp2 Hp2' Hr1 Hr2 Ho)).
    unfold ret. now destruct (status2 =? 0).
  - split; reflexivity.
Qed.

(** ** A program that cannot be loaded *)

Lemma load_program_fails s name w rest :
  w_oracle w = Exec_failed :: rest ->
  load_program s name w =
    Halted (Exit EXIT_FAILURE)
      (after w rest
         [EExecvp name (argv_of (w_env w) s) true;
          EWrite STDERR_FILENO (w_fds w !! STDERR_FILENO)
            ("Execution failed for '" ++ name ++ "'" ++ newline)]).
Proof.
  intros Ho. world w.
  unfold load_program, bind, get_argv, execvp, fprintf_stderr, exit, after,
    set_answered, set_trace.
  reduce. change (-1 =? -1) with true. cbv iota. reduce.
  rewrite <- app_assoc. reflexivity.
Qed.

Lemma run_external_child s name w rest :
  w_oracle w = Forked 0 :: rest ->
  run_external s name w =
    (child_redirections s ;;; load_program s name) (after w rest [EFork 0]).
Proof.
  intros Ho. world w. unfold run_external, fork, after, set_answered.
  unfold bind at 1. reduce. reflexivity.
Qed.

(** C9: when the program of an external command cannot be loaded, the
    child, once its redirections are in place, prints
    [Execution failed for '<verb>'] on descriptor 2 and ends with
    [exit (EXIT_FAILURE)] instead of returning; the parent, handed the
    status word of that exit, returns a non-zero status. *)
Theorem unknown_command_diagnostic_and_status :
  forall s name level father w,
    external s = Some name ->
    (forall answers w1 rest,
       w_oracle w = Forked 0 :: answers ->
       child_redirections s (after w answers [EFork 0]) = Returned tt w1 ->
       w_oracle w1 = Exec_failed :: rest ->
       parse_simple (Some s) level father w =
         Halted (Exit EXIT_FAILURE)
           (after w1 rest
              [EExecvp name (argv_of (w_env w1) s) true;
               EWrite STDERR_FILENO (w_fds w1 !! STDERR_FILENO)
                 ("Execution failed for '" ++ name ++ "'" ++ newline)]))
    /\ (forall pid r rest,
       pid <> -1 -> pid <> 0 ->
       w_oracle w = Forked pid :: Waited r (wait_status (Exits EXIT_FAILURE)) :: rest ->
       exists rc w',
         parse_simple (Some s) level father w = Returned rc w' /\ rc <> 0).
Proof.
  intros s name level father w Hext.
  rewrite (parse_simple_external _ _ _ _ Hext). split.
  - intros answers w1 rest Ho Hred Hexec.
    rewrite (run_external_child _ _ _ _ Ho).
    rewrite (bind_returned _ _ _ _ _ Hred).
    now apply load_program_fails.
  - intros pid r rest Hp1 Hp0 Ho.
    rewrite (run_external_parent _ _ _ _ _ _ _ Hp1 Hp0 Ho).
    do 2 eexists. split; [reflexivity|].
    rewrite WIFEXITED_exits.
    destruct (r =? -1); [lia|]. unfold EXIT_FAILURE. rewrite wait_status_exits; lia.
Qed.

(** ** Redirections *)

Lemma lowest_from_insert_open (fds : gmap Z ofd) k d (fuel : nat) : forall n,
  is_Some (fds !! k) ->
  lowest_from (<[k := d]> fds) n fuel = lowest_from fds n fuel.
Proof.
  induction fuel as [|fuel IH]; intros n Hk; [reflexivity|]. simpl.
  destruct (decide (k = n)) as [->|Hne].
  - rewrite lookup_insert_eq. destruct Hk as [d' Hd]. rewrite Hd.
    apply IH. rewrite Hd. eauto.
  - rewrite lookup_insert_ne by assumption.
    destruct (fds !! n); [now apply IH|reflexivity].
Qed.

(** Rebinding a descriptor that is open does not change which number the
    next [open] returns. *)
Lemma lowest_free_insert_open (fds : gmap Z ofd) k d :
  is_Some (fds !! k) -> lowest_free (<[k := d]> fds) = lowest_free fds.
Proof.
  intros Hk. unfold lowest_free.
  rewrite map_size_insert_Some by assumption. now apply lowest_from_insert_open.
Qed.

(** The block [fd = open (...); dup2 (fd, target); close (fd);] when the
    file can be opened and [target] is in use. *)
Lemma open_dup2_close env cwd fds serial rest trace path flags mode target :
  0 <= target -> is_Some (fds !! target) ->
  (let* fd := open (Some path) flags mode in
   dup2 fd target ;;; close fd ;;; ret tt)
    (World env cwd fds serial (Opened true :: rest) trace) =
  Returned tt
    (World env cwd (<[target := Ofd serial (File path) flags]> fds) (S serial) rest
       (trace ++ [EOpen (Some path) flags mode (lowest_free fds);
                  EDup2 (lowest_free fds) target target;
                  EClose (lowest_free fds) 0])).
Proof.
  intros Ht Hopen.
  assert (Hne : lowest_free fds <> target) by now apply lowest_free_not_open.
  unfold bind, open, set_serial, set_fds, set_answered. reduce.
  unfold dup2, set_fds, set_trace. reduce. rewrite description_fresh.
  rewrite (proj2 (Z.ltb_ge target 0) Ht). reduce.
  unfold close, set_fds, set_trace, ret. reduce.
  rewrite description_nonneg by apply lowest_free_nonneg.
  rewrite lookup_insert_ne by congruence. rewrite lookup_insert_eq.
  rewrite delete_insert_ne by congruence.
  rewrite delete_insert_id by apply lowest_free_unused.
  repeat (rewrite <- app_assoc; cbn [app]). reflexivity.
Qed.

(** The same block when the file cannot be opened: -1 is passed on to
    [dup2] and [close], which refuse it, and nothing is rebound. *)
Lemma open_dup2_close_refused env cwd fds serial rest trace path flags mode target :
  (let* fd := open (Some path) flags mode in
   dup2 fd target ;;; close fd ;;; ret tt)
    (World env cwd fds serial (Opened false :: rest) trace) =
  Returned tt
    (World env cwd fds serial rest
       (trace ++ [EOpen (Some path) flags mode (-1);
                  EDup2 (-1) target (-1);
                  EClose (-1) (-1)])).
Proof.
  unfold bind, open, dup2, close, set_answered, set_trace, ret. reduce.
  rewrite description_negative by lia. reduce.
  rewrite description_negative by lia.
  repeat (rewrite <- app_assoc; cbn [app]). reflexivity.
Qed.

Lemma redirect_out_opened s o env cwd fds serial rest trace :
  s_out s = Some o -> is_Some (fds !! STDOUT_FILENO) ->
  redirect_out s (World env cwd fds serial (Opened true :: rest) trace) =
  Returned tt
    (World env cwd (<[STDOUT_FILENO := Ofd serial (File (resolve env o)) (out_flags s)]> fds)
       (S serial) rest
       (trace ++ [EOpen (Some (resolve env o)) (out_flags s) 420 (lowest_free fds);
                  EDup2 (lowest_free fds) STDOUT_FILENO STDOUT_FILENO;
                  EClose (lowest_free fds) 0])).
Proof.
  intros Ho Hopen. unfold redirect_out, out_flags. rewrite Ho.
  unfold bind at 1, get_word. reduce. cbn [from_option].
  destruct (truth (Z.land (io_flags s) IO_OUT_APPEND));
    now rewrite open_dup2_close.
Qed.

Lemma redirect_err_opened s e env cwd fds serial rest trace :
  s_err s = Some e -> is_Some (fds !! STDERR_FILENO) ->
  redirect_err s (World env cwd fds serial (Opened true :: rest) trace) =
  Returned tt
    (World env cwd (<[STDERR_FILENO := Ofd serial (File (resolve env e)) (err_flags s)]> fds)
       (S serial) rest
       (trace ++ [EOpen (Some (resolve env e)) (err_flags s) 420 (lowest_free fds);
                  EDup2 (lowest_free fds) STDERR_FILENO STDERR_FILENO;
                  EClose (lowest_free fds) 0])).
Proof.
  intros He Hopen. unfold redirect_err, err_flags. rewrite He.
  unfold bind at 1, get_word. reduce. cbn [from_option].
  destruct (truth (Z.land (io_flags s) IO_ERR_APPEND));
    now rewrite open_dup2_close.
Qed.

(** Lines 136-141 when the two literal strings are equal: one more
    truncating [open], one description behind both 1 and 2. *)
Lemma redirect_both_merges s o e lit env cwd fds serial rest trace :
  s_out s = Some o -> s_err s = Some e ->
  word_string o = Some lit -> word_string e = Some lit ->
  is_Some (fds !! STDOUT_FILENO) -> is_Some (fds !! STDERR_FILENO) ->
  redirect_both s (World env cwd fds serial (Opened true :: rest) trace) =
  Returned tt
    (World env cwd
       (<[STDERR_FILENO := Ofd serial (File (resolve env o))
                             (Z.lor (Z.lor O_WRONLY O_CREAT) O_TRUNC)]>
          (<[STDOUT_FILENO := Ofd serial (File (resolve env o))
                                (Z.lor (Z.lor O_WRONLY O_CREAT) O_TRUNC)]> fds))
       (S serial) rest
       (trace ++ [EOpen (Some (resolve env o)) (Z.lor (Z.lor O_WRONLY O_CREAT) O_TRUNC) 420
                    (lowest_free fds);
                  EDup2 (lowest_free fds) STDOUT_FILENO STDOUT_FILENO;
                  EDup2 (lowest_free fds) STDERR_FILENO STDERR_FILENO;
                  EClose (lowest_free fds) 0])).
Proof.
  intros Ho He Hlo Hle Hout Herr.
  assert (Hn1 : lowest_free fds <> STDOUT_FILENO) by now apply lowest_free_not_open.
  assert (Hn2 : lowest_free fds <> STDERR_FILENO) by now apply lowest_free_not_open.
  unfold redirect_both. rewrite Ho, He.
  unfold bind at 1, deref. rewrite Hlo. unfold bind at 1. rewrite Hle.
  rewrite String.eqb_refl.
  unfold bind at 1, get_word. reduce. cbn [from_option].
  unfold bind, open, set_serial, set_fds, set_answered. reduce.
  unfold dup2 at 1, set_fds, set_trace. reduce. rewrite description_fresh.
  change (STDOUT_FILENO <? 0) with false. reduce.
  unfold dup2, set_fds, set_trace. reduce.
  rewrite description_nonneg by apply lowest_free_nonneg.
  rewrite lookup_insert_ne by congruence. rewrite lookup_insert_eq.
  change (STDERR_FILENO <? 0) with false. reduce.
  unfold close, set_fds, set_trace, ret. reduce.
  rewrite description_nonneg by apply lowest_free_nonneg.
  rewrite !lookup_insert_ne by congruence. rewrite lookup_insert_eq.
  rewrite !delete_insert_ne by congruence.
  rewrite delete_insert_id by apply lowest_free_unused.
  repeat (rewrite <- app_assoc; cbn [app]). reflexivity.
Qed.


Lemma rebind_twice (fds : gmap Z ofd) a b x1 y1 x2 y2 :
  a <> b ->
  <[b := y2]> (<[a := x2]> (<[b := y1]> (<[a := x1]> fds))) = <[b := y2]> (<[a := x2]> fds).
Proof.
  intros Hab. apply map_eq. intros k.
  destruct (decide (k = b)) as [->|Hb]; [now rewrite !lookup_insert_eq|].
  rewrite !(lookup_insert_ne _ b) by congruence.
  destruct (decide (k = a)) as [->|Ha]; [now rewrite !lookup_insert_eq|].
  rewrite !(lookup_insert_ne _ a) by congruence.
  now rewrite !lookup_insert_ne by congruence.
Qed.





(** ** The cd builtin *)

Lemma bind_inversion {A B} (m : M A) (k : A -> M B) w b w' :
  bind m k w = Returned b w' ->
  exists a wi, m w = Returned a wi /\ k a wi = Returned b w'.
Proof.
  unfold bind. destruct (m w) as [a wi|h wi]; [|discriminate].
  intros H. now exists a, wi.
Qed.

Lemma keeps_ret {X A} (f : world -> X) (a : A) : keeps f (ret a).
Proof. intros w. reflexivity. Qed.

Lemma keeps_bind {X A B} (f : world -> X) (m : M A) (k : A -> M B) :
  keeps f m -> (forall a, keeps f (k a)) -> keeps f (bind m k).
Proof.
  intros Hm Hk w. unfold bind. specialize (Hm w).
  destruct (m w) as [a wi|h wi]; cbn [world_of] in *; [|exact Hm].
  now rewrite Hk.
Qed.

Lemma keeps_deref {X A} (f : world -> X) (p : option A) : keeps f (deref p).
Proof. intros w. unfold deref. now destruct p. Qed.

Lemma keeps_getenv {X} (f : world -> X) name : keeps f (getenv name).
Proof. intros w. reflexivity. Qed.

Lemma chdir_keeps_fds path : keeps w_fds (chdir path).
Proof.
  intros w. unfold chdir. destruct path as [p|]; [|reflexivity].
  destruct (w_oracle w) as [|[| | | | | |[]] ?]; reflexivity.
Qed.

Lemma chdir_keeps_env path : keeps w_env (chdir path).
Proof.
  intros w. unfold chdir. destruct path as [p|]; [|reflexivity].
  destruct (w_oracle w) as [|[| | | | | |[]] ?]; reflexivity.
Qed.

Lemma open_keeps_env path flags mode : keeps w_env (open path flags mode).
Proof.
  intros w. unfold open. destruct path as [p|]; [|reflexivity].
  destruct (w_oracle w) as [|[| | | | |[]|] ?]; reflexivity.
Qed.

Lemma close_keeps_env fd : keeps w_env (close fd).
Proof. intros w. unfold close. now destruct (description (w_fds w) fd). Qed.

Lemma dup2_keeps_env oldfd newfd : keeps w_env (dup2 oldfd newfd).
Proof.
  intros w. unfold dup2. destruct (description (w_fds w) oldfd); [|reflexivity].
  now destruct (newfd <? 0).
Qed.

Ltac frame :=
  repeat first
    [ apply keeps_ret | apply keeps_deref | apply keeps_getenv
    | apply chdir_keeps_fds | apply chdir_keeps_env
    | apply open_keeps_env | apply close_keeps_env | apply dup2_keeps_env
    | apply keeps_bind; [|intros ?]
    | match goal with
      | |- keeps _ (if ?c then _ else _) => destruct c
      | |- keeps _ (match ?x with _ => _ end) => destruct x
      end ].

(** [shell_cd] touches neither the descriptor table nor the environment. *)
Lemma shell_cd_keeps_fds dir : keeps w_fds (shell_cd dir).
Proof. unfold shell_cd. cbv zeta. frame. Qed.

Lemma shell_cd_keeps_env dir : keeps w_env (shell_cd dir).
Proof. unfold shell_cd. cbv zeta. frame. Qed.

Lemma cd_redirections_keep_env s : keeps w_env (cd_redirections s).
Proof. unfold cd_redirections, cd_open_in, cd_open_out, cd_open_err. frame. Qed.

Lemma parse_simple_cd s v level father :
  verb s = Some v -> word_string v = Some "cd"%string ->
  parse_simple (Some s) level father =
    (cd_redirections s ;;;
     let* ok := shell_cd (params s) in
     ret (Z.b2z (negb ok))).
Proof.
  intros Hv Hname. unfold parse_simple. rewrite Hv.
  unfold bind at 1, deref. now rewrite Hname.
Qed.

(** The block [fd = open (...); close (fd);] of lines 68-76 rebinds
    nothing, whatever the answer to [open]. *)
Lemma open_close path flags mode w w1 :
  (let* fd := open path flags mode in close fd ;;; ret tt) w = Returned tt w1 ->
  w_fds w1 = w_fds w
  /\ exists fd r, w_trace w1 = w_trace w ++ [EOpen path flags mode fd; EClose fd r].
Proof.
  world w. unfold bind, open, close, ret, set_serial, set_fds, set_answered, set_trace.
  destruct path as [p|].
  - destruct oracle as [|[| | | | |[]|] ?]; try discriminate; reduce.
    + rewrite description_fresh. intros H. injection H as <-. reduce. split.
      * apply delete_insert_id, lowest_free_unused.
      * exists (lowest_free fds), 0. rewrite <- app_assoc. reflexivity.
    + rewrite description_negative by lia. intros H. injection H as <-. reduce.
      split; [reflexivity|]. exists (-1), (-1). rewrite <- app_assoc. reflexivity.
  - reduce. rewrite description_negative by lia. intros H. injection H as <-. reduce.
    split; [reflexivity|]. exists (-1), (-1). rewrite <- app_assoc. reflexivity.
Qed.

(** C10: a [cd] leaf with an [err] target, evaluated in a process whose
    descriptor 2 is open and in a world where the target can be opened.
    The [in] and [out] targets are opened and closed at once (the [out]
    target with [O_CREAT] and [O_TRUNC]) and no descriptor is rebound by
    them; the [err] target is opened, duplicated onto descriptor 2 and the
    temporary descriptor closed.  However the leaf ends, its process is left
    with descriptor 2 on that file and every other descriptor, 0 and 1
    among them, as before: nothing puts the old descriptor 2 back, and the
    second child of a sequence starts in that world. *)
Theorem cd_leaf_rebinds_stderr_for_good :
  forall s v e p level father w w1 rest,
    verb s = Some v -> word_string v = Some "cd"%string ->
    s_err s = Some e -> word_string e = Some p ->
    is_Some (w_fds w !! STDERR_FILENO) ->
    (cd_open_in s ;;; cd_open_out s) w = Returned tt w1 ->
    w_oracle w1 = Opened true :: rest ->
    w_fds w1 = w_fds w
    /\ (exists fd_in r_in fd_out r_out,
          w_trace w1 =
            w_trace w
            ++ match s_in s with
               | Some i => [EOpen (word_string i) O_RDONLY 0 fd_in; EClose fd_in r_in]
               | None => []
               end
            ++ match s_out s with
               | Some o => [EOpen (word_string o) (Z.lor (Z.lor O_WRONLY O_CREAT) O_TRUNC)
                              420 fd_out;
                            EClose fd_out r_out]
               | None => []
               end)
    /\ cd_redirections s w =
         Returned tt
           (World (w_env w1) (w_cwd w1)
              (<[STDERR_FILENO := Ofd (w_serial w1) (File p)
                                    (Z.lor (Z.lor O_WRONLY O_CREAT) O_TRUNC)]> (w_fds w))
              (S (w_serial w1)) rest
              (w_trace w1 ++
               [EOpen (Some p) (Z.lor (Z.lor O_WRONLY O_CREAT) O_TRUNC) 420
                  (lowest_free (w_fds w));
                EDup2 (lowest_free (w_fds w)) STDERR_FILENO STDERR_FILENO;
                EClose (lowest_free (w_fds w)) 0]))
    /\ w_fds (world_of (parse_simple (Some s) level father w)) =
         <[STDERR_FILENO := Ofd (w_serial w1) (File p)
                              (Z.lor (Z.lor O_WRONLY O_CREAT) O_TRUNC)]> (w_fds w)
    /\ (forall leaf l1 l2 next rc w2,
          parse_command (Some (Command OP_NONE (Some s) l1 l2)) (level + 1)
            (Some (Command OP_SEQUENTIAL leaf
                     (Some (Command OP_NONE (Some s) l1 l2)) next)) w
            = Returned rc w2 ->
          w_fds w2 !! STDERR_FILENO =
            Some (Ofd (w_serial w1) (File p) (Z.lor (Z.lor O_WRONLY O_CREAT) O_TRUNC))
          /\ w_fds w2 !! STDIN_FILENO = w_fds w !! STDIN_FILENO
          /\ w_fds w2 !! STDOUT_FILENO = w_fds w !! STDOUT_FILENO
          /\ parse_command
               (Some (Command OP_SEQUENTIAL leaf
                        (Some (Command OP_NONE (Some s) l1 l2)) next)) level father w =
             match parse_command next (level + 1)
                     (Some (Command OP_SEQUENTIAL leaf
                              (Some (Command OP_NONE (Some s) l1 l2)) next)) w2 with
             | Returned rc2 w3 => Returned (Z.land rc rc2) w3
             | Halted h w3 => Halted h w3
             end).
Proof.
  intros s v e p level father w w1 rest Hv Hname He Hp Hopen Hio Ho.
  destruct (bind_inversion _ _ _ _ _ Hio) as ([] & wi & Hin & Hout).
  assert (Hin' : w_fds wi = w_fds w /\ exists fd r,
             w_trace wi = w_trace w ++
               match s_in s with
               | Some i => [EOpen (word_string i) O_RDONLY 0 fd; EClose fd r]
               | None => []
               end).
  { unfold cd_open_in in Hin. destruct (s_in s) as [i|].
    - now apply open_close.
    - injection Hin as <-. split; [reflexivity|]. exists 0, 0. now rewrite app_nil_r. }
  assert (Hout' : w_fds w1 = w_fds wi /\ exists fd r,
             w_trace w1 = w_trace wi ++
               match s_out s with
               | Some o => [EOpen (word_string o) (Z.lor (Z.lor O_WRONLY O_CREAT) O_TRUNC)
                              420 fd; EClose fd r]
               | None => []
               end).
  { unfold cd_open_out in Hout. destruct (s_out s) as [o|].
    - now apply open_close.
    - injection Hout as <-. split; [reflexivity|]. exists 0, 0. now rewrite app_nil_r. }
  destruct Hin' as (Hfi & fd_in & r_in & Hti).
  destruct Hout' as (Hfo & fd_out & r_out & Hto).
  assert (Hfds : w_fds w1 = w_fds w) by congruence.
  assert (Hred : cd_redirections s w =
    Returned tt
      (World (w_env w1) (w_cwd w1)
         (<[STDERR_FILENO := Ofd (w_serial w1) (File p)
                               (Z.lor (Z.lor O_WRONLY O_CREAT) O_TRUNC)]> (w_fds w))
         (S (w_serial w1)) rest
         (w_trace w1 ++
          [EOpen (Some p) (Z.lor (Z.lor O_WRONLY O_CREAT) O_TRUNC) 420
             (lowest_free (w_fds w));
           EDup2 (lowest_free (w_fds w)) STDERR_FILENO STDERR_FILENO;
           EClose (lowest_free (w_fds w)) 0]))).
  { unfold cd_redirections.
    rewrite (bind_returned _ _ _ _ _ Hin), (bind_returned _ _ _ _ _ Hout).
    unfold cd_open_err. rewrite He, Hp. clear - Ho Hopen Hfds.
    world w1. now apply open_dup2_close. }
  assert (Hleaf : forall l f,
    w_fds (world_of (parse_simple (Some s) l f w)) =
      <[STDERR_FILENO := Ofd (w_serial w1) (File p)
                           (Z.lor (Z.lor O_WRONLY O_CREAT) O_TRUNC)]> (w_fds w)).
  { intros l f. rewrite (parse_simple_cd _ _ _ _ Hv Hname).
    rewrite (bind_returned _ _ _ _ _ Hred).
    assert (Hk : keeps w_fds (let* ok := shell_cd (params s) in ret (Z.b2z (negb ok)))).
    { apply keeps_bind; [apply shell_cd_keeps_fds|]. intros ok. apply keeps_ret. }
    now rewrite Hk. }
  repeat split.
  - exact Hfds.
  - exists fd_in, r_in, fd_out, r_out. rewrite Hto, Hti. now rewrite <- app_assoc.
  - exact Hred.
  - apply Hleaf.
  - rewrite parse_command_leaf in H. specialize (Hleaf (level + 1)
      (Some (Command OP_SEQUENTIAL leaf (Some (Command OP_NONE (Some s) l1 l2)) next))).
    rewrite H in Hleaf. cbn [world_of] in Hleaf. rewrite Hleaf. apply lookup_insert_eq.
  - rewrite parse_command_leaf in H. specialize (Hleaf (level + 1)
      (Some (Command OP_SEQUENTIAL leaf (Some (Command OP_NONE (Some s) l1 l2)) next))).
    rewrite H in Hleaf. cbn [world_of] in Hleaf. rewrite Hleaf.
    now rewrite lookup_insert_ne by discriminate.
  - rewrite parse_command_leaf in H. specialize (Hleaf (level + 1)
      (Some (Command OP_SEQUENTIAL leaf (Some (Command OP_NONE (Some s) l1 l2)) next))).
    rewrite H in Hleaf. cbn [world_of] in Hleaf. rewrite Hleaf.
    now rewrite lookup_insert_ne by discriminate.
  - rewrite parse_command_sequential. rewrite (bind_returned _ _ _ _ _ H).
    unfold bind, ret. now destruct (parse_command next _ _ w2).
Qed.

Lemma grows_ret {A} (a : A) : grows (ret a).
Proof. intros w. exists []. cbn. now rewrite app_nil_r. Qed.

Lemma grows_bind {A B} (m : M A) (k : A -> M B) :
  grows m -> (forall a, grows (k a)) -> grows (bind m k).
Proof.
  intros Hm Hk w. unfold bind. destruct (Hm w) as [evs Hevs].
  destruct (m w) as [a wi|h wi]; cbn [world_of] in *; [|now exists evs].
  destruct (Hk a wi) as [evs' Hevs']. exists (evs ++ evs').
  now rewrite Hevs', Hevs, app_assoc.
Qed.

Lemma grows_deref {A} (p : option A) : grows (deref p).
Proof. intros w. exists []. unfold deref. destruct p; cbn; now rewrite app_nil_r. Qed.

Lemma grows_getenv name : grows (getenv name).
Proof. intros w. exists []. cbn. now rewrite app_nil_r. Qed.

Lemma grows_chdir path : grows (chdir path).
Proof.
  intros w. unfold chdir. destruct path as [p|]; [|now eexists].
  destruct (w_oracle w) as [|[| | | | | |[]] ?];
    try (exists []; cbn; now rewrite app_nil_r); now eexists.
Qed.

Ltac growth :=
  repeat first
    [ apply grows_ret | apply grows_deref | apply grows_getenv | apply grows_chdir
    | apply grows_bind; [|intros ?]
    | match goal with
      | |- grows (if ?c then _ else _) => destruct c
      | |- grows (match ?x with _ => _ end) => destruct x
      end ].

Lemma world_of_bind_ret {A B} (m : M A) (f : A -> B) w :
  world_of ((let* a := m in ret (f a)) w) = world_of (m w).
Proof. unfold bind, ret. now destruct (m w). Qed.

(** [shell_cd] with a literal directory: one [chdir], and its result. *)
Lemma shell_cd_literal d p w ok rest :
  word_string d = Some p ->
  p <> "~"%string -> p <> ""%string -> p <> "-"%string ->
  w_oracle w = Chdired ok :: rest ->
  shell_cd (Some d) w =
    if ok
    then Returned true (set_cwd (after w rest [EChdir (Some p) 0]) (enter (w_cwd w) p))
    else Returned false (after w rest [EChdir (Some p) (-1)]).
Proof.
  intros Hp H1 H2 H3 Ho. world w. unfold shell_cd, wants_home. rewrite Hp.
  rewrite (proj2 (String.eqb_neq _ _) H1), (proj2 (String.eqb_neq _ _) H2).
  cbn [orb]. unfold bind, deref. rewrite Hp.
  rewrite (proj2 (String.eqb_neq _ _) H3).
  unfold chdir. reduce. now destruct ok.
Qed.

(** [shell_cd] when line 26 asks for HOME. *)
Lemma shell_cd_home dir w :
  wants_home dir = true ->
  (w_env w !! "HOME"%string = None ->
   shell_cd dir w = Returned false (after w (w_oracle w) [EChdir None (-1)]))
  /\ (forall h rest,
       w_env w !! "HOME"%string = Some h -> w_oracle w = Chdired false :: rest ->
       shell_cd dir w = Returned false (after w rest [EChdir (Some h) (-1)]))
  /\ (forall h rest,
       w_env w !! "HOME"%string = Some h -> w_oracle w = Chdired true :: rest ->
       exists evs,
         w_trace (world_of (shell_cd dir w)) = w_trace w ++ EChdir (Some h) 0 :: evs).
Proof.
  intros Hhome. unfold shell_cd. rewrite Hhome. cbv zeta. repeat split.
  - intros Hunset. unfold bind at 1, getenv. rewrite Hunset. reflexivity.
  - intros h rest Hh Ho. unfold bind at 1, getenv. rewrite Hh.
    unfold bind at 1, chdir. rewrite Ho. reflexivity.
  - intros h rest Hh Ho. unfold bind at 1, getenv. rewrite Hh.
    unfold bind at 1, chdir. rewrite Ho. change (0 =? -1) with false. cbv iota.
    match goal with
    | |- context [world_of (?m ?w')] =>
        assert (Hg : grows m) by growth; destruct (Hg w') as [evs Hevs]
    end.
    exists evs. rewrite Hevs. cbn. now rewrite <- app_assoc.
Qed.

(** [shell_cd] when the literal argument is the dash. *)
Lemma shell_cd_oldpwd d w :
  word_string d = Some "-"%string ->
  (w_env w !! "OLDPWD"%string = None ->
   shell_cd (Some d) w = Returned false (after w (w_oracle w) [EChdir None (-1)]))
  /\ (forall old rest,
       w_env w !! "OLDPWD"%string = Some old -> w_oracle w = Chdired false :: rest ->
       shell_cd (Some d) w = Returned false (after w rest [EChdir (Some old) (-1)]))
  /\ (forall old rest,
       w_env w !! "OLDPWD"%string = Some old -> w_oracle w = Chdired true :: rest ->
       exists evs,
         w_trace (world_of (shell_cd (Some d) w)) = w_trace w ++ EChdir (Some old) 0 :: evs).
Proof.
  intros Hd.
  assert (Hdash : forall w',
    shell_cd (Some d) w' =
      (let* oldpwd := getenv "OLDPWD" in
       let* r := chdir oldpwd in
       if r =? -1 then ret false
       else let* d0 := deref (Some d) in
            let* r0 := chdir (word_string d0) in
            if r0 =? -1 then ret false else ret true) w').
  { intros w'. unfold shell_cd, wants_home. rewrite Hd.
    change (String.eqb "-" "~" || String.eqb "-" "") with false. cbv zeta iota.
    unfold bind at 1, deref at 1. unfold bind at 1, deref at 1. rewrite Hd.
    reflexivity. }
  rewrite Hdash. clear Hdash. repeat split.
  - intros Hunset. unfold bind at 1, getenv. rewrite Hunset. reflexivity.
  - intros old rest Hold Ho. unfold bind at 1, getenv. rewrite Hold.
    unfold bind at 1, chdir. rewrite Ho. reflexivity.
  - intros old rest Hold Ho. unfold bind at 1, getenv. rewrite Hold.
    unfold bind at 1, chdir. rewrite Ho. change (0 =? -1) with false. cbv iota.
    match goal with
    | |- context [world_of (?m ?w')] =>
        assert (Hg : grows m) by growth; destruct (Hg w') as [evs Hevs]
    end.
    exists evs. rewrite Hevs. cbn. now rewrite <- app_assoc.
Qed.

(** X16: what [cd] does without the fall-through of lines 26-35 coming
    into play.  [w1] is the world the leaf's redirection targets leave.  With a
    literal argument other than [~], the empty string and [-], the
    directory is changed to that argument: status 0 and the new directory on
    success, status 1 and nothing changed on failure.  With no argument, an
    empty one or [~], a change to the value of HOME is attempted first, and
    with [-] a change to the value of OLDPWD; when the variable is unset or
    that change fails the status is 1 and the directory is unchanged.  The
    environment is never written, so OLDPWD is whatever the process was
    given, not the directory left last. *)
Lemma cd_changes_directory_and_reports :
  forall s v level father w w1,
    verb s = Some v -> word_string v = Some "cd"%string ->
    cd_redirections s w = Returned tt w1 ->
    (forall d p ok rest,
       params s = Some d -> word_string d = Some p ->
       p <> "~"%string -> p <> ""%string -> p <> "-"%string ->
       w_oracle w1 = Chdired ok :: rest ->
       parse_simple (Some s) level father w =
         if ok
         then Returned 0 (set_cwd (after w1 rest [EChdir (Some p) 0]) (enter (w_cwd w1) p))
         else Returned 1 (after w1 rest [EChdir (Some p) (-1)]))
    /\ (wants_home (params s) = true ->
        (w_env w1 !! "HOME"%string = None ->
         parse_simple (Some s) level father w =
           Returned 1 (after w1 (w_oracle w1) [EChdir None (-1)]))
        /\ (forall h rest,
             w_env w1 !! "HOME"%string = Some h -> w_oracle w1 = Chdired false :: rest ->
             parse_simple (Some s) level father w =
               Returned 1 (after w1 rest [EChdir (Some h) (-1)]))
        /\ (forall h rest,
             w_env w1 !! "HOME"%string = Some h -> w_oracle w1 = Chdired true :: rest ->
             exists evs,
               w_trace (world_of (parse_simple (Some s) level father w)) =
                 w_trace w1 ++ EChdir (Some h) 0 :: evs))
    /\ (forall d,
        params s = Some d -> word_string d = Some "-"%string ->
        (w_env w1 !! "OLDPWD"%string = None ->
         parse_simple (Some s) level father w =
           Returned 1 (after w1 (w_oracle w1) [EChdir None (-1)]))
        /\ (forall old rest,
             w_env w1 !! "OLDPWD"%string = Some old -> w_oracle w1 = Chdired false :: rest ->
             parse_simple (Some s) level father w =
               Returned 1 (after w1 rest [EChdir (Some old) (-1)]))
        /\ (forall old rest,
             w_env w1 !! "OLDPWD"%string = Some old -> w_oracle w1 = Chdired true :: rest ->
             exists evs,
               w_trace (world_of (parse_simple (Some s) level father w)) =
                 w_trace w1 ++ EChdir (Some old) 0 :: evs))
    /\ w_env (world_of (parse_simple (Some s) level father w)) = w_env w.
Proof.
  intros s v level father w w1 Hv Hname Hred.
  rewrite (parse_simple_cd _ _ _ _ Hv Hname).
  assert (Hrun :
    (cd_redirections s ;;; let* ok := shell_cd (params s) in ret (Z.b2z (negb ok))) w =
    (let* ok := shell_cd (params s) in ret (Z.b2z (negb ok))) w1)
    by now rewrite (bind_returned _ _ _ _ _ Hred).
  split; [|split; [|split]].
  - intros d p ok rest Hd Hp H1 H2 H3 Ho. rewrite Hrun, Hd.
    unfold bind. rewrite (shell_cd_literal d p w1 ok rest) by assumption.
    now destruct ok.
  - intros Hhome.
    destruct (shell_cd_home (params s) w1 Hhome) as (Hunset & Hrefused & Hfirst).
    rewrite Hrun. repeat split.
    + intros Hu. unfold bind. now rewrite (Hunset Hu).
    + intros h rest Hh Ho. unfold bind. now rewrite (Hrefused h rest Hh Ho).
    + intros h rest Hh Ho. rewrite world_of_bind_ret. exact (Hfirst h rest Hh Ho).
  - intros d Hd Hdash. rewrite Hrun, Hd.
    destruct (shell_cd_oldpwd d w1 Hdash) as (Hunset & Hrefused & Hfirst).
    repeat split.
    + intros Hu. unfold bind. now rewrite (Hunset Hu).
    + intros old rest Hold Ho. unfold bind. now rewrite (Hrefused old rest Hold Ho).
    + intros old rest Hold Ho. rewrite world_of_bind_ret. exact (Hfirst old rest Hold Ho).
  - assert (Hk : keeps w_env
             (cd_redirections s ;;;
              let* ok := shell_cd (params s) in ret (Z.b2z (negb ok)))).
    { apply keeps_bind; [apply cd_redirections_keep_env|]. intros _.
      apply keeps_bind; [apply shell_cd_keeps_env|]. intros ok. apply keeps_ret. }
    apply Hk.
Qed.

(** * Further properties of the evaluator *)

(** ** [level] and [father] *)

Lemma bind_pointwise {A B} (m m' : M A) (k k' : A -> M B) w :
  m w = m' w -> (forall a w', k a w' = k' a w') -> bind m k w = bind m' k' w.
Proof.
  intros Hm Hk. unfold bind. rewrite Hm. now destruct (m' w).
Qed.

Lemma run_in_parallel_pointwise
    (f g : option command -> Z -> option command -> M Z) c1 c2 l l' fa fa' :
  (forall w, f c1 (l + 1) fa w = g c1 (l' + 1) fa' w) ->
  (forall w, f c2 (l + 1) fa w = g c2 (l' + 1) fa' w) ->
  forall w, run_in_parallel f c1 c2 l fa w = run_in_parallel g c1 c2 l' fa' w.
Proof.
  intros H1 H2 w. unfold run_in_parallel.
  apply bind_pointwise; [reflexivity|]. intros pid1 w1.
  destruct (pid1 =? -1); [reflexivity|].
  destruct (pid1 =? 0); [now apply bind_pointwise|].
  apply bind_pointwise; [reflexivity|]. intros pid2 w2.
  destruct (pid2 =? -1); [reflexivity|].
  destruct (pid2 =? 0); [now apply bind_pointwise|]. reflexivity.
Qed.

Lemma run_on_pipe_pointwise
    (f g : option command -> Z -> option command -> M Z) c1 c2 l l' fa fa' :
  (forall w, f c1 (l + 1) fa w = g c1 (l' + 1) fa' w) ->
  (forall w, f c2 (l + 1) fa w = g c2 (l' + 1) fa' w) ->
  forall w, run_on_pipe f c1 c2 l fa w = run_on_pipe g c1 c2 l' fa' w.
Proof.
  intros H1 H2 w. unfold run_on_pipe.
  apply bind_pointwise; [reflexivity|]. intros p w0.
  destruct (fst p =? -1); [reflexivity|].
  apply bind_pointwise; [reflexivity|]. intros pid1 w1.
  destruct (pid1 =? -1); [reflexivity|].
  destruct (pid1 =? 0).
  - repeat (apply bind_pointwise; [reflexivity|]; intros ? ?).
    now apply bind_pointwise.
  - apply bind_pointwise; [reflexivity|]. intros ? w2.
    apply bind_pointwise; [reflexivity|]. intros pid2 w3.
    destruct (pid2 =? -1); [reflexivity|].
    destruct (pid2 =? 0); [|reflexivity].
    repeat (apply bind_pointwise; [reflexivity|]; intros ? ?).
    now apply bind_pointwise.
Qed.

Lemma parse_node_ignores_position :
  forall c l f l' f' w, parse_node c l f w = parse_node c l' f' w.
Proof.
  fix IH 1. intros [o leaf c1 c2] l f l' f' w.
  assert (H1 : forall la fa lb fb w0,
            parse_command c1 la fa w0 = parse_command c1 lb fb w0).
  { destruct c1 as [x|]; intros; [apply IH|reflexivity]. }
  assert (H2 : forall la fa lb fb w0,
            parse_command c2 la fa w0 = parse_command c2 lb fb w0).
  { destruct c2 as [x|]; intros; [apply IH|reflexivity]. }
  change (parse_command (Some (Command o leaf c1 c2)) l f w =
          parse_command (Some (Command o leaf c1 c2)) l' f' w).
  destruct o.
  - reflexivity.
  - rewrite !parse_command_sequential.
    apply bind_pointwise; [apply H1|]. intros rc w1.
    apply bind_pointwise; [apply H2|]. reflexivity.
  - rewrite !parse_command_parallel.
    apply bind_pointwise; [|reflexivity].
    apply run_in_parallel_pointwise; intros; [apply H1|apply H2].
  - rewrite !parse_command_nzero.
    apply bind_pointwise; [apply H1|]. intros rc w1.
    destruct (negb (rc =? 0)); [apply H2|reflexivity].
  - rewrite !parse_command_zero.
    apply bind_pointwise; [apply H1|]. intros rc w1.
    destruct (rc =? 0); [apply H2|reflexivity].
  - rewrite !parse_command_pipe.
    apply bind_pointwise; [|reflexivity].
    apply run_on_pipe_pointwise; intros; [apply H1|apply H2].
  - reflexivity.
Qed.

(** Any position is as good as the root. *)
Lemma parse_command_at_root c level father w :
  parse_command c level father w = parse_command c 0 None w.
Proof.
  destruct c as [c|]; [|reflexivity]. apply parse_node_ignores_position.
Qed.

(** X1: the depth [level] and the back pointer [father] are carried along
    and never looked at: evaluating a tree gives the same outcome, world
    included, whatever they are. *)
Theorem position_is_only_carried_along :
  forall c level father level' father' w,
    parse_command c level father w = parse_command c level' father' w.
Proof.
  intros c level father level' father' w.
  now rewrite (parse_command_at_root c level), (parse_command_at_root c level').
Qed.

(** ** Sequences regrouped *)

(** X2: [(a ; b) ; c] and [a ; (b ; c)] are the same computation: the same
    calls in the same order and, when all three return, the bitwise AND of
    the three statuses. *)
Theorem sequential_is_associative :
  forall a b c leaf1 leaf2 leaf3 leaf4 level father w,
    parse_command
      (Some (Command OP_SEQUENTIAL leaf1
               (Some (Command OP_SEQUENTIAL leaf2 a b)) c)) level father w
    = parse_command
        (Some (Command OP_SEQUENTIAL leaf3 a
                 (Some (Command OP_SEQUENTIAL leaf4 b c)))) level father w.
Proof.
  intros a b c leaf1 leaf2 leaf3 leaf4 level father w.
  rewrite (parse_command_sequential leaf1), (parse_command_sequential leaf3).
  unfold bind at 1. rewrite parse_command_sequential.
  unfold bind at 1.
  rewrite (parse_command_at_root a).
  symmetry. unfold bind at 1.
  rewrite (parse_command_at_root a).
  destruct (parse_command a 0 None w) as [ra wa|h wa]; [|reflexivity].
  unfold bind at 1. rewrite parse_command_sequential. unfold bind at 1.
  rewrite (parse_command_at_root b).
  symmetry. unfold bind at 1.
  rewrite (parse_command_at_root b).
  destruct (parse_command b 0 None wa) as [rb wb|h wb]; [|reflexivity].
  unfold ret at 1. unfold bind.
  rewrite (parse_command_at_root c).
  symmetry.
  rewrite (parse_command_at_root c).
  destruct (parse_command c 0 None wb) as [rc wc|h wc]; [|reflexivity].
  unfold ret. now rewrite Z.land_assoc.
Qed.

(** ** More on external commands *)

Lemma load_program_never_returns s name w :
  exists h w', load_program s name w = Halted h w'.
Proof.
  unfold load_program, bind, get_argv, execvp.
  destruct (w_oracle w) as [|[| | | | | |] ?]; do 2 eexists; reflexivity.
Qed.

(** X3: in the child of an external command nothing ever comes back to the
    evaluator: whatever the redirections and [execvp] do, the call ends the
    process or replaces its image. *)
Theorem external_child_never_returns :
  forall s name level father w rest,
    external s = Some name ->
    w_oracle w = Forked 0 :: rest ->
    exists h w', parse_simple (Some s) level father w = Halted h w'.
Proof.
  intros s name level father w rest Hext Ho.
  rewrite (parse_simple_external _ _ _ _ Hext), (run_external_child _ _ _ _ Ho).
  unfold bind at 1.
  destruct (child_redirections s (after w rest [EFork 0])) as [[] w1|h w1].
  - apply load_program_never_returns.
  - now exists h, w1.
Qed.

(** X4: when [fork] fails for an external command, [parse_simple] returns
    -1 having started nothing and waited for nothing; a COND_NONZERO node
    above it goes on to its second child and a COND_ZERO node does not. *)
Theorem fork_failure_is_a_failed_command :
  forall s name leaf l1 l2 c2 level father w rest,
    external s = Some name ->
    w_oracle w = Forked (-1) :: rest ->
    parse_simple (Some s) level father w = Returned (-1) (after w rest [EFork (-1)])
    /\ parse_command
         (Some (Command OP_CONDITIONAL_NZERO leaf
                  (Some (Command OP_NONE (Some s) l1 l2)) c2)) level father w
       = parse_command c2 (level + 1)
           (Some (Command OP_CONDITIONAL_NZERO leaf
                    (Some (Command OP_NONE (Some s) l1 l2)) c2))
           (after w rest [EFork (-1)])
    /\ parse_command
         (Some (Command OP_CONDITIONAL_ZERO leaf
                  (Some (Command OP_NONE (Some s) l1 l2)) c2)) level father w
       = Returned (-1) (after w rest [EFork (-1)]).
Proof.
  intros s name leaf l1 l2 c2 level father w rest Hext Ho.
  assert (Hleaf : forall l f,
            parse_simple (Some s) l f w = Returned (-1) (after w rest [EFork (-1)])).
  { intros l f. rewrite (parse_simple_external _ _ _ _ Hext). world w.
    unfold run_external, bind, fork, after, set_answered. reduce. reflexivity. }
  split; [apply Hleaf|]. split.
  - rewrite parse_command_nzero. unfold bind.
    now rewrite parse_command_leaf, Hleaf.
  - rewrite parse_command_zero. unfold bind.
    now rewrite parse_command_leaf, Hleaf.
Qed.

Lemma redirect_in_refused s i env cwd fds serial rest trace :
  s_in s = Some i ->
  redirect_in s (World env cwd fds serial (Opened false :: rest) trace) =
  Returned tt
    (World env cwd fds serial rest
       (trace ++ [EOpen (Some (resolve env i)) O_RDONLY 0 (-1);
                  EDup2 (-1) STDIN_FILENO (-1);
                  EClose (-1) (-1)])).
Proof.
  intros Hi. unfold redirect_in. rewrite Hi.
  unfold bind at 1, get_word. reduce. cbn [from_option].
  apply open_dup2_close_refused.
Qed.

(** X5: an input file that cannot be opened does not stop the command:
    the child passes the -1 of [open] on to [dup2] and [close], which refuse
    it, and loads the program all the same, on the standard input it
    inherited. *)
Theorem unopenable_input_is_ignored :
  forall s name i level father w rest,
    external s = Some name ->
    s_in s = Some i -> s_out s = None -> s_err s = None ->
    w_oracle w = Forked 0 :: Opened false :: Exec_done :: rest ->
    parse_simple (Some s) level father w =
      Halted (Exec name (argv_of (w_env w) s))
        (after w rest
           [EFork 0;
            EOpen (Some (resolve (w_env w) i)) O_RDONLY 0 (-1);
            EDup2 (-1) STDIN_FILENO (-1);
            EClose (-1) (-1);
            EExecvp name (argv_of (w_env w) s) false]).
Proof.
  intros s name i level father w rest Hext Hi Hout Herr Ho.
  rewrite (parse_simple_external _ _ _ _ Hext), (run_external_child _ _ _ _ Ho).
  world w. unfold after. reduce.
  unfold child_redirections.
  unfold bind at 1. rewrite bind_returned with (1 := redirect_in_refused _ _ _ _ _ _ _ _ Hi).
  unfold redirect_out, redirect_err, redirect_both. rewrite Hout, Herr.
  unfold load_program, get_argv, execvp, set_answered, ret, bind. reduce.
  repeat (rewrite <- app_assoc; cbn [app]). reflexivity.
Qed.

Lemma wait_status_of_shifted_code code :
  wait_status (Exits (256 * code)) = 0.
Proof.
  unfold wait_status, W_EXITCODE. rewrite Z.lor_0_r.
  replace 255 with (Z.ones 8) by reflexivity.
  rewrite Z.land_ones by lia. change (2 ^ 8) with 256.
  rewrite Z.mul_comm, Z.mod_mul by lia. reflexivity.
Qed.

Lemma run_in_parallel_first_child
    (f : option command -> Z -> option command -> M Z) c1 c2 l fa w rest :
  w_oracle w = Forked 0 :: rest ->
  run_in_parallel f c1 c2 l fa w =
    (let* rc := f c1 (l + 1) fa in exit rc) (after w rest [EFork 0]).
Proof.
  intros Ho. world w. unfold run_in_parallel, fork, after, set_answered.
  unfold bind at 1. reduce. reflexivity.
Qed.

(** X6: a failing command below [&] is reported as a success.  The first
    child of the parallel runner evaluates an external leaf whose program
    exits with [code]; the leaf returns the status word [256 * code], the
    child passes it to [exit], and the status word its own parent is handed
    for that exit is 0. *)
Theorem failing_leaf_below_parallel_exits_zero :
  forall s name l1 l2 cmd2 level father w pid r code rest,
    external s = Some name ->
    pid <> -1 -> pid <> 0 -> r <> -1 -> 0 <= code < 256 ->
    w_oracle w = Forked 0 :: Forked pid :: Waited r (wait_status (Exits code)) :: rest ->
    run_in_parallel parse_command (Some (Command OP_NONE (Some s) l1 l2)) cmd2
      level father w
    = Halted (Exit (256 * code))
        (after w rest [EFork 0; EFork pid; EWaitpid pid r (wait_status (Exits code))])
    /\ wait_status (Exits (256 * code)) = 0.
Proof.
  intros s name l1 l2 cmd2 level father w pid r code rest Hext Hp1 Hp0 Hr Hc Ho.
  split; [|apply wait_status_of_shifted_code].
  rewrite (run_in_parallel_first_child _ _ _ _ _ _ _ Ho).
  rewrite parse_command_leaf.
  destruct (external_leaf_status s name (level + 1) father
              (after w (Forked pid :: Waited r (wait_status (Exits code)) :: rest) [EFork 0])
              pid rest Hext Hp1 Hp0) as (Hexit & _ & _).
  rewrite (bind_returned _ _ _ _ _ (Hexit r code Hr Hc eq_refl)).
  unfold exit, after. cbn [w_env w_cwd w_fds w_serial w_oracle w_trace].
  now rewrite <- app_assoc.
Qed.

(** ** Appending both streams to one file *)

Lemma out_err_both_merge s o e lit env cwd fds serial rest trace :
  s_out s = Some o -> s_err s = Some e ->
  word_string o = Some lit -> word_string e = Some lit ->
  is_Some (fds !! STDOUT_FILENO) -> is_Some (fds !! STDERR_FILENO) ->
  (redirect_out s ;;; redirect_err s ;;; redirect_both s)
    (World env cwd fds serial (Opened true :: Opened true :: Opened true :: rest) trace)
  = Returned tt
      (World env cwd
         (<[STDERR_FILENO := Ofd (S (S serial)) (File (resolve env o))
                               (Z.lor (Z.lor O_WRONLY O_CREAT) O_TRUNC)]>
            (<[STDOUT_FILENO := Ofd (S (S serial)) (File (resolve env o))
                                  (Z.lor (Z.lor O_WRONLY O_CREAT) O_TRUNC)]> fds))
         (S (S (S serial))) rest
         (trace ++
          [EOpen (Some (resolve env o)) (out_flags s) 420 (lowest_free fds);
           EDup2 (lowest_free fds) STDOUT_FILENO STDOUT_FILENO;
           EClose (lowest_free fds) 0;
           EOpen (Some (resolve env e)) (err_flags s) 420 (lowest_free fds);
           EDup2 (lowest_free fds) STDERR_FILENO STDERR_FILENO;
           EClose (lowest_free fds) 0;
           EOpen (Some (resolve env o)) (Z.lor (Z.lor O_WRONLY O_CREAT) O_TRUNC) 420
             (lowest_free fds);
           EDup2 (lowest_free fds) STDOUT_FILENO STDOUT_FILENO;
           EDup2 (lowest_free fds) STDERR_FILENO STDERR_FILENO;
           EClose (lowest_free fds) 0])).
Proof.
  intros Ho He Hlo Hle Hout Herr.
  assert (Herr1 : forall d, is_Some (<[STDOUT_FILENO := d]> fds !! STDERR_FILENO)).
  { intros d. rewrite lookup_insert_ne by discriminate. exact Herr. }
  rewrite (bind_returned _ _ _ _ _ (redirect_out_opened _ _ _ _ _ _ _ _ Ho Hout)).
  rewrite (bind_returned _ _ _ _ _ (redirect_err_opened _ _ _ _ _ _ _ _ He (Herr1 _))).
  rewrite (redirect_both_merges s o e lit); try assumption.
  - rewrite !lowest_free_insert_open; try assumption; try apply Herr1.
    rewrite rebind_twice by discriminate.
    repeat (rewrite <- app_assoc; cbn [app]). reflexivity.
  - rewrite lookup_insert_ne by discriminate. rewrite lookup_insert_eq. eauto.
  - rewrite lookup_insert_eq. eauto.
Qed.

(** X7: the special case of lines 136-141 does not look at the append
    flags.  A leaf that appends both [out] and [err] to targets with the
    same literal string opens each with [O_APPEND], then opens the [out]
    path a third time with [O_TRUNC] and leaves descriptors 1 and 2 on that
    last description: the file is truncated and neither stream appends. *)
Theorem appending_both_to_one_name_truncates :
  forall s o e lit w rest,
    s_in s = None -> s_out s = Some o -> s_err s = Some e ->
    word_string o = Some lit -> word_string e = Some lit ->
    Z.land (io_flags s) IO_OUT_APPEND <> 0 ->
    Z.land (io_flags s) IO_ERR_APPEND <> 0 ->
    is_Some (w_fds w !! STDOUT_FILENO) -> is_Some (w_fds w !! STDERR_FILENO) ->
    w_oracle w = Opened true :: Opened true :: Opened true :: rest ->
    child_redirections s w =
      Returned tt
        (World (w_env w) (w_cwd w)
           (<[STDERR_FILENO := Ofd (S (S (w_serial w))) (File (resolve (w_env w) o))
                                 (Z.lor (Z.lor O_WRONLY O_CREAT) O_TRUNC)]>
              (<[STDOUT_FILENO := Ofd (S (S (w_serial w))) (File (resolve (w_env w) o))
                                    (Z.lor (Z.lor O_WRONLY O_CREAT) O_TRUNC)]>
                 (w_fds w)))
           (S (S (S (w_serial w)))) rest
           (w_trace w ++
            [EOpen (Some (resolve (w_env w) o)) (Z.lor (Z.lor O_WRONLY O_CREAT) O_APPEND)
               420 (lowest_free (w_fds w));
             EDup2 (lowest_free (w_fds w)) STDOUT_FILENO STDOUT_FILENO;
             EClose (lowest_free (w_fds w)) 0;
             EOpen (Some (resolve (w_env w) e)) (Z.lor (Z.lor O_WRONLY O_CREAT) O_APPEND)
               420 (lowest_free (w_fds w));
             EDup2 (lowest_free (w_fds w)) STDERR_FILENO STDERR_FILENO;
             EClose (lowest_free (w_fds w)) 0;
             EOpen (Some (resolve (w_env w) o)) (Z.lor (Z.lor O_WRONLY O_CREAT) O_TRUNC)
               420 (lowest_free (w_fds w));
             EDup2 (lowest_free (w_fds w)) STDOUT_FILENO STDOUT_FILENO;
             EDup2 (lowest_free (w_fds w)) STDERR_FILENO STDERR_FILENO;
             EClose (lowest_free (w_fds w)) 0]))
    /\ Z.land (Z.lor (Z.lor O_WRONLY O_CREAT) O_TRUNC) O_APPEND = 0.
Proof.
  intros s o e lit w rest Hin Ho He Hlo Hle Hao Hae Hout Herr Horacle.
  split; [|reflexivity].
  unfold child_redirections. unfold bind at 1. unfold redirect_in. rewrite Hin.
  unfold ret at 1. world w.
  rewrite (out_err_both_merge s o e lit) by assumption.
  unfold out_flags, err_flags, truth.
  now rewrite (proj2 (Z.eqb_neq _ _) Hao), (proj2 (Z.eqb_neq _ _) Hae).
Qed.

(** ** The pipe runner: failures and wiring *)

Lemma pipe_ends (fds : gmap Z ofd) d :
  fds !! lowest_free fds = None
  /\ fds !! lowest_free (<[lowest_free fds := d]> fds) = None
  /\ lowest_free (<[lowest_free fds := d]> fds) <> lowest_free fds
  /\ 0 <= lowest_free fds
  /\ 0 <= lowest_free (<[lowest_free fds := d]> fds).
Proof.
  assert (Hne : lowest_free (<[lowest_free fds := d]> fds) <> lowest_free fds).
  { apply lowest_free_not_open. rewrite lookup_insert_eq. eauto. }
  repeat split; try apply lowest_free_nonneg; try apply lowest_free_unused; try exact Hne.
  pose proof (lowest_free_unused (<[lowest_free fds := d]> fds)) as Hw.
  now rewrite lookup_insert_ne in Hw by congruence.
Qed.

(** The parent of the pipe runner once both children exist: both pipe ends
    are closed again and the two waits are all that is left. *)
Lemma run_on_pipe_after_forks cmd1 cmd2 level father w pid1 pid2 rest :
  pid1 <> -1 -> pid1 <> 0 -> pid2 <> -1 -> pid2 <> 0 ->
  w_oracle w = Piped true :: Forked pid1 :: Forked pid2 :: rest ->
  run_on_pipe parse_command cmd1 cmd2 level father w =
    (let* w1 := waitpid pid1 in
     if fst w1 =? -1 then ret false
     else let* w2 := waitpid pid2 in
          if fst w2 =? -1 then ret false else ret (truth (snd w2)))
      (World (w_env w) (w_cwd w) (w_fds w) (S (S (w_serial w))) rest
         (w_trace w ++ [EPipe 0 (pipe_read_end w) (pipe_write_end w); EFork pid1;
                        EClose (pipe_write_end w) 0; EFork pid2;
                        EClose (pipe_read_end w) 0])).
Proof.
  intros Hp1 Hp1' Hp2 Hp2' Ho. world w. unfold pipe_write_end, pipe_read_end. reduce.
  destruct (pipe_ends fds (Ofd serial Pipe_read O_RDONLY))
    as (Hrd & Hwr & Hne & Hrd0 & Hwr0).
  set (d1 := Ofd serial Pipe_read O_RDONLY) in *.
  set (rd := lowest_free fds) in *.
  set (d2 := Ofd (S serial) Pipe_write O_WRONLY).
  set (wr := lowest_free (<[rd := d1]> fds)) in *.
  unfold run_on_pipe. unfold bind at 1. unfold pipe. reduce.
  fold d1 rd d2 wr. change (0 =? -1) with false. cbv iota.
  unfold bind at 1. unfold fork at 1, set_serial, set_fds, set_answered. reduce.
  unfold bind at 1. unfold close at 1, set_fds, set_trace. reduce.
  rewrite description_nonneg by assumption. rewrite lookup_insert_eq.
  rewrite delete_insert_id by (now rewrite lookup_insert_ne by congruence).
  unfold bind at 1. unfold fork, set_answered. reduce.
  unfold bind at 1. unfold close, set_fds, set_trace. reduce.
  rewrite description_nonneg by assumption. rewrite lookup_insert_eq.
  rewrite delete_insert_id by assumption.
  repeat (rewrite <- app_assoc; cbn [app]). reflexivity.
Qed.

(** X8: what the pipe runner does when a call fails.  If [pipe] fails
    nothing else is called.  If the first [fork] fails both pipe ends are
    left open in the process.  If the second [fork] fails the read end is
    left open and the first child, already running, is never waited for.
    If the first [waitpid] fails the second child is never waited for.  The
    result is false each time, also when the second [waitpid] fails. *)
Theorem pipe_runner_failures :
  forall cmd1 cmd2 level father w rest,
    (w_oracle w = Piped false :: rest ->
     run_on_pipe parse_command cmd1 cmd2 level father w =
       Returned false (after w rest [EPipe (-1) 0 0]))
    /\ (w_oracle w = Piped true :: Forked (-1) :: rest ->
        run_on_pipe parse_command cmd1 cmd2 level father w =
          Returned false
            (World (w_env w) (w_cwd w)
               (<[pipe_write_end w := Ofd (S (w_serial w)) Pipe_write O_WRONLY]>
                  (<[pipe_read_end w := Ofd (w_serial w) Pipe_read O_RDONLY]> (w_fds w)))
               (S (S (w_serial w))) rest
               (w_trace w ++ [EPipe 0 (pipe_read_end w) (pipe_write_end w); EFork (-1)])))
    /\ (forall pid1, pid1 <> -1 -> pid1 <> 0 ->
        w_oracle w = Piped true :: Forked pid1 :: Forked (-1) :: rest ->
        run_on_pipe parse_command cmd1 cmd2 level father w =
          Returned false
            (World (w_env w) (w_cwd w)
               (<[pipe_read_end w := Ofd (w_serial w) Pipe_read O_RDONLY]> (w_fds w))
               (S (S (w_serial w))) rest
               (w_trace w ++ [EPipe 0 (pipe_read_end w) (pipe_write_end w); EFork pid1;
                              EClose (pipe_write_end w) 0; EFork (-1)])))
    /\ (forall pid1 pid2 status1,
        pid1 <> -1 -> pid1 <> 0 -> pid2 <> -1 -> pid2 <> 0 ->
        w_oracle w = Piped true :: Forked pid1 :: Forked pid2
                     :: Waited (-1) status1 :: rest ->
        run_on_pipe parse_command cmd1 cmd2 level father w =
          Returned false
            (World (w_env w) (w_cwd w) (w_fds w) (S (S (w_serial w))) rest
               (w_trace w ++ [EPipe 0 (pipe_read_end w) (pipe_write_end w); EFork pid1;
                              EClose (pipe_write_end w) 0; EFork pid2;
                              EClose (pipe_read_end w) 0;
                              EWaitpid pid1 (-1) status1])))
    /\ (forall pid1 pid2 r1 status1 status2,
        pid1 <> -1 -> pid1 <> 0 -> pid2 <> -1 -> pid2 <> 0 -> r1 <> -1 ->
        w_oracle w = Piped true :: Forked pid1 :: Forked pid2
                     :: Waited r1 status1 :: Waited (-1) status2 :: rest ->
        run_on_pipe parse_command cmd1 cmd2 level father w =
          Returned false
            (World (w_env w) (w_cwd w) (w_fds w) (S (S (w_serial w))) rest
               (w_trace w ++ [EPipe 0 (pipe_read_end w) (pipe_write_end w); EFork pid1;
                              EClose (pipe_write_end w) 0; EFork pid2;
                              EClose (pipe_read_end w) 0;
                              EWaitpid pid1 r1 status1;
                              EWaitpid pid2 (-1) status2]))).
Proof.
  intros cmd1 cmd2 level father w rest. split; [|split; [|split; [|split]]].
  4:{ intros pid1 pid2 status1 Hp1 Hp1' Hp2 Hp2' Ho.
      rewrite (run_on_pipe_after_forks _ _ _ _ _ _ _ _ Hp1 Hp1' Hp2 Hp2' Ho).
      unfold bind, waitpid, set_answered, ret. reduce.
      repeat (rewrite <- app_assoc; cbn [app]). reflexivity. }
  4:{ intros pid1 pid2 r1 status1 status2 Hp1 Hp1' Hp2 Hp2' Hr1 Ho.
      rewrite (run_on_pipe_after_forks _ _ _ _ _ _ _ _ Hp1 Hp1' Hp2 Hp2' Ho).
      unfold bind, waitpid, set_answered, ret. reduce.
      repeat (rewrite <- app_assoc; cbn [app]). reflexivity. }
  - intros Ho. world w.
    unfold run_on_pipe, bind, pipe, after, set_answered, ret. reduce. reflexivity.
  - intros Ho. world w. unfold pipe_write_end, pipe_read_end. reduce.
    unfold run_on_pipe, bind, pipe, fork, set_serial, set_fds, set_answered, ret.
    reduce. change (0 =? -1) with false. cbv iota. reduce.
    change (-1 =? -1) with true. cbv iota.
    repeat (rewrite <- app_assoc; cbn [app]). reflexivity.
  - intros pid1 Hp1 Hp0 Ho. world w. unfold pipe_write_end, pipe_read_end. reduce.
    destruct (pipe_ends fds (Ofd serial Pipe_read O_RDONLY))
      as (Hrd & Hwr & Hne & Hrd0 & Hwr0).
    unfold run_on_pipe, bind, pipe. reduce. change (0 =? -1) with false. cbv iota.
    unfold fork at 1, set_serial, set_fds, set_answered. reduce.
    unfold close at 1. reduce. rewrite description_fresh.
    rewrite delete_insert_id by apply lowest_free_unused.
    unfold fork, set_fds, set_trace, set_answered, ret. reduce.
    change (-1 =? -1) with true. cbv iota.
    repeat (rewrite <- app_assoc; cbn [app]). reflexivity.
Qed.

(** X9: how the two children of the pipe runner are wired, in a process
    whose descriptors 0 and 1 are open.  The first child closes the read
    end, puts the write end on descriptor 1, closes the spare copy and
    evaluates [cmd1]; the second child puts the read end on descriptor 0,
    closes the spare copy and evaluates [cmd2] (the write end was closed by
    the parent before this [fork]).  Each ends with [exit] on the result of
    its subtree, and in each the only pipe descriptor left is the one on
    the standard stream. *)
Theorem pipe_children_are_wired :
  forall cmd1 cmd2 level father w rest,
    (is_Some (w_fds w !! STDOUT_FILENO) ->
     w_oracle w = Piped true :: Forked 0 :: rest ->
     run_on_pipe parse_command cmd1 cmd2 level father w =
       (let* rc := parse_command cmd1 (level + 1) father in exit rc)
         (World (w_env w) (w_cwd w)
            (<[STDOUT_FILENO := Ofd (S (w_serial w)) Pipe_write O_WRONLY]> (w_fds w))
            (S (S (w_serial w))) rest
            (w_trace w ++ [EPipe 0 (pipe_read_end w) (pipe_write_end w); EFork 0;
                           EClose (pipe_read_end w) 0;
                           EDup2 (pipe_write_end w) STDOUT_FILENO STDOUT_FILENO;
                           EClose (pipe_write_end w) 0])))
    /\ (forall pid1, pid1 <> -1 -> pid1 <> 0 ->
        is_Some (w_fds w !! STDIN_FILENO) ->
        w_oracle w = Piped true :: Forked pid1 :: Forked 0 :: rest ->
        run_on_pipe parse_command cmd1 cmd2 level father w =
          (let* rc := parse_command cmd2 (level + 1) father in exit rc)
            (World (w_env w) (w_cwd w)
               (<[STDIN_FILENO := Ofd (w_serial w) Pipe_read O_RDONLY]> (w_fds w))
               (S (S (w_serial w))) rest
               (w_trace w ++ [EPipe 0 (pipe_read_end w) (pipe_write_end w); EFork pid1;
                              EClose (pipe_write_end w) 0; EFork 0;
                              EDup2 (pipe_read_end w) STDIN_FILENO STDIN_FILENO;
                              EClose (pipe_read_end w) 0]))).
Proof.
  intros cmd1 cmd2 level father w rest. split.
  - intros Hout Ho. world w. unfold pipe_write_end, pipe_read_end. reduce.
    destruct (pipe_ends fds (Ofd serial Pipe_read O_RDONLY))
      as (Hrd & Hwr & Hne & Hrd0 & Hwr0).
    set (d1 := Ofd serial Pipe_read O_RDONLY) in *.
    set (rd := lowest_free fds) in *.
    set (d2 := Ofd (S serial) Pipe_write O_WRONLY).
    set (wr := lowest_free (<[rd := d1]> fds)) in *.
    assert (Hrd1 : rd <> STDOUT_FILENO) by now apply lowest_free_not_open.
    assert (Hwr1 : wr <> STDOUT_FILENO).
    { apply lowest_free_not_open. now rewrite lookup_insert_ne. }
    unfold run_on_pipe. unfold bind at 1. unfold pipe. reduce.
    fold d1 rd d2 wr. change (0 =? -1) with false. cbv iota.
    unfold bind at 1. unfold fork, set_serial, set_fds, set_answered. reduce.
    change (0 =? -1) with false. change (0 =? 0) with true. cbv iota.
    unfold bind at 1. unfold close at 1, set_fds, set_trace. reduce.
    rewrite description_nonneg by assumption.
    rewrite lookup_insert_ne by congruence. rewrite lookup_insert_eq.
    rewrite delete_insert_ne by congruence.
    rewrite delete_insert_id by assumption.
    unfold bind at 1. unfold dup2, set_fds, set_trace. reduce.
    rewrite description_nonneg by assumption. rewrite lookup_insert_eq.
    change (STDOUT_FILENO <? 0) with false. cbv iota.
    unfold bind at 1. unfold close, set_fds, set_trace. reduce.
    rewrite description_nonneg by assumption.
    rewrite lookup_insert_ne by congruence. rewrite lookup_insert_eq.
    rewrite delete_insert_ne by congruence.
    rewrite delete_insert_id by assumption.
    repeat (rewrite <- app_assoc; cbn [app]). reflexivity.
  - intros pid1 Hp1 Hp0 Hin Ho. world w. unfold pipe_write_end, pipe_read_end. reduce.
    destruct (pipe_ends fds (Ofd serial Pipe_read O_RDONLY))
      as (Hrd & Hwr & Hne & Hrd0 & Hwr0).
    set (d1 := Ofd serial Pipe_read O_RDONLY) in *.
    set (rd := lowest_free fds) in *.
    set (d2 := Ofd (S serial) Pipe_write O_WRONLY).
    set (wr := lowest_free (<[rd := d1]> fds)) in *.
    assert (Hrd1 : rd <> STDIN_FILENO) by now apply lowest_free_not_open.
    unfold run_on_pipe. unfold bind at 1. unfold pipe. reduce.
    fold d1 rd d2 wr. change (0 =? -1) with false. cbv iota.
    unfold bind at 1. unfold fork at 1, set_serial, set_fds, set_answered. reduce.
    unfold bind at 1. unfold close at 1, set_fds, set_trace. reduce.
    rewrite description_nonneg by assumption. rewrite lookup_insert_eq.
    rewrite delete_insert_id by (now rewrite lookup_insert_ne by congruence).
    unfold bind at 1. unfold fork, set_answered. reduce.
    change (0 =? -1) with false. change (0 =? 0) with true. cbv iota.
    unfold bind at 1. unfold dup2, set_fds, set_trace. reduce.
    rewrite description_nonneg by assumption. rewrite lookup_insert_eq.
    change (STDIN_FILENO <? 0) with false. cbv iota.
    unfold bind at 1. unfold close, set_fds, set_trace. reduce.
    rewrite description_nonneg by assumption.
    rewrite lookup_insert_ne by congruence. rewrite lookup_insert_eq.
    rewrite delete_insert_ne by congruence.
    rewrite delete_insert_id by assumption.
    repeat (rewrite <- app_assoc; cbn [app]). reflexivity.
Qed.

(** ** Environment assignment *)

(** X10: an assignment [name=value] whose name is no builtin and is one
    [setenv] accepts binds [name] to the resolved value in the environment
    of the evaluating process, replacing any earlier value, and returns 0;
    it makes no system call and changes nothing else. *)
Theorem assignment_sets_the_variable :
  forall s v eq name level father w,
    verb s = Some v -> word_string v = Some name ->
    next_part v = Some eq -> word_string eq = Some "="%string ->
    name <> "cd"%string -> name <> "exit"%string -> name <> "quit"%string ->
    name <> ""%string -> has_equals name = false ->
    parse_simple (Some s) level father w =
      Returned 0
        (set_env w (<[name := from_option (resolve (w_env w)) ""%string (next_part eq)]>
                      (w_env w))).
Proof.
  intros s v eq name level father w Hv Hname Heq Hsign Hcd Hexit Hquit Hne Hvalid.
  unfold parse_simple. rewrite Hv. unfold bind at 1, deref. rewrite Hname.
  rewrite (proj2 (String.eqb_neq _ _) Hcd), (proj2 (String.eqb_neq _ _) Hexit),
    (proj2 (String.eqb_neq _ _) Hquit). cbn [orb].
  rewrite Heq. unfold bind at 1. rewrite Hsign.
  change (String.eqb "=" "=") with true. cbv iota.
  unfold bind, get_word, setenv.
  rewrite (proj2 (String.eqb_neq _ _) Hne), Hvalid. cbn [orb].
  now destruct (w_env w !! name).
Qed.

(** ** What a [cd] leaf leaves alone *)

Lemma open_close_keeps_fds path flags mode :
  keeps w_fds (let* fd := open path flags mode in close fd ;;; ret tt).
Proof.
  intros w. world w.
  unfold bind, open, close, ret, set_serial, set_fds, set_answered, set_trace.
  destruct path as [p|]; [|reflexivity].
  destruct oracle as [|[| | | | |[]|] ?]; try reflexivity. reduce.
  rewrite description_fresh. reduce.
  apply delete_insert_id, lowest_free_unused.
Qed.

Lemma open_dup2_close_keeps_others path flags mode target :
  keeps (fun w => delete target (w_fds w))
        (let* fd := open path flags mode in dup2 fd target ;;; close fd ;;; ret tt).
Proof.
  intros w. world w.
  unfold bind, open, dup2, close, ret, set_serial, set_fds, set_answered, set_trace.
  destruct path as [p|]; [|reflexivity].
  destruct oracle as [|[| | | | |[]|] ?]; try reflexivity. reduce.
  rewrite description_fresh.
  destruct (target <? 0) eqn:Hneg; reduce.
  - rewrite description_fresh. reduce.
    now rewrite delete_insert_id by apply lowest_free_unused.
  - rewrite description_nonneg by apply lowest_free_nonneg.
    destruct (decide (target = lowest_free fds)) as [->|Hne].
    + rewrite lookup_insert_eq. reduce.
      rewrite delete_insert_eq. rewrite delete_insert_eq.
      now rewrite delete_delete_eq.
    + rewrite lookup_insert_ne by congruence. rewrite lookup_insert_eq. reduce.
      rewrite (delete_insert_ne _ (lowest_free fds) target) by congruence.
      rewrite (delete_insert_id fds (lowest_free fds)) by apply lowest_free_unused.
      apply delete_insert_eq.
Qed.

Lemma keeps_fds_keeps_others {A} (m : M A) k :
  keeps w_fds m -> keeps (fun w => delete k (w_fds w)) m.
Proof. intros H w. cbv beta. now rewrite H. Qed.

(** X11: a [cd] leaf, whatever its targets and whatever the system
    answers, leaves every descriptor other than 2 exactly as it was, and
    leaves the environment as it was. *)
Theorem cd_leaf_touches_only_descriptor_2 :
  forall s v level father w k,
    verb s = Some v -> word_string v = Some "cd"%string ->
    k <> STDERR_FILENO ->
    w_fds (world_of (parse_simple (Some s) level father w)) !! k = w_fds w !! k
    /\ w_env (world_of (parse_simple (Some s) level father w)) = w_env w.
Proof.
  intros s v level father w k Hv Hname Hk.
  rewrite (parse_simple_cd _ _ _ _ Hv Hname). split.
  - assert (Hkeeps : keeps (fun w => delete STDERR_FILENO (w_fds w))
               (cd_redirections s ;;;
                let* ok := shell_cd (params s) in ret (Z.b2z (negb ok)))).
    { apply keeps_bind.
      - unfold cd_redirections. apply keeps_bind.
        + apply keeps_fds_keeps_others. unfold cd_open_in.
          destruct (s_in s); [apply open_close_keeps_fds|apply keeps_ret].
        + intros _. apply keeps_bind.
          * apply keeps_fds_keeps_others. unfold cd_open_out.
            destruct (s_out s); [apply open_close_keeps_fds|apply keeps_ret].
          * intros _. unfold cd_open_err.
            destruct (s_err s); [apply open_dup2_close_keeps_others|apply keeps_ret].
      - intros _. apply keeps_fds_keeps_others.
        apply keeps_bind; [apply shell_cd_keeps_fds|]. intros ok. apply keeps_ret. }
    specialize (Hkeeps w). cbv beta in Hkeeps.
    apply (f_equal (fun m => m !! k)) in Hkeeps.
    now rewrite !lookup_delete_ne in Hkeeps by congruence.
  - assert (Hk' : keeps w_env
             (cd_redirections s ;;;
              let* ok := shell_cd (params s) in ret (Z.b2z (negb ok)))).
    { apply keeps_bind; [apply cd_redirections_keep_env|]. intros _.
      apply keeps_bind; [apply shell_cd_keeps_env|]. intros ok. apply keeps_ret. }
    apply Hk'.
Qed.

(** ** Who forks *)

Lemma only_nothing {A} P (m : M A) :
  (forall w, w_trace (world_of (m w)) = w_trace w) -> only P m.
Proof. intros H w. exists []. rewrite H. now rewrite app_nil_r. Qed.

Lemma only_one {A} P (m : M A) :
  (forall w, w_trace (world_of (m w)) = w_trace w
             \/ exists e, w_trace (world_of (m w)) = w_trace w ++ [e] /\ P e = true) ->
  only P m.
Proof.
  intros H w. destruct (H w) as [Hsame|(e & He & HP)].
  - exists []. rewrite Hsame. now rewrite app_nil_r.
  - exists [e]. split; [exact He|]. cbn. now rewrite HP.
Qed.

Lemma only_bind {A B} P (m : M A) (k : A -> M B) :
  only P m -> (forall a, only P (k a)) -> only P (bind m k).
Proof.
  intros Hm Hk w. unfold bind. destruct (Hm w) as (evs & Hevs & HP).
  destruct (m w) as [a wi|h wi]; cbn [world_of] in *; [|now exists evs].
  destruct (Hk a wi) as (evs' & Hevs' & HP'). exists (evs ++ evs'). split.
  - now rewrite Hevs', Hevs, app_assoc.
  - rewrite forallb_app. now rewrite HP, HP'.
Qed.

Lemma only_ret {A} P (a : A) : only P (ret a).
Proof. now apply only_nothing. Qed.

Lemma only_deref {A} P (p : option A) : only P (deref p).
Proof. apply only_nothing. intros w. unfold deref. now destruct p. Qed.

Lemma only_exit {A} P code : only P (exit code : M A).
Proof. now apply only_nothing. Qed.

Lemma only_getenv P name : only P (getenv name).
Proof. now apply only_nothing. Qed.

Lemma only_get_word P word : only P (get_word word).
Proof. now apply only_nothing. Qed.

Lemma only_setenv P name value overwrite : only P (setenv name value overwrite).
Proof.
  apply only_nothing. intros w. unfold setenv.
  destruct (String.eqb name "" || has_equals name); [reflexivity|].
  destruct (w_env w !! name); [|reflexivity]. now destruct (overwrite =? 0).
Qed.

Lemma local_chdir path : only local_call (chdir path).
Proof.
  apply only_one. intros w. unfold chdir. destruct path as [p|].
  - destruct (w_oracle w) as [|[| | | | | |[]] ?]; try (now left);
      right; eexists; split; reflexivity.
  - right. eexists. split; reflexivity.
Qed.

Lemma local_open path flags mode : only local_call (open path flags mode).
Proof.
  apply only_one. intros w. unfold open. destruct path as [p|].
  - destruct (w_oracle w) as [|[| | | | |[]|] ?]; try (now left);
      right; eexists; split; reflexivity.
  - right. eexists. split; reflexivity.
Qed.

Lemma local_close fd : only local_call (close fd).
Proof.
  apply only_one. intros w. unfold close. right.
  destruct (description (w_fds w) fd); eexists; split; reflexivity.
Qed.

Lemma local_dup2 oldfd newfd : only local_call (dup2 oldfd newfd).
Proof.
  apply only_one. intros w. unfold dup2. right.
  destruct (description (w_fds w) oldfd); [destruct (newfd <? 0)|];
    eexists; split; reflexivity.
Qed.

Ltac locally :=
  repeat first
    [ apply only_ret | apply only_deref | apply only_exit | apply only_getenv
    | apply only_get_word | apply only_setenv
    | apply local_chdir | apply local_open | apply local_close | apply local_dup2
    | apply only_bind; [|intros ?]
    | match goal with
      | |- only _ (if ?c then _ else _) => destruct c
      | |- only _ (match ?x with _ => _ end) => destruct x
      end ].

Lemma only_after_deref {A B} P (a : A) (k : A -> M B) :
  only P (k a) -> only P (bind (deref (Some a)) k).
Proof. intros H w. exact (H w). Qed.

Lemma only_deref_null {A B} P (k : A -> M B) : only P (bind (deref None) k).
Proof. now apply only_nothing. Qed.

(** X12: [parse_simple] forks for external commands only.  For every
    other leaf (a builtin, an assignment, a leaf with no verb) all the calls
    it makes are [open], [close], [dup2] and [chdir]: no [fork], no
    [waitpid], no [execvp], no [pipe], no write. *)
Theorem only_external_leaves_fork :
  forall s level father,
    external s = None ->
    only local_call (parse_simple (Some s) level father).
Proof.
  intros s level father Hext. unfold external in Hext. unfold parse_simple.
  destruct (verb s) as [v|]; [|apply only_ret].
  destruct (word_string v) as [name|]; [|apply only_deref_null].
  apply only_after_deref.
  destruct (String.eqb name "cd").
  { unfold cd_redirections, cd_open_in, cd_open_out, cd_open_err, shell_cd.
    cbv zeta. locally. }
  destruct (String.eqb name "exit" || String.eqb name "quit").
  { unfold shell_exit. locally. }
  destruct (next_part v) as [eq|]; [|discriminate].
  destruct (word_string eq) as [sign|]; [|apply only_deref_null].
  apply only_after_deref.
  destruct (String.eqb sign "="); [|discriminate]. locally.
Qed.

(** ** Runners that could not start *)

(** The two runners when their first call fails. *)
Lemma run_in_parallel_unstarted cmd1 cmd2 level father w rest :
  w_oracle w = Forked (-1) :: rest ->
  run_in_parallel parse_command cmd1 cmd2 level father w =
    Returned false (after w rest [EFork (-1)]).
Proof.
  intros Ho. world w.
  unfold run_in_parallel, bind, fork, after, set_answered, ret. reduce. reflexivity.
Qed.

Lemma run_on_pipe_unstarted cmd1 cmd2 level father w rest :
  w_oracle w = Piped false :: rest ->
  run_on_pipe parse_command cmd1 cmd2 level father w =
    Returned false (after w rest [EPipe (-1) 0 0]).
Proof.
  intros Ho. world w.
  unfold run_on_pipe, bind, pipe, after, set_answered, ret. reduce. reflexivity.
Qed.

(** X13: a runner that could not start its children reads as a success.
    [run_in_parallel] answers a failed first [fork], and [run_on_pipe] a
    failed [pipe], with [false], which [parse_command] returns as status 0:
    below [&&] the right-hand side is then run, and below [||] it is
    skipped, although neither command of the node was started. *)
Theorem unstarted_runner_reads_as_success :
  forall leaf leaf' c1 c2 c3 level father w rest,
    (w_oracle w = Forked (-1) :: rest ->
     parse_command (Some (Command OP_PARALLEL leaf c1 c2)) level father w
       = Returned 0 (after w rest [EFork (-1)])
     /\ parse_command
          (Some (Command OP_CONDITIONAL_ZERO leaf'
                   (Some (Command OP_PARALLEL leaf c1 c2)) c3)) level father w
        = parse_command c3 (level + 1)
            (Some (Command OP_CONDITIONAL_ZERO leaf'
                     (Some (Command OP_PARALLEL leaf c1 c2)) c3))
            (after w rest [EFork (-1)])
     /\ parse_command
          (Some (Command OP_CONDITIONAL_NZERO leaf'
                   (Some (Command OP_PARALLEL leaf c1 c2)) c3)) level father w
        = Returned 0 (after w rest [EFork (-1)]))
    /\ (w_oracle w = Piped false :: rest ->
        parse_command (Some (Command OP_PIPE leaf c1 c2)) level father w
          = Returned 0 (after w rest [EPipe (-1) 0 0])
        /\ parse_command
             (Some (Command OP_CONDITIONAL_ZERO leaf'
                      (Some (Command OP_PIPE leaf c1 c2)) c3)) level father w
           = parse_command c3 (level + 1)
               (Some (Command OP_CONDITIONAL_ZERO leaf'
                        (Some (Command OP_PIPE leaf c1 c2)) c3))
               (after w rest [EPipe (-1) 0 0])
        /\ parse_command
             (Some (Command OP_CONDITIONAL_NZERO leaf'
                      (Some (Command OP_PIPE leaf c1 c2)) c3)) level father w
           = Returned 0 (after w rest [EPipe (-1) 0 0])).
Proof.
  intros leaf leaf' c1 c2 c3 level father w rest. split; intros Ho.
  - assert (Hnode : forall l f,
      parse_command (Some (Command OP_PARALLEL leaf c1 c2)) l f w
      = Returned 0 (after w rest [EFork (-1)])).
    { intros l f. rewrite parse_command_parallel. unfold bind.
      now rewrite (run_in_parallel_unstarted _ _ _ _ _ _ Ho). }
    split; [apply Hnode|]. split.
    + rewrite parse_command_zero. unfold bind at 1. now rewrite Hnode.
    + rewrite parse_command_nzero. unfold bind at 1. now rewrite Hnode.
  - assert (Hnode : forall l f,
      parse_command (Some (Command OP_PIPE leaf c1 c2)) l f w
      = Returned 0 (after w rest [EPipe (-1) 0 0])).
    { intros l f. rewrite parse_command_pipe. unfold bind.
      now rewrite (run_on_pipe_unstarted _ _ _ _ _ _ Ho). }
    split; [apply Hnode|]. split.
    + rewrite parse_command_zero. unfold bind at 1. now rewrite Hnode.
    + rewrite parse_command_nzero. unfold bind at 1. now rewrite Hnode.
Qed.

(** ** The descriptor numbers in use *)

Lemma stays_ret {A} I (a : A) : stays I (ret a).
Proof. intros w H. exact H. Qed.

Lemma stays_bind {A B} I (m : M A) (k : A -> M B) :
  stays I m -> (forall a, stays I (k a)) -> stays I (bind m k).
Proof.
  intros Hm Hk w Hw. unfold bind. specialize (Hm w Hw).
  destruct (m w) as [a wi|h wi]; cbn [world_of] in *; [|exact Hm].
  now apply Hk.
Qed.

Lemma stays_keeps {A} D (m : M A) : keeps w_fds m -> stays (open_set D) m.
Proof. intros H w Hw. unfold open_set in *. now rewrite H. Qed.

Lemma keeps_get_word {X} (f : world -> X) x : keeps f (get_word x).
Proof. intros w. reflexivity. Qed.

Lemma keeps_get_argv {X} (f : world -> X) s : keeps f (get_argv s).
Proof. intros w. reflexivity. Qed.

Lemma keeps_exit {X A} (f : world -> X) code : keeps f (exit (A:=A) code).
Proof. intros w. reflexivity. Qed.

Lemma setenv_keeps_fds name value overwrite : keeps w_fds (setenv name value overwrite).
Proof.
  intros w. unfold setenv.
  destruct (String.eqb name "" || has_equals name); [reflexivity|].
  destruct (w_env w !! name); [destruct (overwrite =? 0)|]; reflexivity.
Qed.

Lemma fork_keeps_fds : keeps w_fds fork.
Proof.
  intros w. unfold fork. destruct (w_oracle w) as [|[] ?]; reflexivity.
Qed.

Lemma waitpid_keeps_fds pid : keeps w_fds (waitpid pid).
Proof.
  intros w. unfold waitpid. destruct (w_oracle w) as [|[] ?]; reflexivity.
Qed.

Lemma execvp_keeps_fds file argv : keeps w_fds (execvp file argv).
Proof.
  intros w. unfold execvp. destruct (w_oracle w) as [|[] ?]; reflexivity.
Qed.

Lemma fprintf_keeps_fds text : keeps w_fds (fprintf_stderr text).
Proof. intros w. reflexivity. Qed.

(** [open], [dup2] onto a descriptor in use, [close]: the numbers in use
    are the same afterwards, whatever [open] answered. *)
Lemma rebinding_stays D path flags mode target :
  0 <= target -> target ∈ D ->
  stays (open_set D)
    (let* fd := open path flags mode in dup2 fd target ;;; close fd ;;; ret tt).
Proof.
  intros Ht HD w Hw. world w. unfold open_set in *. cbn [w_fds] in Hw.
  assert (Htarget : (target <? 0) = false) by now apply Z.ltb_ge.
  unfold bind, open, dup2, close, ret, set_serial, set_fds, set_answered, set_trace.
  destruct path as [p|]; [|exact Hw].
  destruct oracle as [|[| | | | |[]|] ?]; try exact Hw. reduce.
  rewrite description_fresh, Htarget. reduce.
  assert (Hfresh : lowest_free fds ∉ dom fds).
  { apply not_elem_of_dom, lowest_free_unused. }
  assert (Hne : target <> lowest_free fds) by (intros ->; now rewrite Hw in Hfresh).
  rewrite description_nonneg by apply lowest_free_nonneg.
  rewrite lookup_insert_ne by congruence. rewrite lookup_insert_eq. reduce.
  rewrite (delete_insert_ne _ (lowest_free fds) target) by congruence.
  rewrite (delete_insert_id fds (lowest_free fds)) by apply lowest_free_unused.
  rewrite <- Hw in HD |- *. now apply dom_insert_lookup_L, elem_of_dom.
Qed.

(** The same with two [dup2]s, as in lines 138-140. *)
Lemma rebinding_both_stays D path flags mode t1 t2 :
  0 <= t1 -> t1 ∈ D -> 0 <= t2 -> t2 ∈ D ->
  stays (open_set D)
    (let* fd := open path flags mode in
     dup2 fd t1 ;;; dup2 fd t2 ;;; close fd ;;; ret tt).
Proof.
  intros Ht1 HD1 Ht2 HD2 w Hw. world w. unfold open_set in *. cbn [w_fds] in Hw.
  assert (Hn1 : (t1 <? 0) = false) by now apply Z.ltb_ge.
  assert (Hn2 : (t2 <? 0) = false) by now apply Z.ltb_ge.
  unfold bind, open, dup2, close, ret, set_serial, set_fds, set_answered, set_trace.
  destruct path as [p|]; [|exact Hw].
  destruct oracle as [|[| | | | |[]|] ?]; try exact Hw. reduce.
  rewrite description_fresh, Hn1. reduce.
  assert (Hfresh : lowest_free fds ∉ dom fds).
  { apply not_elem_of_dom, lowest_free_unused. }
  assert (Hne1 : t1 <> lowest_free fds) by (intros ->; now rewrite Hw in Hfresh).
  assert (Hne2 : t2 <> lowest_free fds) by (intros ->; now rewrite Hw in Hfresh).
  rewrite description_nonneg by apply lowest_free_nonneg.
  rewrite lookup_insert_ne by congruence. rewrite lookup_insert_eq, Hn2. reduce.
  rewrite description_nonneg by apply lowest_free_nonneg.
  rewrite lookup_insert_ne by congruence.
  rewrite lookup_insert_ne by congruence. rewrite lookup_insert_eq. reduce.
  rewrite (delete_insert_ne _ (lowest_free fds) t2) by congruence.
  rewrite (delete_insert_ne _ (lowest_free fds) t1) by congruence.
  rewrite (delete_insert_id fds (lowest_free fds)) by apply lowest_free_unused.
  rewrite <- Hw in HD1, HD2 |- *. apply elem_of_dom in HD1, HD2.
  destruct (decide (t2 = t1)) as [->|Hne].
  - rewrite insert_insert_eq. now apply dom_insert_lookup_L.
  - rewrite dom_insert_lookup_L by now rewrite lookup_insert_ne by congruence.
    now apply dom_insert_lookup_L.
Qed.

Ltac steady :=
  repeat first
    [ apply stays_ret
    | apply stays_keeps;
      first [ apply keeps_ret | apply keeps_deref | apply keeps_getenv
            | apply keeps_get_word | apply keeps_get_argv | apply keeps_exit
            | apply setenv_keeps_fds | apply fork_keeps_fds | apply waitpid_keeps_fds
            | apply execvp_keeps_fds | apply fprintf_keeps_fds
            | apply shell_cd_keeps_fds | apply open_close_keeps_fds ]
    | match goal with
      | |- stays _ (bind (if ?c then _ else _) _) => destruct c
      end
    | apply rebinding_stays; [done | assumption]
    | apply rebinding_both_stays; [done | assumption | done | assumption]
    | apply stays_bind; [|intros ?]
    | match goal with
      | |- stays _ (if ?c then _ else _) => destruct c
      | |- stays _ (match ?x with _ => _ end) => destruct x
      end ].

(** X14: no leaf leaks a descriptor.  In a process whose descriptors 0, 1
    and 2 are in use, the descriptor numbers in use after [parse_simple] are
    the ones in use before, in the shell and in the child of an external
    command up to and including its [execvp] or [exit], for every leaf and
    whatever the system answers: each descriptor a redirection opens is
    closed again. *)
Theorem leaf_leaks_no_descriptor :
  forall s level father w,
    is_Some (w_fds w !! STDIN_FILENO) ->
    is_Some (w_fds w !! STDOUT_FILENO) ->
    is_Some (w_fds w !! STDERR_FILENO) ->
    dom (w_fds (world_of (parse_simple s level father w))) = dom (w_fds w).
Proof.
  intros s level father w H0 H1 H2.
  apply elem_of_dom in H0, H1, H2.
  assert (Hstays : stays (open_set (dom (w_fds w))) (parse_simple s level father)).
  { generalize dependent (dom (w_fds w)). intros D H0 H1 H2.
    unfold parse_simple, shell_exit, run_external, load_program,
      cd_redirections, cd_open_in, cd_open_out, cd_open_err,
      child_redirections, redirect_in, redirect_out, redirect_err, redirect_both.
    steady. }
  now apply Hstays.
Qed.

(** ** The descriptor numbers in use, across a tree *)

Lemma hoare_ret {A} (P : world -> Prop) (a : A) (Q : A -> world -> Prop) E :
  (forall w, P w -> Q a w) -> hoare P (ret a) Q E.
Proof. intros H w Hw. now apply H. Qed.

Lemma hoare_exit {A} (P : world -> Prop) code (Q : A -> world -> Prop) (E : world -> Prop) :
  (forall w, P w -> E w) -> hoare P (exit code) Q E.
Proof. intros H w Hw. now apply H. Qed.

Lemma hoare_bind {A B} P (m : M A) Q (k : A -> M B) R E :
  hoare P m Q E -> (forall a, hoare (Q a) (k a) R E) -> hoare P (bind m k) R E.
Proof.
  intros Hm Hk w Hw. unfold bind. specialize (Hm w Hw).
  destruct (m w) as [a wi|h wi]; [now apply Hk|exact Hm].
Qed.

Lemma hoare_assume {A} (fact : Prop) P (m : M A) Q E :
  (fact -> hoare P m Q E) -> hoare (fun w => fact /\ P w) m Q E.
Proof. intros H w [Hfact Hw]. now apply H. Qed.

Lemma hoare_tidy_eq {A} X Y (m : M A) Q E :
  X = Y -> hoare (tidy Y) m Q E -> hoare (tidy X) m Q E.
Proof. now intros ->. Qed.

Lemma stays_hoare {A} I (m : M A) : stays I m -> hoare I m (fun _ => I) I.
Proof.
  intros H w Hw. specialize (H w Hw).
  destruct (m w) as [a wi|[] wi]; try exact H. exact Logic.I.
Qed.

Lemma stays_and {A} (I J : world -> Prop) (m : M A) :
  stays I m -> stays J m -> stays (fun w => I w /\ J w) m.
Proof. intros HI HJ w [Hi Hj]. split; [now apply HI|now apply HJ]. Qed.

(** No call puts a failing [fork] into the answers still to come. *)
Lemma calm_keeps {A} (m : M A) : keeps w_oracle m -> stays forks_succeed m.
Proof. intros H w Hw. unfold forks_succeed in *. now rewrite H. Qed.

Lemma close_keeps_oracle fd : keeps w_oracle (close fd).
Proof. intros w. unfold close. now destruct (description (w_fds w) fd). Qed.

Lemma dup2_keeps_oracle oldfd newfd : keeps w_oracle (dup2 oldfd newfd).
Proof.
  intros w. unfold dup2. destruct (description (w_fds w) oldfd); [|reflexivity].
  now destruct (newfd <? 0).
Qed.

Lemma setenv_keeps_oracle name value overwrite :
  keeps w_oracle (setenv name value overwrite).
Proof.
  intros w. unfold setenv.
  destruct (String.eqb name "" || has_equals name); [reflexivity|].
  destruct (w_env w !! name); [destruct (overwrite =? 0)|]; reflexivity.
Qed.

Lemma fprintf_keeps_oracle text : keeps w_oracle (fprintf_stderr text).
Proof. intros w. reflexivity. Qed.

Lemma calm_fork : stays forks_succeed fork.
Proof.
  intros w Hw. unfold forks_succeed, fork in *. world w.
  destruct oracle as [|[] ?]; try exact Hw. exact (Forall_inv_tail Hw).
Qed.

Lemma calm_waitpid pid : stays forks_succeed (waitpid pid).
Proof.
  intros w Hw. unfold forks_succeed, waitpid in *. world w.
  destruct oracle as [|[] ?]; try exact Hw. exact (Forall_inv_tail Hw).
Qed.

Lemma calm_execvp file argv : stays forks_succeed (execvp file argv).
Proof.
  intros w Hw. unfold forks_succeed, execvp in *. world w.
  destruct oracle as [|[] ?]; try exact Hw; exact (Forall_inv_tail Hw).
Qed.

Lemma calm_open path flags mode : stays forks_succeed (open path flags mode).
Proof.
  intros w Hw. unfold forks_succeed, open in *. world w.
  destruct path as [p|]; [|exact Hw].
  destruct oracle as [|[| | | | |[]|] ?]; try exact Hw;
    exact (Forall_inv_tail Hw).
Qed.

Lemma calm_chdir path : stays forks_succeed (chdir path).
Proof.
  intros w Hw. unfold forks_succeed, chdir in *. world w.
  destruct path as [p|]; [|exact Hw].
  destruct oracle as [|[| | | | | |[]] ?]; try exact Hw;
    exact (Forall_inv_tail Hw).
Qed.

Ltac calmly :=
  repeat first
    [ apply stays_ret
    | apply calm_fork | apply calm_waitpid | apply calm_execvp
    | apply calm_open | apply calm_chdir
    | apply calm_keeps;
      first [ apply keeps_ret | apply keeps_deref | apply keeps_getenv
            | apply keeps_get_word | apply keeps_get_argv | apply keeps_exit
            | apply setenv_keeps_oracle | apply fprintf_keeps_oracle
            | apply close_keeps_oracle | apply dup2_keeps_oracle ]
    | apply stays_bind; [|intros ?]
    | match goal with
      | |- stays _ (if ?c then _ else _) => destruct c
      | |- stays _ (match ?x with _ => _ end) => destruct x
      end ].

Lemma parse_simple_tidy D s level father :
  STDIN_FILENO ∈ D -> STDOUT_FILENO ∈ D -> STDERR_FILENO ∈ D ->
  stays (tidy D) (parse_simple s level father).
Proof.
  intros H0 H1 H2. apply (stays_and (open_set D) forks_succeed).
  - unfold parse_simple, shell_exit, run_external, load_program,
      cd_redirections, cd_open_in, cd_open_out, cd_open_err,
      child_redirections, redirect_in, redirect_out, redirect_err, redirect_both.
    steady.
  - unfold parse_simple, shell_exit, shell_cd, run_external, load_program,
      cd_redirections, cd_open_in, cd_open_out, cd_open_err,
      child_redirections, redirect_in, redirect_out, redirect_err, redirect_both.
    calmly.
Qed.

(** What the calls of the two runners do to the numbers in use. *)
Lemma pipe_spec D E :
  hoare (tidy D) pipe
    (fun p w' =>
       if fst p =? -1 then tidy D w'
       else ((fst (snd p) ∉ D) /\ (snd (snd p) ∉ D) /\ snd (snd p) <> fst (snd p)
             /\ 0 <= fst (snd p) /\ 0 <= snd (snd p))
            /\ tidy ({[snd (snd p)]} ∪ ({[fst (snd p)]} ∪ D)) w') E.
Proof.
  intros w [Hdom Hcalm]. unfold tidy, open_set, forks_succeed in *.
  destruct w as [env cwd fds serial oracle trace]; cbn [w_fds w_oracle] in *. unfold pipe. cbn [w_oracle].
  destruct oracle as [|[| | | |[]| |] rest]; try exact Logic.I.
  - destruct (pipe_ends fds (Ofd serial Pipe_read O_RDONLY))
      as (Hrd & Hwr & Hne & Hrd0 & Hwr0).
    cbn [fst snd w_fds w_serial]. change (0 =? -1) with false. cbv iota.
    split; [repeat split; try assumption; rewrite <- Hdom; now apply not_elem_of_dom|].
    split; [|exact (Forall_inv_tail Hcalm)].
    cbn. now rewrite !dom_insert_L, Hdom.
  - cbn [fst]. change (-1 =? -1) with true. cbv iota.
    split; [exact Hdom|exact (Forall_inv_tail Hcalm)].
Qed.

Lemma fork_spec X E :
  hoare (tidy X) fork (fun pid w' => pid <> -1 /\ tidy X w') E.
Proof.
  intros w [Hdom Hcalm]. unfold tidy, open_set, forks_succeed in *.
  destruct w as [env cwd fds serial oracle trace]; cbn [w_fds w_oracle] in *. unfold fork. cbn [w_oracle].
  destruct oracle as [|[r| | | | | |] rest]; try exact Logic.I.
  split; [|split; [exact Hdom|exact (Forall_inv_tail Hcalm)]].
  intros ->. now apply (Forall_inv Hcalm).
Qed.

Lemma waitpid_spec X pid E :
  hoare (tidy X) (waitpid pid) (fun _ w' => tidy X w') E.
Proof.
  intros w [Hdom Hcalm]. unfold tidy, open_set, forks_succeed in *.
  destruct w as [env cwd fds serial oracle trace]; cbn [w_fds w_oracle] in *. unfold waitpid. cbn [w_oracle].
  destruct oracle as [|[] rest]; try exact Logic.I.
  split; [exact Hdom|exact (Forall_inv_tail Hcalm)].
Qed.

Lemma close_spec X fd E :
  fd ∈ X -> 0 <= fd ->
  hoare (tidy X) (close fd) (fun _ w' => tidy (X ∖ {[fd]}) w') E.
Proof.
  intros Hin Hfd w [Hdom Hcalm]. unfold tidy, open_set, forks_succeed in *.
  destruct w as [env cwd fds serial oracle trace]; cbn [w_fds w_oracle] in *.
  rewrite <- Hdom in Hin. apply elem_of_dom in Hin as [d Hd].
  unfold close. cbn [w_fds]. rewrite description_nonneg, Hd by assumption.
  split; [|exact Hcalm]. cbn. now rewrite dom_delete_L, Hdom.
Qed.

Lemma dup2_spec X oldfd newfd E :
  oldfd ∈ X -> 0 <= oldfd -> 0 <= newfd ->
  hoare (tidy X) (dup2 oldfd newfd) (fun _ w' => tidy ({[newfd]} ∪ X) w') E.
Proof.
  intros Hin Hold Hnew w [Hdom Hcalm]. unfold tidy, open_set, forks_succeed in *.
  destruct w as [env cwd fds serial oracle trace]; cbn [w_fds w_oracle] in *.
  rewrite <- Hdom in Hin. apply elem_of_dom in Hin as [d Hd].
  unfold dup2. cbn [w_fds]. rewrite description_nonneg, Hd by assumption.
  rewrite (proj2 (Z.ltb_ge newfd 0) Hnew).
  split; [|exact Hcalm]. cbn. now rewrite dom_insert_L, Hdom.
Qed.

Section Trees.

Variable D : gset Z.
Hypothesis stdin_in_use : STDIN_FILENO ∈ D.
Hypothesis stdout_in_use : STDOUT_FILENO ∈ D.

(** The evaluator the runners call back into, tidy on the two subtrees. *)
Variable evaluator : option command -> Z -> option command -> M Z.
Variables cmd1 cmd2 : option command.
Hypothesis first_tidy :
  forall level father,
    hoare (tidy D) (evaluator cmd1 level father) (fun _ => tidy D) (tidy D).
Hypothesis second_tidy :
  forall level father,
    hoare (tidy D) (evaluator cmd2 level father) (fun _ => tidy D) (tidy D).

Lemma child_tidy (m : M Z) :
  hoare (tidy D) m (fun _ => tidy D) (tidy D) ->
  hoare (tidy D) (let* rc := m in exit rc) (fun _ : bool => tidy D) (tidy D).
Proof.
  intros Hm. eapply hoare_bind; [exact Hm|]. intros rc. now apply hoare_exit.
Qed.

Lemma waits_tidy pid1 pid2 (result : Z -> Z -> bool) :
  hoare (tidy D)
    (let* w1 := waitpid pid1 in
     if fst w1 =? -1 then ret false
     else let* w2 := waitpid pid2 in
          if fst w2 =? -1 then ret false else ret (result (snd w1) (snd w2)))
    (fun _ => tidy D) (tidy D).
Proof.
  eapply hoare_bind; [apply waitpid_spec|]. intros w1.
  destruct (fst w1 =? -1); [now apply hoare_ret|].
  eapply hoare_bind; [apply waitpid_spec|]. intros w2.
  destruct (fst w2 =? -1); now apply hoare_ret.
Qed.

Lemma run_in_parallel_tidy level father :
  hoare (tidy D) (run_in_parallel evaluator cmd1 cmd2 level father)
    (fun _ => tidy D) (tidy D).
Proof.
  unfold run_in_parallel.
  eapply hoare_bind; [apply fork_spec|]. intros pid1. apply hoare_assume. intros _.
  destruct (pid1 =? -1); [now apply hoare_ret|].
  destruct (pid1 =? 0); [apply child_tidy, first_tidy|].
  eapply hoare_bind; [apply fork_spec|]. intros pid2. apply hoare_assume. intros _.
  destruct (pid2 =? -1); [now apply hoare_ret|].
  destruct (pid2 =? 0); [apply child_tidy, second_tidy|].
  apply (waits_tidy pid1 pid2 (fun s1 s2 => truth s1 && truth s2)).
Qed.

Lemma run_on_pipe_tidy level father :
  hoare (tidy D) (run_on_pipe evaluator cmd1 cmd2 level father)
    (fun _ => tidy D) (tidy D).
Proof.
  unfold run_on_pipe.
  eapply hoare_bind; [apply pipe_spec|]. intros [r [rd wr]]. cbn [fst snd].
  destruct (r =? -1); [now apply hoare_ret|].
  apply hoare_assume. intros (Hrd & Hwr & Hne & Hrd0 & Hwr0).
  eapply hoare_bind; [apply fork_spec|]. intros pid1. apply hoare_assume.
  intros Hpid1. rewrite (proj2 (Z.eqb_neq _ _) Hpid1).
  destruct (pid1 =? 0).
  - eapply hoare_bind; [apply close_spec; [set_solver|assumption]|]. intros ?.
    eapply hoare_bind; [apply dup2_spec; [set_solver|assumption|done]|]. intros ?.
    eapply hoare_bind; [apply close_spec; [set_solver|assumption]|]. intros ?.
    apply (hoare_tidy_eq _ D); [set_solver|]. apply child_tidy, first_tidy.
  - eapply hoare_bind; [apply close_spec; [set_solver|assumption]|]. intros ?.
    eapply hoare_bind; [apply fork_spec|]. intros pid2. apply hoare_assume.
    intros Hpid2. rewrite (proj2 (Z.eqb_neq _ _) Hpid2).
    destruct (pid2 =? 0).
    + eapply hoare_bind; [apply dup2_spec; [set_solver|assumption|done]|]. intros ?.
      eapply hoare_bind; [apply close_spec; [set_solver|assumption]|]. intros ?.
      apply (hoare_tidy_eq _ D); [set_solver|]. apply child_tidy, second_tidy.
    + eapply hoare_bind; [apply close_spec; [set_solver|assumption]|]. intros ?.
      apply (hoare_tidy_eq _ D); [set_solver|].
      apply (waits_tidy pid1 pid2 (fun _ s2 => truth s2)).
Qed.

End Trees.

Lemma parse_node_tidy D :
  STDIN_FILENO ∈ D -> STDOUT_FILENO ∈ D -> STDERR_FILENO ∈ D ->
  forall c level father,
    hoare (tidy D) (parse_node c level father) (fun _ => tidy D) (tidy D).
Proof.
  intros H0 H1 H2. fix IH 1. intros [o leaf c1 c2] level father.
  assert (Hsub : forall c l f, c = c1 \/ c = c2 ->
            hoare (tidy D) (parse_command c l f) (fun _ => tidy D) (tidy D)).
  { intros c l f [->| ->].
    - destruct c1 as [x|]; [apply IH|now apply hoare_ret].
    - destruct c2 as [x|]; [apply IH|now apply hoare_ret]. }
  change (hoare (tidy D) (parse_command (Some (Command o leaf c1 c2)) level father)
            (fun _ => tidy D) (tidy D)).
  destruct o.
  - apply stays_hoare. change (stays (tidy D) (parse_simple leaf level father)).
    now apply parse_simple_tidy.
  - rewrite parse_command_sequential.
    eapply hoare_bind; [apply Hsub; now left|]. intros rc.
    eapply hoare_bind; [apply Hsub; now right|]. intros rc2. now apply hoare_ret.
  - rewrite parse_command_parallel.
    eapply hoare_bind;
      [apply run_in_parallel_tidy; intros; apply Hsub; auto|].
    intros b. now apply hoare_ret.
  - rewrite parse_command_nzero.
    eapply hoare_bind; [apply Hsub; now left|]. intros rc.
    destruct (negb (rc =? 0)); [apply Hsub; now right|now apply hoare_ret].
  - rewrite parse_command_zero.
    eapply hoare_bind; [apply Hsub; now left|]. intros rc.
    destruct (rc =? 0); [apply Hsub; now right|now apply hoare_ret].
  - rewrite parse_command_pipe.
    eapply hoare_bind;
      [apply run_on_pipe_tidy; try assumption; intros; apply Hsub; auto|].
    intros b. now apply hoare_ret.
  - now apply hoare_ret.
Qed.

(** X15: no tree leaks a descriptor unless a [fork] fails.  In a process
    whose descriptors 0, 1 and 2 are in use, when no [fork] fails, the
    descriptor numbers in use where [parse_command] returns, exits or loads
    a program are the ones in use before: in the shell both ends of every
    pipe are closed again, and each child of a pipe is left with its end on
    the standard stream only. *)
Theorem tree_leaks_no_descriptor :
  forall c level father w,
    is_Some (w_fds w !! STDIN_FILENO) ->
    is_Some (w_fds w !! STDOUT_FILENO) ->
    is_Some (w_fds w !! STDERR_FILENO) ->
    Forall (fun a => a <> Forked (-1)) (w_oracle w) ->
    scripted (parse_command c level father w) ->
    dom (w_fds (world_of (parse_command c level father w))) = dom (w_fds w).
Proof.
  intros c level father w H0 H1 H2 Hforks Hscripted.
  apply elem_of_dom in H0, H1, H2.
  assert (Htidy : hoare (tidy (dom (w_fds w))) (parse_command c level father)
                    (fun _ => tidy (dom (w_fds w))) (tidy (dom (w_fds w)))).
  { destruct c as [c|]; [now apply parse_node_tidy|now apply hoare_ret]. }
  specialize (Htidy w (conj eq_refl Hforks)).
  destruct (parse_command c level father w) as [rc w'|[] w'];
    cbn [world_of]; try apply Htidy. destruct Hscripted.
Qed.


(** ** The conditionals and the way a command ended *)

(** X17: what [&&] and [||] make of the way an external command ended.
    After exit code 0 the right-hand side of [&&] runs and that of [||] is
    skipped; after an exit code from 1 to 255 it is the other way round,
    and the skipping [&&] node returns the status word, 256 times the code.
    A command killed by a signal counts as a success: its status word is
    replaced by 0, so [&&] goes on and [||] does not. *)
Theorem conditionals_follow_the_way_a_command_ended :
  forall s name l1 l2 leaf c2 level father w pid r rest,
    external s = Some name -> pid <> -1 -> pid <> 0 -> r <> -1 ->
    (forall code, 0 <= code < 256 ->
       w_oracle w = Forked pid :: Waited r (wait_status (Exits code)) :: rest ->
       parse_command
         (Some (Command OP_CONDITIONAL_ZERO leaf
                  (Some (Command OP_NONE (Some s) l1 l2)) c2)) level father w
       = (if code =? 0
          then parse_command c2 (level + 1)
                 (Some (Command OP_CONDITIONAL_ZERO leaf
                          (Some (Command OP_NONE (Some s) l1 l2)) c2))
                 (after w rest [EFork pid; EWaitpid pid r (wait_status (Exits code))])
          else Returned (256 * code)
                 (after w rest [EFork pid; EWaitpid pid r (wait_status (Exits code))]))
       /\ parse_command
            (Some (Command OP_CONDITIONAL_NZERO leaf
                     (Some (Command OP_NONE (Some s) l1 l2)) c2)) level father w
          = (if code =? 0
             then Returned 0
                    (after w rest [EFork pid; EWaitpid pid r (wait_status (Exits code))])
             else parse_command c2 (level + 1)
                    (Some (Command OP_CONDITIONAL_NZERO leaf
                             (Some (Command OP_NONE (Some s) l1 l2)) c2))
                    (after w rest [EFork pid; EWaitpid pid r (wait_status (Exits code))])))
    /\ (forall sig core, 1 <= sig < 128 ->
        w_oracle w = Forked pid :: Waited r (wait_status (Killed sig core)) :: rest ->
        parse_command
          (Some (Command OP_CONDITIONAL_ZERO leaf
                   (Some (Command OP_NONE (Some s) l1 l2)) c2)) level father w
        = parse_command c2 (level + 1)
            (Some (Command OP_CONDITIONAL_ZERO leaf
                     (Some (Command OP_NONE (Some s) l1 l2)) c2))
            (after w rest [EFork pid; EWaitpid pid r (wait_status (Killed sig core))])
        /\ parse_command
             (Some (Command OP_CONDITIONAL_NZERO leaf
                      (Some (Command OP_NONE (Some s) l1 l2)) c2)) level father w
           = Returned 0
               (after w rest [EFork pid; EWaitpid pid r (wait_status (Killed sig core))])).
Proof.
  intros s name l1 l2 leaf c2 level father w pid r rest Hext Hp1 Hp0 Hr.
  split.
  - intros code Hcode Ho.
    assert (Hleaf : forall l f,
      parse_simple (Some s) l f w =
        Returned (256 * code)
          (after w rest [EFork pid; EWaitpid pid r (wait_status (Exits code))])).
    { intros l f.
      destruct (external_leaf_status s name l f w pid rest Hext Hp1 Hp0) as (H & _).
      now apply H. }
    assert (Htest : (256 * code =? 0) = (code =? 0)).
    { destruct (Z.eqb_spec code 0) as [->|Hne]; [reflexivity|].
      apply Z.eqb_neq. lia. }
    split.
    + rewrite parse_command_zero. unfold bind.
      rewrite parse_command_leaf, Hleaf, Htest. now destruct (code =? 0).
    + rewrite parse_command_nzero. unfold bind.
      rewrite parse_command_leaf, Hleaf, Htest.
      destruct (Z.eqb_spec code 0) as [->|Hne]; reflexivity.
  - intros sig core Hsig Ho.
    assert (Hleaf : forall l f,
      parse_simple (Some s) l f w =
        Returned 0
          (after w rest [EFork pid; EWaitpid pid r (wait_status (Killed sig core))])).
    { intros l f.
      destruct (external_leaf_status s name l f w pid rest Hext Hp1 Hp0) as (_ & H & _).
      now apply H. }
    split.
    + rewrite parse_command_zero. unfold bind.
      now rewrite parse_command_leaf, Hleaf.
    + rewrite parse_command_nzero. unfold bind.
      now rewrite parse_command_leaf, Hleaf.
Qed.

(** ** The PIPE node, child and shell together *)

(** The second child of the pipe runner up to the evaluation of [cmd2]. *)
Lemma run_on_pipe_second_child
    (f : option command -> Z -> option command -> M Z)
    cmd1 cmd2 level father w pid1 rest :
  pid1 <> -1 -> pid1 <> 0 ->
  is_Some (w_fds w !! STDIN_FILENO) ->
  w_oracle w = Piped true :: Forked pid1 :: Forked 0 :: rest ->
  run_on_pipe f cmd1 cmd2 level father w =
    (let* rc := f cmd2 (level + 1) father in exit rc)
      (World (w_env w) (w_cwd w)
         (<[STDIN_FILENO := Ofd (w_serial w) Pipe_read O_RDONLY]> (w_fds w))
         (S (S (w_serial w))) rest
         (w_trace w ++ [EPipe 0 (pipe_read_end w) (pipe_write_end w); EFork pid1;
                        EClose (pipe_write_end w) 0; EFork 0;
                        EDup2 (pipe_read_end w) STDIN_FILENO STDIN_FILENO;
                        EClose (pipe_read_end w) 0])).
Proof.
  intros Hp1 Hp0 Hin Ho. world w. unfold pipe_write_end, pipe_read_end. reduce.
  destruct (pipe_ends fds (Ofd serial Pipe_read O_RDONLY))
    as (Hrd & Hwr & Hne & Hrd0 & Hwr0).
  set (d1 := Ofd serial Pipe_read O_RDONLY) in *.
  set (rd := lowest_free fds) in *.
  set (d2 := Ofd (S serial) Pipe_write O_WRONLY).
  set (wr := lowest_free (<[rd := d1]> fds)) in *.
  assert (Hrd1 : rd <> STDIN_FILENO) by now apply lowest_free_not_open.
  unfold run_on_pipe. unfold bind at 1. unfold pipe. reduce.
  fold d1 rd d2 wr. change (0 =? -1) with false. cbv iota.
  unfold bind at 1. unfold fork at 1, set_serial, set_fds, set_answered. reduce.
  unfold bind at 1. unfold close at 1, set_fds, set_trace. reduce.
  rewrite description_nonneg by assumption. rewrite lookup_insert_eq.
  rewrite delete_insert_id by (now rewrite lookup_insert_ne by congruence).
  unfold bind at 1. unfold fork, set_answered. reduce.
  change (0 =? -1) with false. change (0 =? 0) with true. cbv iota.
  unfold bind at 1. unfold dup2, set_fds, set_trace. reduce.
  rewrite description_nonneg by assumption. rewrite lookup_insert_eq.
  change (STDIN_FILENO <? 0) with false. cbv iota.
  unfold bind at 1. unfold close, set_fds, set_trace. reduce.
  rewrite description_nonneg by assumption.
  rewrite lookup_insert_ne by congruence. rewrite lookup_insert_eq.
  rewrite delete_insert_ne by congruence.
  rewrite delete_insert_id by assumption.
  repeat (rewrite <- app_assoc; cbn [app]). reflexivity.
Qed.

(** The status word of a process that called [exit (code)] is zero exactly
    when the low eight bits of [code] are. *)
Lemma wait_status_exits_zero code :
  (wait_status (Exits code) =? 0) = (Z.land code 255 =? 0).
Proof.
  unfold wait_status, W_EXITCODE. rewrite Z.lor_0_r, Z.shiftl_mul_pow2 by lia.
  change (2 ^ 8) with 256.
  destruct (Z.eqb_spec (Z.land code 255) 0) as [->|Hne]; [reflexivity|].
  apply Z.eqb_neq. lia.
Qed.

(** C5, as the code has it, with the second child and the shell side by
    side: both start from the process image [w], each with the answers it
    is given.  When [cmd2] returns [rc2] in the second child, that child
    calls [exit (rc2)]; the shell is then handed the status word of that
    exit, and when the pipe, both forks and both waits succeed the PIPE node
    returns 1 if the low eight bits of [rc2] are not all zero and 0 if they
    are: [rc2] itself does not come back.  The first child's status word
    plays no part. *)
Theorem pipe_returns_whether_second_exit_byte_is_set :
  forall leaf cmd1 cmd2 level father w pid1 pid2 r1 r2 status1 rest answers2 rc2 w2,
    pid1 <> -1 -> pid1 <> 0 -> pid2 <> -1 -> pid2 <> 0 -> r1 <> -1 -> r2 <> -1 ->
    is_Some (w_fds w !! STDIN_FILENO) ->
    parse_command cmd2 (level + 1) (Some (Command OP_PIPE leaf cmd1 cmd2))
      (World (w_env w) (w_cwd w)
         (<[STDIN_FILENO := Ofd (w_serial w) Pipe_read O_RDONLY]> (w_fds w))
         (S (S (w_serial w))) answers2
         (w_trace w ++ [EPipe 0 (pipe_read_end w) (pipe_write_end w); EFork pid1;
                        EClose (pipe_write_end w) 0; EFork 0;
                        EDup2 (pipe_read_end w) STDIN_FILENO STDIN_FILENO;
                        EClose (pipe_read_end w) 0]))
      = Returned rc2 w2 ->
    parse_command (Some (Command OP_PIPE leaf cmd1 cmd2)) level father
      (with_answers w (Piped true :: Forked pid1 :: Forked 0 :: answers2))
      = Halted (Exit rc2) w2
    /\ exists w',
         parse_command (Some (Command OP_PIPE leaf cmd1 cmd2)) level father
           (with_answers w
              (Piped true :: Forked pid1 :: Forked pid2
               :: Waited r1 status1 :: Waited r2 (wait_status (Exits rc2)) :: rest))
         = Returned (if Z.land rc2 255 =? 0 then 0 else 1) w'
         /\ w_oracle w' = rest
         /\ w_fds w' = w_fds w.
Proof.
  intros leaf cmd1 cmd2 level father w pid1 pid2 r1 r2 status1 rest answers2 rc2 w2
         Hp1 Hp1' Hp2 Hp2' Hr1 Hr2 Hin Hcmd2.
  split.
  - rewrite parse_command_pipe. unfold bind at 1.
    rewrite (run_on_pipe_second_child parse_command cmd1 cmd2 level
               (Some (Command OP_PIPE leaf cmd1 cmd2))
               (with_answers w (Piped true :: Forked pid1 :: Forked 0 :: answers2))
               pid1 answers2 Hp1 Hp1' Hin eq_refl).
    unfold pipe_write_end, pipe_read_end in *.
    cbn [with_answers w_env w_cwd w_fds w_serial w_trace] in *.
    unfold bind at 1. rewrite Hcmd2. reflexivity.
  - destruct (pipe_node_reads_second_status_word leaf cmd1 cmd2 level father
                (with_answers w
                   (Piped true :: Forked pid1 :: Forked pid2
                    :: Waited r1 status1 :: Waited r2 (wait_status (Exits rc2)) :: rest))
                pid1 pid2 r1 r2 status1 (wait_status (Exits rc2)) rest
                Hp1 Hp1' Hp2 Hp2' Hr1 Hr2 eq_refl)
      as (w' & Hrun & Horacle & Hfds).
    exists w'. rewrite Hrun, wait_status_exits_zero. now repeat split.
Qed.

End Evaluator.

(** * Concrete runs *)

Abbreviation evaluate :=
  (parse_command sample_SHELL_EXIT sample_IO_OUT_APPEND sample_IO_ERR_APPEND).
Abbreviation execute := (parse_simple sample_IO_OUT_APPEND sample_IO_ERR_APPEND).
(** The parallel runner on [sleep 1 & date], from a fresh process. *)
Abbreviation in_parallel answers :=
  (run_in_parallel evaluate
     (leaf_of (plain "sleep" (Some (literal "1")) None None None))
     (leaf_of (plain "date" None None None None))
     0 None (start ∅ answers)).

(** ** C1 at exit code 1 *)

(** C1 on a run: the child of the external command [false] ends with
    [exit (1)]; the executor returns the status word 256, whose exit code
    ([WEXITSTATUS]) is 1, and not 1. *)
Theorem external_leaf_returns_status_word_at_exit_1 :
  execute (Some (plain "false" None None None None)) 0 None
    (start ∅ [Forked 10; Waited 10 (wait_status (Exits 1))])
  = Returned 256
      (after (start ∅ [Forked 10; Waited 10 (wait_status (Exits 1))]) []
         [EFork 10; EWaitpid 10 10 256])
  /\ WEXITSTATUS 256 = 1
  /\ 256 <> 1.
Proof.
  split; [|split; [reflexivity|discriminate]].
  destruct (external_leaf_status sample_IO_OUT_APPEND sample_IO_ERR_APPEND
              (plain "false" None None None None) "false" 0 None
              (start ∅ [Forked 10; Waited 10 (wait_status (Exits 1))]) 10 [])
    as (Hexit & _ & _); [reflexivity|discriminate|discriminate|].
  exact (Hexit 10 1 ltac:(discriminate) ltac:(lia) eq_refl).
Qed.

(** ** Witnesses *)

Lemma sequential_witness :
  evaluate (leaf_of (plain "grep" None None None None)) (0 + 1)
    (Some (node OP_SEQUENTIAL (leaf_of (plain "grep" None None None None))
                              (leaf_of (plain "false" None None None None))))
    (start ∅ [Forked 10; Waited 10 512; Forked 11; Waited 11 256])
  = Returned 512
      (after (start ∅ [Forked 10; Waited 10 512; Forked 11; Waited 11 256])
         [Forked 11; Waited 11 256] [EFork 10; EWaitpid 10 10 512])
  /\ evaluate
       (Some (node OP_SEQUENTIAL (leaf_of (plain "grep" None None None None))
                                 (leaf_of (plain "false" None None None None))))
       0 None (start ∅ [Forked 10; Waited 10 512; Forked 11; Waited 11 256])
     = Returned 0
         (after (start ∅ [Forked 10; Waited 10 512; Forked 11; Waited 11 256]) []
            [EFork 10; EWaitpid 10 10 512; EFork 11; EWaitpid 11 11 256]).
Proof.
  split; [reflexivity|].
  refine (eq_trans
    (proj1 (sequential_runs_both_and_ands_statuses
              sample_SHELL_EXIT sample_IO_OUT_APPEND sample_IO_ERR_APPEND
              None (leaf_of (plain "grep" None None None None))
              (leaf_of (plain "false" None None None None)) 0 None
              (start ∅ [Forked 10; Waited 10 512; Forked 11; Waited 11 256])
              512 _ _)) _);
    reflexivity.
Defined.

Lemma conditional_witness :
  evaluate
    (Some (node OP_CONDITIONAL_NZERO (leaf_of (plain "true" None None None None))
             (leaf_of (plain "touch" (Some (literal "made")) None None None))))
    0 None (start ∅ [Forked 10; Waited 10 0; Forked 11; Waited 11 0])
  = Returned 0
      (after (start ∅ [Forked 10; Waited 10 0; Forked 11; Waited 11 0])
         [Forked 11; Waited 11 0] [EFork 10; EWaitpid 10 10 0])
  /\ evaluate
       (Some (node OP_CONDITIONAL_ZERO (leaf_of (plain "true" None None None None))
                (leaf_of (plain "touch" (Some (literal "made")) None None None))))
       0 None (start ∅ [Forked 10; Waited 10 0; Forked 11; Waited 11 0])
     = Returned 0
         (after (start ∅ [Forked 10; Waited 10 0; Forked 11; Waited 11 0]) []
            [EFork 10; EWaitpid 10 10 0; EFork 11; EWaitpid 11 11 0])
  /\ evaluate
       (Some (node OP_CONDITIONAL_NZERO (leaf_of (plain "false" None None None None))
                (leaf_of (plain "touch" (Some (literal "made")) None None None))))
       0 None (start ∅ [Forked 10; Waited 10 256; Forked 11; Waited 11 0])
     = Returned 0
         (after (start ∅ [Forked 10; Waited 10 256; Forked 11; Waited 11 0]) []
            [EFork 10; EWaitpid 10 10 256; EFork 11; EWaitpid 11 11 0])
  /\ evaluate
       (Some (node OP_CONDITIONAL_ZERO (leaf_of (plain "false" None None None None))
                (leaf_of (plain "touch" (Some (literal "made")) None None None))))
       0 None (start ∅ [Forked 10; Waited 10 256; Forked 11; Waited 11 0])
     = Returned 256
         (after (start ∅ [Forked 10; Waited 10 256; Forked 11; Waited 11 0])
            [Forked 11; Waited 11 0] [EFork 10; EWaitpid 10 10 256]).
Proof.
  pose proof (conditional_runs_second_on_its_predicate
                sample_SHELL_EXIT sample_IO_OUT_APPEND sample_IO_ERR_APPEND
                None (leaf_of (plain "true" None None None None))
                (leaf_of (plain "touch" (Some (literal "made")) None None None)) 0 None
                (start ∅ [Forked 10; Waited 10 0; Forked 11; Waited 11 0]) 0
                (after (start ∅ [Forked 10; Waited 10 0; Forked 11; Waited 11 0])
                   [Forked 11; Waited 11 0] [EFork 10; EWaitpid 10 10 0]))
    as [Hnz Hz].
  pose proof (conditional_runs_second_on_its_predicate
                sample_SHELL_EXIT sample_IO_OUT_APPEND sample_IO_ERR_APPEND
                None (leaf_of (plain "false" None None None None))
                (leaf_of (plain "touch" (Some (literal "made")) None None None)) 0 None
                (start ∅ [Forked 10; Waited 10 256; Forked 11; Waited 11 0]) 256
                (after (start ∅ [Forked 10; Waited 10 256; Forked 11; Waited 11 0])
                   [Forked 11; Waited 11 0] [EFork 10; EWaitpid 10 10 256]))
    as [Hnz' Hz'].
  split; [|split; [|split]].
  - exact (eq_trans (Hnz eq_refl) eq_refl).
  - exact (eq_trans (Hz eq_refl) eq_refl).
  - exact (eq_trans (Hnz' eq_refl) eq_refl).
  - exact (eq_trans (Hz' eq_refl) eq_refl).
Defined.

Lemma exit_witness :
  execute (Some (plain "exit" None None None None)) 0 None (start ∅ [Forked 10])
    = Halted (Exit EXIT_SUCCESS) (start ∅ [Forked 10])
  /\ evaluate
       (Some (node OP_SEQUENTIAL (leaf_of (plain "exit" None None None None))
                (leaf_of (plain "ls" None None None None))))
       0 None (start ∅ [Forked 10])
     = Halted (Exit EXIT_SUCCESS) (start ∅ [Forked 10])
  /\ evaluate
       (Some (node OP_CONDITIONAL_NZERO
                (Some (node OP_CONDITIONAL_ZERO
                         (leaf_of (plain "quit" None None None None))
                         (leaf_of (plain "ls" None None None None))))
                (leaf_of (plain "ls" None None None None))))
       0 None (start ∅ [Forked 10])
     = Halted (Exit EXIT_SUCCESS) (start ∅ [Forked 10]).
Proof.
  destruct (exit_leaf_ends_the_process
              sample_SHELL_EXIT sample_IO_OUT_APPEND sample_IO_ERR_APPEND
              (plain "exit" None None None None) (literal "exit") 0 None
              (start ∅ [Forked 10]) eq_refl (or_introl eq_refl))
    as (Hleaf & _ & Hfirst & _).
  destruct (exit_leaf_ends_the_process
              sample_SHELL_EXIT sample_IO_OUT_APPEND sample_IO_ERR_APPEND
              (plain "quit" None None None None) (literal "quit") 0 None
              (start ∅ [Forked 10]) eq_refl (or_intror eq_refl))
    as (_ & _ & _ & Hsecond).
  split; [|split].
  - exact Hleaf.
  - exact (Hfirst OP_SEQUENTIAL None None None
             (leaf_of (plain "ls" None None None None)) (or_introl eq_refl)).
  - exact (Hsecond OP_CONDITIONAL_ZERO OP_CONDITIONAL_NZERO None None None None
             (leaf_of (plain "ls" None None None None))
             (leaf_of (plain "ls" None None None None))
             (or_intror (or_intror eq_refl)) (or_intror (or_introl eq_refl))).
Defined.

Lemma parallel_witness :
  in_parallel [Forked (-1)]
    = Returned false (after (start ∅ [Forked (-1)]) [] [EFork (-1)])
  /\ in_parallel [Forked 0; Forked 7; Waited 7 256]
     = Halted (Exit 256)
         (after (start ∅ [Forked 0; Forked 7; Waited 7 256]) []
            [EFork 0; EFork 7; EWaitpid 7 7 256])
  /\ in_parallel [Forked 10; Forked (-1)]
     = Returned false (after (start ∅ [Forked 10; Forked (-1)]) [] [EFork 10; EFork (-1)])
  /\ in_parallel [Forked 10; Forked 0; Forked 7; Waited 7 0]
     = Halted (Exit 0)
         (after (start ∅ [Forked 10; Forked 0; Forked 7; Waited 7 0]) []
            [EFork 10; EFork 0; EFork 7; EWaitpid 7 7 0])
  /\ in_parallel [Forked 10; Forked 11; Waited (-1) 0]
     = Returned false
         (after (start ∅ [Forked 10; Forked 11; Waited (-1) 0]) []
            [EFork 10; EFork 11; EWaitpid 10 (-1) 0])
  /\ in_parallel [Forked 10; Forked 11; Waited 10 256; Waited (-1) 0]
     = Returned false
         (after (start ∅ [Forked 10; Forked 11; Waited 10 256; Waited (-1) 0]) []
            [EFork 10; EFork 11; EWaitpid 10 10 256; EWaitpid 11 (-1) 0])
  /\ in_parallel [Forked 10; Forked 11; Waited 10 256; Waited 11 0]
     = Returned false
         (after (start ∅ [Forked 10; Forked 11; Waited 10 256; Waited 11 0]) []
            [EFork 10; EFork 11; EWaitpid 10 10 256; EWaitpid 11 11 0])
  /\ in_parallel [Forked 10; Forked 11; Waited 10 256; Waited 11 512]
     = Returned true
         (after (start ∅ [Forked 10; Forked 11; Waited 10 256; Waited 11 512]) []
            [EFork 10; EFork 11; EWaitpid 10 10 256; EWaitpid 11 11 512]).
Proof.
  pose (facts := fun answers rest =>
    parallel_forks_waits_and_ands
      sample_SHELL_EXIT sample_IO_OUT_APPEND sample_IO_ERR_APPEND
      (leaf_of (plain "sleep" (Some (literal "1")) None None None))
      (leaf_of (plain "date" None None None None))
      0 None (start ∅ answers) rest).
  split; [|split; [|split; [|split; [|split; [|split; [|split]]]]]].
  - destruct (facts [Forked (-1)] []) as (H & _).
    exact (H eq_refl).
  - destruct (facts [Forked 0; Forked 7; Waited 7 256] [Forked 7; Waited 7 256])
      as (_ & H & _).
    exact (eq_trans (H eq_refl) eq_refl).
  - destruct (facts [Forked 10; Forked (-1)] []) as (_ & _ & H & _).
    exact (H 10 ltac:(discriminate) ltac:(discriminate) eq_refl).
  - destruct (facts [Forked 10; Forked 0; Forked 7; Waited 7 0] [Forked 7; Waited 7 0])
      as (_ & _ & _ & H & _).
    exact (eq_trans (H 10 ltac:(discriminate) ltac:(discriminate) eq_refl) eq_refl).
  - destruct (facts [Forked 10; Forked 11; Waited (-1) 0] [])
      as (_ & _ & _ & _ & H & _).
    exact (H 10 11 0 ltac:(discriminate) ltac:(discriminate)
             ltac:(discriminate) ltac:(discriminate) eq_refl).
  - destruct (facts [Forked 10; Forked 11; Waited 10 256; Waited (-1) 0] [])
      as (_ & _ & _ & _ & _ & H & _).
    exact (H 10 11 10 256 0 ltac:(discriminate) ltac:(discriminate)
             ltac:(discriminate) ltac:(discriminate) ltac:(discriminate) eq_refl).
  - destruct (facts [Forked 10; Forked 11; Waited 10 256; Waited 11 0] [])
      as (_ & _ & _ & _ & _ & _ & H).
    exact (H 10 11 10 11 256 0 ltac:(discriminate) ltac:(discriminate)
             ltac:(discriminate) ltac:(discriminate) ltac:(discriminate)
             ltac:(discriminate) eq_refl).
  - destruct (facts [Forked 10; Forked 11; Waited 10 256; Waited 11 512] [])
      as (_ & _ & _ & _ & _ & _ & H).
    exact (H 10 11 10 11 256 512 ltac:(discriminate) ltac:(discriminate)
             ltac:(discriminate) ltac:(discriminate) ltac:(discriminate)
             ltac:(discriminate) eq_refl).
Defined.

(** ** The pipe runner on a run *)

(** C5 fails on these runs of [cat | grep x], in which pipe, forks and
    waits succeed.  In the first, [grep] finds nothing and exits with code
    1: the second subtree returns the status word 256 in the second child,
    which calls [exit (256)]; the shell is handed the status word 0 and the
    PIPE node returns 0.  In the second, [fork] fails in the second child:
    the subtree returns -1, the child calls [exit (-1)], the shell is handed
    the status word 65280 and the PIPE node returns 1, which is neither. *)
Lemma pipe_result_is_not_second_status :
  (exists w2,
     evaluate (leaf_of (plain "grep" (Some (literal "x")) None None None)) 1 (Some piped)
       (second_child_of_pipe [Forked 12; Waited 12 (wait_status (Exits 1))])
     = Returned 256 w2
     /\ evaluate (Some piped) 0 None
          (start ∅ [Piped true; Forked 10; Forked 0;
                    Forked 12; Waited 12 (wait_status (Exits 1))])
        = Halted (Exit 256) w2)
  /\ wait_status (Exits 256) = 0
  /\ (exists w',
        evaluate (Some piped) 0 None
          (start ∅ [Piped true; Forked 10; Forked 11;
                    Waited 10 0; Waited 11 (wait_status (Exits 256))])
        = Returned 0 w')
  /\ 0 <> 256
  /\ (exists w2,
        evaluate (leaf_of (plain "grep" (Some (literal "x")) None None None)) 1 (Some piped)
          (second_child_of_pipe [Forked (-1)])
        = Returned (-1) w2
        /\ evaluate (Some piped) 0 None
             (start ∅ [Piped true; Forked 10; Forked 0; Forked (-1)])
           = Halted (Exit (-1)) w2)
  /\ wait_status (Exits (-1)) = 65280
  /\ (exists w',
        evaluate (Some piped) 0 None
          (start ∅ [Piped true; Forked 10; Forked 11;
                    Waited 10 0; Waited 11 (wait_status (Exits (-1)))])
        = Returned 1 w')
  /\ 1 <> -1 /\ 1 <> 65280.
Proof.
  split; [eexists; split; vm_compute; reflexivity|].
  split; [reflexivity|].
  split; [eexists; vm_compute; reflexivity|].
  split; [discriminate|].
  split; [eexists; split; vm_compute; reflexivity|].
  split; [reflexivity|].
  split; [eexists; vm_compute; reflexivity|].
  split; discriminate.
Qed.

Lemma pipe_witness :
  evaluate (Some piped) 0 None
    (start ∅ [Piped true; Forked 10; Forked 0; Forked 12; Waited 12 256])
  = Halted (Exit 256)
      (World ∅ "/start" (<[STDIN_FILENO := Ofd 1 Pipe_read O_RDONLY]> std_fds) 3 []
         [EPipe 0 3 4; EFork 10; EClose 4 0; EFork 0; EDup2 3 0 0; EClose 3 0;
          EFork 12; EWaitpid 12 12 256])
  /\ exists w',
       evaluate (Some piped) 0 None
         (start ∅ [Piped true; Forked 10; Forked 11; Waited 10 0; Waited 11 0])
       = Returned 0 w'
       /\ w_oracle w' = []
       /\ w_fds w' = std_fds.
Proof.
  exact (pipe_returns_whether_second_exit_byte_is_set
           sample_SHELL_EXIT sample_IO_OUT_APPEND sample_IO_ERR_APPEND
           None (leaf_of (plain "cat" None None None None))
           (leaf_of (plain "grep" (Some (literal "x")) None None None)) 0 None
           (start ∅ []) 10 11 10 11 0 [] [Forked 12; Waited 12 256] 256
           (World ∅ "/start" (<[STDIN_FILENO := Ofd 1 Pipe_read O_RDONLY]> std_fds) 3 []
              [EPipe 0 3 4; EFork 10; EClose 4 0; EFork 0; EDup2 3 0 0; EClose 3 0;
               EFork 12; EWaitpid 12 12 256])
           ltac:(discriminate) ltac:(discriminate) ltac:(discriminate)
           ltac:(discriminate) ltac:(discriminate) ltac:(discriminate)
           (ex_intro _ terminal eq_refl) eq_refl).
Defined.

(** ** An unknown command on a run *)

Lemma unknown_command_witness :
  execute (Some (plain "nosuchprogram" None None None None)) 0 None
    (start ∅ [Forked 0; Exec_failed])
  = Halted (Exit EXIT_FAILURE)
      (after (start ∅ [Forked 0; Exec_failed]) []
         [EFork 0; EExecvp "nosuchprogram" ["nosuchprogram"] true;
          EWrite STDERR_FILENO (Some terminal)
            ("Execution failed for 'nosuchprogram'" ++ newline)])
  /\ exists rc w',
       execute (Some (plain "nosuchprogram" None None None None)) 0 None
         (start ∅ [Forked 10; Waited 10 (wait_status (Exits EXIT_FAILURE))])
       = Returned rc w' /\ rc <> 0.
Proof.
  split.
  - destruct (unknown_command_diagnostic_and_status
                sample_IO_OUT_APPEND sample_IO_ERR_APPEND
                (plain "nosuchprogram" None None None None) "nosuchprogram" 0 None
                (start ∅ [Forked 0; Exec_failed]) eq_refl) as (Hchild & _).
    exact (eq_trans
             (Hchild [Exec_failed]
                (after (start ∅ [Forked 0; Exec_failed]) [Exec_failed] [EFork 0]) []
                eq_refl eq_refl eq_refl)
             eq_refl).
  - destruct (unknown_command_diagnostic_and_status
                sample_IO_OUT_APPEND sample_IO_ERR_APPEND
                (plain "nosuchprogram" None None None None) "nosuchprogram" 0 None
                (start ∅ [Forked 10; Waited 10 (wait_status (Exits EXIT_FAILURE))])
                eq_refl) as (_ & Hparent).
    exact (Hparent 10 10 [] ltac:(discriminate) ltac:(discriminate) eq_refl).
Defined.

(** ** Redirections on a run *)



(** ** The cd builtin on a run *)

Lemma cd_stderr_witness :
  cd_redirections cd_redirected
    (start ∅ [Opened true; Opened true; Opened true; Chdired true])
  = Returned tt
      (World ∅ "/start" (<[STDERR_FILENO := Ofd 3 (File "err") 577]> std_fds) 4
         [Chdired true]
         [EOpen (Some "in"%string) 0 0 3; EClose 3 0;
          EOpen (Some "out"%string) 577 420 3; EClose 3 0;
          EOpen (Some "err"%string) 577 420 3; EDup2 3 2 2; EClose 3 0])
  /\ w_fds (world_of
             (execute (Some cd_redirected) 0 None
                (start ∅ [Opened true; Opened true; Opened true; Chdired true])))
     = <[STDERR_FILENO := Ofd 3 (File "err") 577]> std_fds.
Proof.
  destruct (cd_leaf_rebinds_stderr_for_good
              sample_SHELL_EXIT sample_IO_OUT_APPEND sample_IO_ERR_APPEND
              cd_redirected (literal "cd") (literal "err") "err" 0 None
              (start ∅ [Opened true; Opened true; Opened true; Chdired true])
              (World ∅ "/start" std_fds 3 [Opened true; Chdired true]
                 [EOpen (Some "in"%string) 0 0 3; EClose 3 0;
                  EOpen (Some "out"%string) 577 420 3; EClose 3 0])
              [Chdired true] eq_refl eq_refl eq_refl eq_refl
              (ex_intro _ terminal eq_refl) eq_refl eq_refl)
    as (_ & _ & Hred & Hleaf & _).
  split.
  - exact (eq_trans Hred eq_refl).
  - exact Hleaf.
Defined.

(** C4 on three runs.  [cd ~] with HOME=/home/u: the change to HOME
    succeeds, the function goes on to [chdir ("~")], which fails, and the
    leaf returns 1 where the claim says 0.  [cd -] with OLDPWD=/old: the
    same, after the change to OLDPWD.  [cd] alone: after the change to
    HOME line 30 reads [dir->string] through the NULL [dir]. *)
Theorem cd_falls_through_after_home_and_oldpwd :
  execute (Some (plain "cd" (Some (literal "~")) None None None)) 0 None
    (start (<["HOME"%string := "/home/u"%string]> ∅) [Chdired true; Chdired false])
  = Returned 1
      (World (<["HOME"%string := "/home/u"%string]> ∅) "/home/u" std_fds 1 []
         [EChdir (Some "/home/u"%string) 0; EChdir (Some "~"%string) (-1)])
  /\ execute (Some (plain "cd" (Some (literal "-")) None None None)) 0 None
       (start (<["OLDPWD"%string := "/old"%string]> ∅) [Chdired true; Chdired false])
     = Returned 1
         (World (<["OLDPWD"%string := "/old"%string]> ∅) "/old" std_fds 1 []
            [EChdir (Some "/old"%string) 0; EChdir (Some "-"%string) (-1)])
  /\ execute (Some (plain "cd" None None None None)) 0 None
       (start (<["HOME"%string := "/home/u"%string]> ∅) [Chdired true])
     = Halted Segv
         (World (<["HOME"%string := "/home/u"%string]> ∅) "/home/u" std_fds 1 []
            [EChdir (Some "/home/u"%string) 0])
  /\ 1 <> 0.
Proof.
  split; [vm_compute; reflexivity|].
  split; [vm_compute; reflexivity|].
  split; [vm_compute; reflexivity|discriminate].
Qed.

(** A process with no OLDPWD does [cd /a], [cd /b] and [cd -], one after
    the other.  The first two succeed; the third returns 1 and leaves the
    process in [/b]: nothing recorded [/a] as the directory to go back to. *)
Lemma cd_dash_does_not_go_back :
  exists w1 w2 w3,
    execute (Some (plain "cd" (Some (literal "/a")) None None None)) 0 None
      (start ∅ [Chdired true; Chdired true]) = Returned 0 w1
    /\ w_cwd w1 = "/a"%string
    /\ execute (Some (plain "cd" (Some (literal "/b")) None None None)) 0 None w1
       = Returned 0 w2
    /\ w_cwd w2 = "/b"%string
    /\ execute (Some (plain "cd" (Some (literal "-")) None None None)) 0 None w2
       = Returned 1 w3
    /\ w_cwd w3 = "/b"%string
    /\ w_cwd w3 <> "/a"%string
    /\ 1 <> 0.
Proof.
  do 3 eexists.
  split; [vm_compute; reflexivity|]. split; [reflexivity|].
  split; [vm_compute; reflexivity|]. split; [reflexivity|].
  split; [vm_compute; reflexivity|]. split; [reflexivity|].
  split; discriminate.
Qed.

Lemma cd_witness :
  execute (Some (plain "cd" (Some (literal "/a")) None None None)) 0 None
    (start ∅ [Chdired true])
  = Returned 0
      (set_cwd (after (start ∅ [Chdired true]) [] [EChdir (Some "/a"%string) 0]) "/a")
  /\ execute (Some (plain "cd" (Some (literal "/a")) None None None)) 0 None
       (start ∅ [Chdired false])
     = Returned 1 (after (start ∅ [Chdired false]) [] [EChdir (Some "/a"%string) (-1)])
  /\ execute (Some (plain "cd" None None None None)) 0 None (start ∅ [])
     = Returned 1 (after (start ∅ []) [] [EChdir None (-1)])
  /\ (exists evs,
        w_trace (world_of
          (execute (Some (plain "cd" (Some (literal "~")) None None None)) 0 None
             (start (<["HOME"%string := "/home/u"%string]> ∅) [Chdired true; Chdired false])))
        = [] ++ EChdir (Some "/home/u"%string) 0 :: evs)
  /\ execute (Some (plain "cd" (Some (literal "-")) None None None)) 0 None
       (start (<["OLDPWD"%string := "/old"%string]> ∅) [Chdired false])
     = Returned 1
         (after (start (<["OLDPWD"%string := "/old"%string]> ∅) [Chdired false]) []
            [EChdir (Some "/old"%string) (-1)])
  /\ w_env (world_of
       (execute (Some (plain "cd" (Some (literal "/a")) None None None)) 0 None
          (start (<["OLDPWD"%string := "/old"%string]> ∅) [Chdired true])))
     = <["OLDPWD"%string := "/old"%string]> ∅.
Proof.
  pose (facts := fun arg env answers =>
    cd_changes_directory_and_reports
      sample_IO_OUT_APPEND sample_IO_ERR_APPEND
      (plain "cd" arg None None None) (literal "cd") 0 None
      (start env answers) (start env answers) eq_refl eq_refl eq_refl).
  split; [|split; [|split; [|split; [|split]]]].
  - destruct (facts (Some (literal "/a")) ∅ [Chdired true]) as (H & _).
    exact (H (literal "/a") "/a"%string true [] eq_refl eq_refl
             ltac:(discriminate) ltac:(discriminate) ltac:(discriminate) eq_refl).
  - destruct (facts (Some (literal "/a")) ∅ [Chdired false]) as (H & _).
    exact (H (literal "/a") "/a"%string false [] eq_refl eq_refl
             ltac:(discriminate) ltac:(discriminate) ltac:(discriminate) eq_refl).
  - destruct (facts None ∅ []) as (_ & H & _).
    destruct (H eq_refl) as (Hunset & _).
    exact (Hunset eq_refl).
  - destruct (facts (Some (literal "~")) (<["HOME"%string := "/home/u"%string]> ∅)
                [Chdired true; Chdired false]) as (_ & H & _).
    destruct (H eq_refl) as (_ & _ & Hfirst).
    exact (Hfirst "/home/u"%string [Chdired false] eq_refl eq_refl).
  - destruct (facts (Some (literal "-")) (<["OLDPWD"%string := "/old"%string]> ∅)
                [Chdired false]) as (_ & _ & H & _).
    destruct (H (literal "-") eq_refl eq_refl) as (_ & Hrefused & _).
    exact (Hrefused "/old"%string [] eq_refl eq_refl).
  - destruct (facts (Some (literal "/a")) (<["OLDPWD"%string := "/old"%string]> ∅)
                [Chdired true]) as (_ & _ & _ & H).
    exact H.
Defined.

(** ** Runs for the further properties *)

Lemma external_child_witness :
  exists h w',
    execute (Some (plain "ls" None None None None)) 0 None (start ∅ [Forked 0; Exec_done])
    = Halted h w'.
Proof.
  exact (external_child_never_returns sample_IO_OUT_APPEND sample_IO_ERR_APPEND
           (plain "ls" None None None None) "ls" 0 None
           (start ∅ [Forked 0; Exec_done]) [Exec_done] eq_refl eq_refl).
Defined.

Lemma fork_failure_witness :
  execute (Some (plain "ls" None None None None)) 0 None (start ∅ [Forked (-1); Forked (-1)])
    = Returned (-1) (after (start ∅ [Forked (-1); Forked (-1)]) [Forked (-1)] [EFork (-1)])
  /\ evaluate
       (Some (node OP_CONDITIONAL_NZERO (leaf_of (plain "ls" None None None None))
                (leaf_of (plain "date" None None None None))))
       0 None (start ∅ [Forked (-1); Forked (-1)])
     = Returned (-1) (after (start ∅ [Forked (-1); Forked (-1)]) [] [EFork (-1); EFork (-1)])
  /\ evaluate
       (Some (node OP_CONDITIONAL_ZERO (leaf_of (plain "ls" None None None None))
                (leaf_of (plain "date" None None None None))))
       0 None (start ∅ [Forked (-1); Forked (-1)])
     = Returned (-1) (after (start ∅ [Forked (-1); Forked (-1)]) [Forked (-1)] [EFork (-1)]).
Proof.
  destruct (fork_failure_is_a_failed_command
              sample_SHELL_EXIT sample_IO_OUT_APPEND sample_IO_ERR_APPEND
              (plain "ls" None None None None) "ls" None None None
              (leaf_of (plain "date" None None None None)) 0 None
              (start ∅ [Forked (-1); Forked (-1)]) [Forked (-1)] eq_refl eq_refl)
    as (Hleaf & Hnz & Hz).
  split; [exact Hleaf|]. split; [exact (eq_trans Hnz eq_refl)|exact Hz].
Defined.

Lemma unopenable_input_witness :
  execute (Some sort_from_missing) 0 None (start ∅ [Forked 0; Opened false; Exec_done])
  = Halted (Exec "sort" ["sort"%string])
      (after (start ∅ [Forked 0; Opened false; Exec_done]) []
         [EFork 0; EOpen (Some "missing"%string) O_RDONLY 0 (-1);
          EDup2 (-1) STDIN_FILENO (-1); EClose (-1) (-1);
          EExecvp "sort" ["sort"%string] false]).
Proof.
  exact (unopenable_input_is_ignored sample_IO_OUT_APPEND sample_IO_ERR_APPEND
           sort_from_missing "sort" (literal "missing") 0 None
           (start ∅ [Forked 0; Opened false; Exec_done]) []
           eq_refl eq_refl eq_refl eq_refl eq_refl).
Defined.

Lemma failing_leaf_below_parallel_witness :
  run_in_parallel evaluate (leaf_of (plain "false" None None None None))
    (leaf_of (plain "date" None None None None)) 0 None
    (start ∅ [Forked 0; Forked 10; Waited 10 (wait_status (Exits 1))])
  = Halted (Exit 256)
      (after (start ∅ [Forked 0; Forked 10; Waited 10 (wait_status (Exits 1))]) []
         [EFork 0; EFork 10; EWaitpid 10 10 256])
  /\ wait_status (Exits 256) = 0.
Proof.
  exact (failing_leaf_below_parallel_exits_zero
           sample_SHELL_EXIT sample_IO_OUT_APPEND sample_IO_ERR_APPEND
           (plain "false" None None None None) "false" None None
           (leaf_of (plain "date" None None None None)) 0 None
           (start ∅ [Forked 0; Forked 10; Waited 10 (wait_status (Exits 1))])
           10 10 1 [] eq_refl ltac:(discriminate) ltac:(discriminate)
           ltac:(discriminate) ltac:(lia) eq_refl).
Defined.

Lemma appending_both_witness :
  child_redirections sample_IO_OUT_APPEND sample_IO_ERR_APPEND make_append_log_log
    (forked_child ∅ [Opened true; Opened true; Opened true; Exec_done])
  = Returned tt
      (World ∅ "/start"
         (<[STDERR_FILENO := Ofd 3 (File "log") 577]>
            (<[STDOUT_FILENO := Ofd 3 (File "log") 577]> std_fds))
         4 [Exec_done]
         [EFork 0;
          EOpen (Some "log"%string) 1089 420 3; EDup2 3 1 1; EClose 3 0;
          EOpen (Some "log"%string) 1089 420 3; EDup2 3 2 2; EClose 3 0;
          EOpen (Some "log"%string) 577 420 3; EDup2 3 1 1; EDup2 3 2 2; EClose 3 0])
  /\ Z.land 577 O_APPEND = 0.
Proof.
  destruct (appending_both_to_one_name_truncates
              sample_IO_OUT_APPEND sample_IO_ERR_APPEND make_append_log_log
              (literal "log") (literal "log") "log"
              (forked_child ∅ [Opened true; Opened true; Opened true; Exec_done])
              [Exec_done] eq_refl eq_refl eq_refl eq_refl eq_refl
              ltac:(discriminate) ltac:(discriminate)
              (ex_intro _ terminal eq_refl) (ex_intro _ terminal eq_refl) eq_refl)
    as (Hrun & Hflags).
  split; [exact (eq_trans Hrun eq_refl)|exact Hflags].
Defined.

(** The pipe runner on [cat | grep x], from a fresh process. *)
Abbreviation on_pipe answers :=
  (run_on_pipe evaluate (leaf_of (plain "cat" None None None None))
     (leaf_of (plain "grep" (Some (literal "x")) None None None))
     0 None (start ∅ answers)).

Lemma pipe_failures_witness :
  on_pipe [Piped false]
    = Returned false (World ∅ "/start" std_fds 1 [] [EPipe (-1) 0 0])
  /\ on_pipe [Piped true; Forked (-1)]
     = Returned false
         (World ∅ "/start"
            (<[4 := Ofd 2 Pipe_write O_WRONLY]> (<[3 := Ofd 1 Pipe_read O_RDONLY]> std_fds))
            3 [] [EPipe 0 3 4; EFork (-1)])
  /\ on_pipe [Piped true; Forked 10; Forked (-1)]
     = Returned false
         (World ∅ "/start" (<[3 := Ofd 1 Pipe_read O_RDONLY]> std_fds) 3 []
            [EPipe 0 3 4; EFork 10; EClose 4 0; EFork (-1)])
  /\ on_pipe [Piped true; Forked 10; Forked 11; Waited (-1) 0]
     = Returned false
         (World ∅ "/start" std_fds 3 []
            [EPipe 0 3 4; EFork 10; EClose 4 0; EFork 11; EClose 3 0; EWaitpid 10 (-1) 0])
  /\ on_pipe [Piped true; Forked 10; Forked 11; Waited 10 0; Waited (-1) 0]
     = Returned false
         (World ∅ "/start" std_fds 3 []
            [EPipe 0 3 4; EFork 10; EClose 4 0; EFork 11; EClose 3 0;
             EWaitpid 10 10 0; EWaitpid 11 (-1) 0]).
Proof.
  pose (facts := fun answers rest =>
    pipe_runner_failures
      sample_SHELL_EXIT sample_IO_OUT_APPEND sample_IO_ERR_APPEND
      (leaf_of (plain "cat" None None None None))
      (leaf_of (plain "grep" (Some (literal "x")) None None None))
      0 None (start ∅ answers) rest).
  split; [|split; [|split; [|split]]].
  - destruct (facts [Piped false] []) as (H & _). exact (H eq_refl).
  - destruct (facts [Piped true; Forked (-1)] []) as (_ & H & _).
    exact (eq_trans (H eq_refl) eq_refl).
  - destruct (facts [Piped true; Forked 10; Forked (-1)] []) as (_ & _ & H & _).
    exact (eq_trans (H 10 ltac:(discriminate) ltac:(discriminate) eq_refl) eq_refl).
  - destruct (facts [Piped true; Forked 10; Forked 11; Waited (-1) 0] [])
      as (_ & _ & _ & H & _).
    exact (eq_trans (H 10 11 0 ltac:(discriminate) ltac:(discriminate)
                       ltac:(discriminate) ltac:(discriminate) eq_refl) eq_refl).
  - destruct (facts [Piped true; Forked 10; Forked 11; Waited 10 0; Waited (-1) 0] [])
      as (_ & _ & _ & _ & H).
    exact (eq_trans (H 10 11 10 0 0 ltac:(discriminate) ltac:(discriminate)
                       ltac:(discriminate) ltac:(discriminate) ltac:(discriminate)
                       eq_refl) eq_refl).
Defined.

Lemma pipe_wiring_witness :
  on_pipe [Piped true; Forked 0; Forked 0; Exec_done]
    = Halted (Exec "cat" ["cat"%string])
        (World ∅ "/start" (<[STDOUT_FILENO := Ofd 2 Pipe_write O_WRONLY]> std_fds) 3 []
           [EPipe 0 3 4; EFork 0; EClose 3 0; EDup2 4 1 1; EClose 4 0;
            EFork 0; EExecvp "cat" ["cat"%string] false])
  /\ on_pipe [Piped true; Forked 10; Forked 0; Forked 0; Exec_done]
     = Halted (Exec "grep" ["grep"%string; "x"%string])
         (World ∅ "/start" (<[STDIN_FILENO := Ofd 1 Pipe_read O_RDONLY]> std_fds) 3 []
            [EPipe 0 3 4; EFork 10; EClose 4 0; EFork 0; EDup2 3 0 0; EClose 3 0;
             EFork 0; EExecvp "grep" ["grep"%string; "x"%string] false]).
Proof.
  pose (facts := fun answers rest =>
    pipe_children_are_wired
      sample_SHELL_EXIT sample_IO_OUT_APPEND sample_IO_ERR_APPEND
      (leaf_of (plain "cat" None None None None))
      (leaf_of (plain "grep" (Some (literal "x")) None None None))
      0 None (start ∅ answers) rest).
  split.
  - destruct (facts [Piped true; Forked 0; Forked 0; Exec_done] [Forked 0; Exec_done])
      as (H & _).
    exact (eq_trans (H (ex_intro _ terminal eq_refl) eq_refl) eq_refl).
  - destruct (facts [Piped true; Forked 10; Forked 0; Forked 0; Exec_done]
                [Forked 0; Exec_done]) as (_ & H).
    exact (eq_trans (H 10 ltac:(discriminate) ltac:(discriminate)
                       (ex_intro _ terminal eq_refl) eq_refl) eq_refl).
Defined.

Lemma assignment_witness :
  execute (Some assign_X_1) 0 None (start (<["X"%string := "0"%string]> ∅) [])
  = Returned 0 (start (<["X"%string := "1"%string]> ∅) []).
Proof.
  refine (eq_trans
    (assignment_sets_the_variable sample_IO_OUT_APPEND sample_IO_ERR_APPEND
       assign_X_1 _ _ "X" 0 None (start (<["X"%string := "0"%string]> ∅) [])
       eq_refl eq_refl eq_refl eq_refl
       ltac:(discriminate) ltac:(discriminate) ltac:(discriminate) ltac:(discriminate)
       eq_refl) _).
  vm_compute. reflexivity.
Defined.

Lemma cd_frame_witness :
  w_fds (world_of
    (execute (Some cd_redirected) 0 None
       (start ∅ [Opened true; Opened true; Opened true; Chdired true])))
    !! STDOUT_FILENO = Some terminal
  /\ w_env (world_of
       (execute (Some cd_redirected) 0 None
          (start ∅ [Opened true; Opened true; Opened true; Chdired true]))) = ∅.
Proof.
  exact (cd_leaf_touches_only_descriptor_2 sample_IO_OUT_APPEND sample_IO_ERR_APPEND
           cd_redirected (literal "cd") 0 None
           (start ∅ [Opened true; Opened true; Opened true; Chdired true])
           STDOUT_FILENO eq_refl eq_refl ltac:(discriminate)).
Defined.

Lemma builtin_calls_witness :
  only local_call (execute (Some cd_redirected) 0 None).
Proof.
  exact (only_external_leaves_fork sample_IO_OUT_APPEND sample_IO_ERR_APPEND
           cd_redirected 0 None eq_refl).
Defined.

Lemma unstarted_runner_witness :
  evaluate (Some (node OP_PARALLEL (leaf_of (plain "cat" None None None None))
                    (leaf_of (plain "date" None None None None))))
    0 None (start ∅ [Forked (-1)])
  = Returned 0 (after (start ∅ [Forked (-1)]) [] [EFork (-1)])
  /\ evaluate (Some (node OP_CONDITIONAL_NZERO (Some piped)
                       (leaf_of (plain "date" None None None None))))
       0 None (start ∅ [Piped false])
     = Returned 0 (after (start ∅ [Piped false]) [] [EPipe (-1) 0 0]).
Proof.
  split.
  - destruct (unstarted_runner_reads_as_success
                sample_SHELL_EXIT sample_IO_OUT_APPEND sample_IO_ERR_APPEND
                None None (leaf_of (plain "cat" None None None None))
                (leaf_of (plain "date" None None None None)) None 0 None
                (start ∅ [Forked (-1)]) []) as (H & _).
    exact (proj1 (H eq_refl)).
  - destruct (unstarted_runner_reads_as_success
                sample_SHELL_EXIT sample_IO_OUT_APPEND sample_IO_ERR_APPEND
                None None (leaf_of (plain "cat" None None None None))
                (leaf_of (plain "grep" (Some (literal "x")) None None None))
                (leaf_of (plain "date" None None None None)) 0 None
                (start ∅ [Piped false]) []) as (_ & H).
    exact (proj2 (proj2 (H eq_refl))).
Defined.

Lemma leaf_descriptors_witness :
  dom (w_fds (world_of
    (execute (Some make_log_log) 0 None
       (start ∅ [Forked 0; Opened true; Opened true; Opened true; Exec_done]))))
  = dom std_fds.
Proof.
  exact (leaf_leaks_no_descriptor sample_IO_OUT_APPEND sample_IO_ERR_APPEND
           (Some make_log_log) 0 None
           (start ∅ [Forked 0; Opened true; Opened true; Opened true; Exec_done])
           (ex_intro _ terminal eq_refl) (ex_intro _ terminal eq_refl)
           (ex_intro _ terminal eq_refl)).
Defined.

Lemma tree_descriptors_witness :
  dom (w_fds (world_of
    (evaluate (Some piped) 0 None
       (start ∅ [Piped true; Forked 10; Forked 11; Waited 10 0; Waited 11 0]))))
  = dom std_fds.
Proof.
  refine (tree_leaks_no_descriptor
            sample_SHELL_EXIT sample_IO_OUT_APPEND sample_IO_ERR_APPEND
            (Some piped) 0 None
            (start ∅ [Piped true; Forked 10; Forked 11; Waited 10 0; Waited 11 0])
            (ex_intro _ terminal eq_refl) (ex_intro _ terminal eq_refl)
            (ex_intro _ terminal eq_refl) _ _).
  - repeat constructor; discriminate.
  - vm_compute. exact I.
Defined.

Lemma conditionals_witness :
  evaluate (Some (node OP_CONDITIONAL_ZERO (leaf_of (plain "false" None None None None))
                    (leaf_of (plain "date" None None None None))))
    0 None (start ∅ [Forked 10; Waited 10 256])
  = Returned 256 (after (start ∅ [Forked 10; Waited 10 256]) []
                    [EFork 10; EWaitpid 10 10 256])
  /\ evaluate (Some (node OP_CONDITIONAL_NZERO (leaf_of (plain "sleep" None None None None))
                       (leaf_of (plain "date" None None None None))))
       0 None (start ∅ [Forked 10; Waited 10 9])
     = Returned 0 (after (start ∅ [Forked 10; Waited 10 9]) []
                     [EFork 10; EWaitpid 10 10 9]).
Proof.
  split.
  - destruct (conditionals_follow_the_way_a_command_ended
                sample_SHELL_EXIT sample_IO_OUT_APPEND sample_IO_ERR_APPEND
                (plain "false" None None None None) "false" None None None
                (leaf_of (plain "date" None None None None)) 0 None
                (start ∅ [Forked 10; Waited 10 256]) 10 10 []
                eq_refl ltac:(discriminate) ltac:(discriminate) ltac:(discriminate))
      as (H & _).
    exact (proj1 (H 1 ltac:(lia) eq_refl)).
  - destruct (conditionals_follow_the_way_a_command_ended
                sample_SHELL_EXIT sample_IO_OUT_APPEND sample_IO_ERR_APPEND
                (plain "sleep" None None None None) "sleep" None None None
                (leaf_of (plain "date" None None None None)) 0 None
                (start ∅ [Forked 10; Waited 10 9]) 10 10 []
                eq_refl ltac:(discriminate) ltac:(discriminate) ltac:(discriminate))
      as (_ & H).
    exact (proj2 (H 9 false ltac:(lia) eq_refl)).
Defined.
